(** * adlframework: the batching engine of [adlframework/datasource.py]

    A shallow embedding of class [DataSource]: the prefilter stage, the
    controller chain, the batch assembler [next] with its memory policy, the
    entity queue filler and the sample workers, [filter_ids] / [save_ids]
    and the [split] combinator.

    The module is Python 2 code: it imports [datasource_union] by an
    implicit relative import, its iterator method is [next] (with
    [__next__] added as a "wrapper for python 3"), and it takes [len] of
    the result of the builtin [filter].  The builtins are therefore
    modelled with their Python 2 meaning; in particular [filter] returns a
    list. *)

From Stdlib Require Import ZArith QArith Qround Qabs Qpower Lia Lqa Bool Ascii String List Permutation DecimalString.
From stdpp Require Import base option list strings gmap fin_maps.

Set Warnings "-register-all".

Local Open Scope string_scope.
Local Open Scope list_scope.
Local Open Scope Z_scope.

(** ** Python values *)

(** The values a sample, a controller result or an identifier can be.
    Opaque payloads (arrays, decoded audio, ...) are carried as the items
    of a tuple. *)
Inductive pyval : Type :=
  | VNone
  | VBool (b : bool)
  | VInt (n : Z)
  | VStr (s : string)
  | VTuple (items : list pyval).

(** Python's [==] on these values: [bool] is a subclass of [int], so
    [True == 1] and [False == 0]; tuples compare item by item; values of
    unrelated types are different. *)
Fixpoint py_eq (a b : pyval) {struct a} : bool :=
  match a, b with
  | VNone, VNone => true
  | VBool x, VBool y => Bool.eqb x y
  | VBool x, VInt y => Z.eqb (Z.b2z x) y
  | VInt x, VBool y => Z.eqb x (Z.b2z y)
  | VInt x, VInt y => Z.eqb x y
  | VStr x, VStr y => String.eqb x y
  | VTuple xs, VTuple ys =>
      (fix items_eq (xs ys : list pyval) {struct xs} : bool :=
         match xs, ys with
         | [], [] => true
         | x :: xs', y :: ys' => py_eq x y && items_eq xs' ys'
         | _, _ => false
         end) xs ys
  | _, _ => false
  end.

(** Truth value testing, as done by [if sample:]. *)
Definition py_truthy (v : pyval) : bool :=
  match v with
  | VNone => false
  | VBool b => b
  | VInt n => negb (Z.eqb n 0)
  | VStr s => negb (String.eqb s EmptyString)
  | VTuple items => match items with [] => false | _ :: _ => true end
  end.

Definition py_True : pyval := VBool true.
Definition py_False : pyval := VBool false.

(** ** Exceptions and results *)

Inductive exn : Type :=
  | NameError (name : string)
  | IndexError
  | TypeError
  | ValueError
  | AttributeError (name : string)
  | AssertionError (msg : string)
  | RuntimeFailure (msg : string)   (* any other subclass of Exception *)
  | KeyboardInterrupt.              (* a BaseException, not an Exception *)

(** [except Exception] catches everything but the [BaseException]s. *)
Definition is_Exception (e : exn) : bool :=
  match e with
  | KeyboardInterrupt => false
  | _ => true
  end.

Inductive result (A : Type) : Type :=
  | Return (a : A)
  | Raise (e : exn).
Arguments Return {A} a.
Arguments Raise {A} e.

(** ** The controller chain: [DataSource.process_sample] *)

(** A controller is a callable on a sample; calling it may raise. *)
Definition controller : Type := pyval -> result pyval.

(** [process_sample] together with the list of calls it made: the argument
    each controller that was run received, in call order.

<<
    for controller in self.controllers:
        tmp = controller(sample)
        sample = sample if tmp == True else tmp
        if sample == False:
            return False
    return sample
>> *)
Fixpoint process_sample_trace (controllers : list controller) (sample : pyval)
  : list pyval * result pyval :=
  match controllers with
  | [] => ([], Return sample)
  | c :: rest =>
      match c sample with
      | Raise e => ([sample], Raise e)
      | Return tmp =>
          let sample' := if py_eq tmp py_True then sample else tmp in
          if py_eq sample' py_False then ([sample], Return py_False)
          else
            let '(calls, r) := process_sample_trace rest sample' in
            (sample :: calls, r)
      end
  end.

Definition process_sample (controllers : list controller) (sample : pyval)
  : result pyval :=
  snd (process_sample_trace controllers sample).

(** The update one controller makes to the current sample. *)
Definition controller_update (tmp sample : pyval) : pyval :=
  if py_eq tmp py_True then sample else tmp.

(** ** Entities, queues, the environment *)

(** Identifiers are what the retrieval lists (file names, keys) or the
    integer [0] of the mode without a retrieval.  On these two types
    Python's [==] and [hash] agree with equality of the values. *)
Inductive ident : Type :=
  | IdInt (n : Z)
  | IdStr (s : string).

Definition ident_eq_dec (a b : ident) : {a = b} + {a <> b}.
Proof. decide equality; [apply Z.eq_dec | apply string_dec]. Defined.

#[global] Instance ident_eq_decision : EqDecision ident := ident_eq_dec.

(** Modelled from the spec: the entity class is not part of these sources.
    An entity is identified by [unique_id], owns a lazily populated raw-data
    field [data] that can be released, and produces a sample on demand.
    [data] is the attribute of that name: [None] when the object has no
    such attribute, as before the first load and after a release. *)
Record Entity : Type := mkEntity {
  unique_id : ident;
  data : option pyval
}.

Definition set_data (e : Entity) (d : option pyval) : Entity :=
  {| unique_id := unique_id e; data := d |}.

(** [del entity.data]: the attribute is removed; on an object that does
    not have it the statement raises [AttributeError]. *)
Definition del_data (e : Entity) : result Entity :=
  match data e with
  | Some _ => Return (set_data e None)
  | None => Raise (AttributeError "data")
  end.

(** A [multiprocessing.Queue(maxsize)]: a [maxsize] that is not positive
    means no bound. *)
Record Queue (A : Type) : Type := mkQueue {
  maxsize : Z;
  items : list A
}.
Arguments mkQueue {A} maxsize items.
Arguments maxsize {A} q.
Arguments items {A} q.

Definition queue_full {A} (q : Queue A) : bool :=
  (0 <? maxsize q) && (maxsize q <=? Z.of_nat (length (items q))).

Definition queue_put {A} (q : Queue A) (x : A) : Queue A :=
  mkQueue (maxsize q) (items q ++ [x]).

Definition new_queue {A} (queue_size : option Z) : Queue A :=
  mkQueue (default 0 queue_size) [].

(** The two queues shared by the filler, the workers and the assembler. *)
Record Pipeline : Type := mkPipeline {
  entity_queue : Queue Entity;
  sample_queue : Queue pyval
}.

Inductive log_event : Type :=
  | LogPrefiltering
  | LogFilterBanner (i : nat)
  | LogBeforeFilter (i : nat) (count : nat)
  | LogAfterFilter (i : nat) (count : nat)
  | LogShuffling                       (* 'Shuffling the datasource' *)
  | LogSampleFailure (e : exn)         (* 'Controller or sample Failure' *)
  | LogFilterIdsPre (count : nat)
  | LogFilterIdsPost (count : nat)
  | LogSplitWarning
  | LogNoRetrieval.

(** The target of a child process: [Process(target=self.async_fill_queue)]
    or [Process(target=self.async_add_to_sample_queue)]. *)
Inductive process : Type :=
  | FillerProcess
  | WorkerProcess.

(** What lies outside the object: the generator behind [random.shuffle],
    the number of memory measurements taken so far, the log, the files and
    the child processes started so far. *)
Record World : Type := mkWorld {
  rng : nat;
  mem_clock : nat;
  log : list log_event;
  files : gmap string string;
  processes : list process
}.

Definition emit (ev : log_event) (w : World) : World :=
  mkWorld (rng w) (mem_clock w) (log w ++ [ev]) (files w) (processes w).

Definition tick_rng (w : World) : World :=
  mkWorld (S (rng w)) (mem_clock w) (log w) (files w) (processes w).

Definition tick_mem (w : World) : World :=
  mkWorld (rng w) (S (mem_clock w)) (log w) (files w) (processes w).

Definition write_file (name content : string) (w : World) : World :=
  mkWorld (rng w) (mem_clock w) (log w) (<[name := content]> (files w)) (processes w).

(** [Process(target=...).start()] *)
Definition start_process (p : process) (w : World) : World :=
  mkWorld (rng w) (mem_clock w) (log w) (files w) (processes w ++ [p]).

(** A prefilter is a predicate on entities.  The predicates considered
    are the ones that answer on every entity: a predicate that raises is
    not caught by the prefilter stage and ends the constructor with its
    exception. *)
Definition prefilter : Type := Entity -> bool.

(** An argument the constructor requires to be a list, by
    [assert type(x) is list]: a list, or a value of another type. *)
Inductive list_argument (A : Type) : Type :=
  | IsList (l : list A)
  | NotList.
Arguments IsList {A} l.
Arguments NotList {A}.

(** The attributes of a [DataSource] instance. *)
Record DataSource : Type := mkDataSource {
  max_mem_percent : Q;
  verbosity : Z;
  controllers : list controller;
  prefilters : list prefilter;
  _entities : list Entity;
  batch_size : Z;
  list_pointer : Z;
  timeout : option Z;
  workers : Z;
  convert_batch_to_np : bool
}.

Definition set_entities (d : DataSource) (es : list Entity) : DataSource :=
  mkDataSource (max_mem_percent d) (verbosity d) (controllers d) (prefilters d)
    es (batch_size d) (list_pointer d) (timeout d) (workers d)
    (convert_batch_to_np d).

Definition set_list_pointer (d : DataSource) (p : Z) : DataSource :=
  mkDataSource (max_mem_percent d) (verbosity d) (controllers d) (prefilters d)
    (_entities d) (batch_size d) p (timeout d) (workers d)
    (convert_batch_to_np d).

(** The state a call runs in: the instance, the queues when the instance
    has them (worker count above one), and the environment. *)
Record State : Type := mkState {
  self : DataSource;
  queues : option Pipeline;
  world : World
}.

Definition with_self (st : State) (d : DataSource) : State :=
  mkState d (queues st) (world st).

Definition with_world (st : State) (w : World) : State :=
  mkState (self st) (queues st) w.

(** ** Floats

    [mem.percent / 100.0] and [len(ds1._entities) * split_percent] are
    computed in binary64.  A finite float is taken as the rational number
    it is; an arithmetic operation gives the float nearest to the exact
    result, a tie going to the even mantissa, and comparisons are exact.
    Overflow, subnormal numbers and the special values are left out: they
    lie far from the fractions and the store sizes of this module. *)

(** The integer nearest to [x], the even one of two equally near. *)
Definition round_half_even (x : Q) : Z :=
  let f := Qfloor x in
  match (x - inject_Z f ?= 1 # 2)%Q with
  | Lt => f
  | Gt => f + 1
  | Eq => if Z.even f then f else f + 1
  end.

(** The exponent [e] for which [a / 2^e] lies in the interval from [2^52]
    to [2^53] that holds the 53-bit mantissas, for a positive [a]. *)
Definition binade (a : Q) : Z :=
  let e0 := Z.log2 (Qnum a) - Z.log2 (Zpos (Qden a)) - 52 in
  if Qle_bool (inject_Z (2 ^ 52)) (a / 2 ^ e0)%Q then e0 else e0 - 1.

(** The float nearest to [x].  Zero, which has no mantissa in that
    interval, is a float already. *)
Definition round_double (x : Q) : Q :=
  let a := Qabs x in
  let e := binade a in
  let scaled := (a / 2 ^ e)%Q in
  if Qle_bool (inject_Z (2 ^ 52)) scaled && negb (Qle_bool (inject_Z (2 ^ 53)) scaled)
  then
    let m := (inject_Z (round_half_even scaled) * 2 ^ e)%Q in
    Qred (if Qle_bool 0 x then m else - m)%Q
  else x.

(** The float a decimal literal such as [.95] denotes. *)
Definition py_float (q : Q) : Q := round_double q.

(** [a * b] and [a / b] on floats *)
Definition float_mul (a b : Q) : Q := round_double (a * b).
Definition float_div (a b : Q) : Q := round_double (a / b).

(** ** Python sequences *)

(** [l[i]] for an integer [i]: negative indices count from the end, and
    an index out of range raises [IndexError] ([None] here).  The position
    actually read is returned with the item. *)
Definition py_getitem {A} (l : list A) (i : Z) : option (nat * A) :=
  let n := Z.of_nat (length l) in
  let j := if i <? 0 then i + n else i in
  if (0 <=? j) && (j <? n)
  then (fun x => (Z.to_nat j, x)) <$> (l !! Z.to_nat j)
  else None.

(** The bound of a slice, clipped the way [l[k:]] and [l[:k]] clip it. *)
Definition slice_bound (len k : Z) : nat :=
  Z.to_nat (if k <? 0 then Z.max 0 (len + k) else Z.min k len).

(** [l[:k]] and [l[k:]] *)
Definition py_slice_to {A} (l : list A) (k : Z) : list A :=
  firstn (slice_bound (Z.of_nat (length l)) k) l.

Definition py_slice_from {A} (l : list A) (k : Z) : list A :=
  skipn (slice_bound (Z.of_nat (length l)) k) l.

(** Iterating over a value: tuples yield their items, strings their
    characters, anything else is not iterable. *)
Definition py_iter (v : pyval) : result (list pyval) :=
  match v with
  | VTuple items => Return items
  | VStr s => Return (map (fun c => VStr (String c EmptyString)) (list_ascii_of_string s))
  | _ => Raise TypeError
  end.

Fixpoint py_iter_all (vs : list pyval) : result (list (list pyval)) :=
  match vs with
  | [] => Return []
  | v :: rest =>
      match py_iter v with
      | Raise e => Raise e
      | Return row =>
          match py_iter_all rest with
          | Raise e => Raise e
          | Return rows => Return (row :: rows)
          end
      end
  end.

(** The first item of every row, when no row is exhausted. *)
Fixpoint heads {A} (rows : list (list A)) : option (list A) :=
  match rows with
  | [] => Some []
  | [] :: _ => None
  | (x :: _) :: rest =>
      match heads rest with
      | Some hs => Some (x :: hs)
      | None => None
      end
  end.

Fixpoint zip_rows {A} (n : nat) (rows : list (list A)) : list (list A) :=
  match n with
  | O => []
  | S n' =>
      match heads rows with
      | None => []
      | Some hs => hs :: zip_rows n' (map (@tl A) rows)
      end
  end.

(** [zip] applied to the unpacked rows: the columns, as many as the
    shortest row has items; [zip] without arguments is empty. *)
Definition py_zip {A} (rows : list (list A)) : list (list A) :=
  match rows with
  | [] => []
  | r :: _ => zip_rows (length r) rows
  end.

(** What a call of [next] can come to: a value, an exception that reaches
    the caller, a wait on an empty queue, or an exhausted iteration budget
    (shown below never to happen). *)
Inductive outcome (A : Type) : Type :=
  | Done (a : A)
  | Fails (e : exn)
  | Blocks
  | OutOfFuel.
Arguments Done {A} a.
Arguments Fails {A} e.
Arguments Blocks {A}.
Arguments OutOfFuel {A}.

(** The batch [next] returns: the two parallel sequences, and whether they
    were converted to arrays. *)
Record Batch : Type := mkBatch {
  batch_data : list pyval;
  batch_labels : list pyval;
  as_array : bool
}.

(** Modelled from the spec: the retrieval adapter is not part of these
    sources; it lists identifiers, knows whether a cache exists and loads
    the cached entities. *)
Record Retrieval : Type := mkRetrieval {
  is_cached : bool;
  load_from_cache : list Entity;
  list_ids : list ident
}.

Section DataSource.

(** [entity.get_sample()]: the raw-data field after the call and the
    sample, or the exception raised. *)
Variable get_sample : Entity -> option pyval * result pyval.

(** [random.shuffle] on a list, for each state of the generator. *)
Variable shuffle_with : nat -> list Entity -> list Entity.

(** [psutil.virtual_memory().percent] at the n-th measurement. *)
Variable virtual_memory_percent : nat -> Q.

Definition shuffle (l : list Entity) (w : World) : list Entity * World :=
  (shuffle_with (rng w) l, tick_rng w).

(** *** [DataSource.__prefilter] *)

Fixpoint prefilter_from (i : nat) (pfs : list prefilter)
    (es : list Entity) (w : World) : list Entity * World :=
  match pfs with
  | [] => (es, w)
  | pf :: rest =>
      let w1 := emit (LogFilterBanner i) w in
      let w2 := emit (LogBeforeFilter i (length es)) w1 in
      let es' := List.filter pf es in
      let w3 := emit (LogAfterFilter i (length es')) w2 in
      prefilter_from (S i) rest es' w3
  end.

Definition __prefilter (st : State) : State :=
  let d := self st in
  let w := match prefilters d with
           | [] => world st
           | _ :: _ => emit LogPrefiltering (world st)
           end in
  let '(es, w') := prefilter_from 0 (prefilters d) (_entities d) w in
  mkState (set_entities d es) (queues st) w'.

(** *** [DataSource.reset_queue] *)

Definition reset_queue (st : State) : State :=
  let w := emit LogShuffling (world st) in
  let '(es, w') := shuffle (_entities (self st)) w in
  mkState (set_list_pointer (set_entities (self st) es) 0) (queues st) w'.

(** *** [DataSource.__init__] *)

(** The two type checks and the two checks on the worker count come
    first.  With more than one worker the constructor creates the two
    queues and starts the filler and one worker process per worker before
    it returns; the state returned is the parent's at that moment, with the
    queues as they were created, and what the children then do to the
    queues is the matter of [async_fill_queue] and
    [async_add_to_sample_queue] below.  The check that the store is not
    empty comes last. *)
Definition __init__ (retrieval : option Retrieval)
    (controllers0 : list_argument controller) (ignore_cache : bool) (batch_size0 : Z)
    (timeout0 : option Z) (prefilters0 : list_argument prefilter) (verbosity0 : Z)
    (max_mem_percent0 : Q) (workers0 : Z) (queue_size : option Z)
    (convert_batch_to_np0 : bool) (w : World) : result State :=
  match controllers0, prefilters0 with
  | NotList, _ | IsList _, NotList =>
      Raise (AssertionError "Please make augmentors a list in all data sources")
  | IsList controllers1, IsList prefilters1 =>
      if negb (0 <? workers0)
      then Raise (AssertionError "Workers must be a positive integer.")
      else if (workers0 =? 1) && (match queue_size with Some _ => true | None => false end)
      then Raise (AssertionError
                    "Queue_Size is only applicable to multiple workers. Try limiting memory with max_mem_percent.")
      else
        let '(es, w1) :=
          match retrieval with
          | None => ([mkEntity (IdInt 0) None], emit LogNoRetrieval w)
          | Some r =>
              if negb ignore_cache && is_cached r
              then (load_from_cache r, w)
              else (map (fun id_ => mkEntity id_ None) (list_ids r), w)
          end in
        let '(es1, w2) := shuffle es w1 in
        let d := mkDataSource max_mem_percent0 verbosity0 controllers1 prefilters1
                   es1 batch_size0 0 timeout0 workers0 convert_batch_to_np0 in
        let st := __prefilter (mkState d None w2) in
        let st' := if 1 <? workers0
                   then mkState (self st)
                          (Some (mkPipeline (new_queue queue_size) (new_queue queue_size)))
                          (fold_left (fun w3 p => start_process p w3)
                             (FillerProcess :: repeat WorkerProcess (Z.to_nat workers0))
                             (world st))
                   else st in
        if (0 <? Z.of_nat (length (_entities (self st'))))
        then Return st'
        else Raise (AssertionError "Cannot initialize an empty data source")
  end.

(** *** [DataSource.next] *)

(** The body of the [try] of the single-worker branch: materialise the
    sample and run the controller chain. *)
Definition fetch_sample (d : DataSource) (entity : Entity)
  : Entity * result pyval :=
  let '(data', r) := get_sample entity in
  (set_data entity data',
   match r with
   | Raise e => Raise e
   | Return sample => process_sample (controllers d) sample
   end).

(** The memory check closing an iteration of the batch loop, on the
    entity read at position [i]:

<<
    mem = psutil.virtual_memory()
    if mem.percent/100.0 > self.max_mem_percent:
        del entity.data
>>

    The exception raised, if any, and the state left. *)
Definition memory_check (i : nat) (st : State) : option exn * State :=
  let w := world st in
  let percent := virtual_memory_percent (mem_clock w) in
  let w' := tick_mem w in
  let d := self st in
  if negb (Qle_bool (float_div percent 100) (max_mem_percent d))
  then
    match _entities d !! i with
    | Some entity =>
        match del_data entity with
        | Return entity' =>
            (None, mkState (set_entities d (<[i := entity']> (_entities d))) (queues st) w')
        | Raise e => (Some e, with_world st w')
        end
    | None => (None, with_world st w')
    end
  else (None, with_world st w').

(** The first half of an iteration of [while len(batch) < batch_size], on
    the entity read at position [i]:

<<
    if self.workers == 1:
        try:
            sample = entity.get_sample()
            sample = self.process_sample(sample)
            if sample:
                batch.append(sample)
        except Exception as e:
            if self.verbosity == 3: logging.error(...)
        self.list_pointer += 1
    else:
        sample = self.sample_queue.get()
        batch.append(sample)
>> *)
Definition batch_fill (st : State) (i : nat) (entity : Entity) (batch : list pyval)
  : outcome (list pyval) * State :=
  let d := self st in
  if workers d =? 1 then
    let '(entity', r) := fetch_sample d entity in
    let d1 := set_entities d (<[i := entity']> (_entities d)) in
    let advance (st1 : State) :=
      with_self st1 (set_list_pointer (self st1) (list_pointer (self st1) + 1)) in
    match r with
    | Return sample =>
        (Done (if py_truthy sample then batch ++ [sample] else batch),
         advance (with_self st d1))
    | Raise e =>
        if is_Exception e then
          let w := if verbosity d =? 3
                   then emit (LogSampleFailure e) (world st)
                   else world st in
          (Done batch, advance (mkState d1 (queues st) w))
        else (Fails e, with_self st d1)
    end
  else
    match queues st with
    | None => (Fails (AttributeError "sample_queue"), st)
    | Some p =>
        match items (sample_queue p) with
        | [] => (Blocks, st)
        | sample :: rest =>
            (Done (batch ++ [sample]),
             mkState d
               (Some (mkPipeline (entity_queue p)
                        (mkQueue (maxsize (sample_queue p)) rest)))
               (world st))
        end
    end.

(** One iteration of the loop: the read at the cursor, the first half
    above, and then

<<
    if self.list_pointer >= len(self._entities):
        reset_queue()
>>

    followed by the memory check.  The name [reset_queue] is bound neither
    in the method nor in the module (the method of that name is
    [self.reset_queue]), so the call raises [NameError]. *)
Definition batch_step (st : State) (batch : list pyval)
  : outcome (list pyval) * State :=
  let d := self st in
  match py_getitem (_entities d) (list_pointer d) with
  | None => (Fails IndexError, st)
  | Some (i, entity) =>
      match batch_fill st i entity batch with
      | (Done batch', st1) =>
          if Z.of_nat (length (_entities (self st1))) <=? list_pointer (self st1)
          then (Fails (NameError "reset_queue"), st1)
          else
            match memory_check i st1 with
            | (None, st2) => (Done batch', st2)
            | (Some e, st2) => (Fails e, st2)
            end
      | other => other
      end
  end.

Fixpoint batch_loop (fuel : nat) (size : Z) (st : State) (batch : list pyval)
  : outcome (list pyval) * State :=
  if Z.of_nat (length batch) <? size then
    match fuel with
    | O => (OutOfFuel, st)
    | S fuel' =>
        match batch_step st batch with
        | (Done batch', st') => batch_loop fuel' size st' batch'
        | other => other
        end
    end
  else (Done batch, st).

(** The unpacking [data, labels = zip(...)] of the collected samples and
    the optional conversion to arrays. *)
Definition unpack_batch (convert : bool) (batch : list pyval) : result Batch :=
  match py_iter_all batch with
  | Raise e => Raise e
  | Return rows =>
      match py_zip rows with
      | [data_; labels] => Return (mkBatch data_ labels convert)
      | _ => Raise ValueError
      end
  end.

(** Iterations that are always enough for the loop to end. *)
Definition next_fuel (size : Z) (st : State) : nat :=
  (Z.to_nat (Z.of_nat (length (_entities (self st))) - list_pointer (self st))
   + Z.to_nat size + 1)%nat.

Definition next (batch_size0 : option Z) (st : State) : outcome Batch * State :=
  let size := match batch_size0 with
              | Some b => b
              | None => batch_size (self st)
              end in
  match batch_loop (next_fuel size st) size st [] with
  | (Done batch, st') =>
      match unpack_batch (convert_batch_to_np (self st')) batch with
      | Return b => (Done b, st')
      | Raise e => (Fails e, st')
      end
  | (Fails e, st') => (Fails e, st')
  | (Blocks, st') => (Blocks, st')
  | (OutOfFuel, st') => (OutOfFuel, st')
  end.

(** [DataSource.__next__], the wrapper for Python 3 *)
Definition __next__ (batch_size0 : option Z) (st : State) : outcome Batch * State :=
  next batch_size0 st.

(** *** [DataSource.filter_ids] *)

Definition in_set (id_set : list ident) (e : Entity) : bool :=
  bool_decide (unique_id e ∈ id_set).

Definition filter_ids (id_list : list ident) (st : State) : State :=
  let d := self st in
  let w := emit (LogFilterIdsPre (length (_entities d))) (world st) in
  let es := List.filter (in_set id_list) (_entities d) in
  mkState (set_entities d es) (queues st) (emit (LogFilterIdsPost (length es)) w).

(** *** [DataSource.save_ids] *)

(** [str] of an identifier. *)
Definition py_str (i : ident) : string :=
  match i with
  | IdInt n => NilZero.string_of_int (Z.to_int n)
  | IdStr s => s
  end.

Definition newline_char : ascii := ascii_of_nat 10.
Definition newline : string := String newline_char EmptyString.

(** [sep.join(parts)] *)
Fixpoint py_join (sep : string) (parts : list string) : string :=
  match parts with
  | [] => EmptyString
  | x :: rest =>
      match rest with
      | [] => x
      | _ :: _ => (x ++ sep ++ py_join sep rest)%string
      end
  end.

Definition ids_text (es : list Entity) : string :=
  py_join newline (map (fun x => py_str (unique_id x)) es).

Definition save_ids (name : string) (st : State) : State :=
  with_world st (write_file name (ids_text (_entities (self st))) (world st)).

(** *** [DataSource.async_fill_queue] and [DataSource.async_add_to_sample_queue] *)

(** What a background loop does at one of its iterations: goes on, waits
    on a queue, leaves the loop so that its function returns, or dies of an
    exception. *)
Inductive loop_status : Type :=
  | Continues
  | Waits
  | Returns
  | Crashes (e : exn).

(** The loop test of [async_fill_queue] followed by one run of its body:

<<
    while not self.sample_queue.full():
        self.entity_queue.put(self._entities[self.list_pointer])
        self.list_pointer += 1
        if self.list_pointer >= len(self._entities):
            self.reset_queue()
>> *)
Definition async_fill_queue_step (st : State) : loop_status * State :=
  match queues st with
  | None => (Crashes (AttributeError "sample_queue"), st)
  | Some p =>
      if queue_full (sample_queue p) then (Returns, st)
      else
        let d := self st in
        match py_getitem (_entities d) (list_pointer d) with
        | None => (Crashes IndexError, st)
        | Some (_, entity) =>
            if queue_full (entity_queue p) then (Waits, st)
            else
              let p' := mkPipeline (queue_put (entity_queue p) entity) (sample_queue p) in
              let d' := set_list_pointer d (list_pointer d + 1) in
              let st' := mkState d' (Some p') (world st) in
              if Z.of_nat (length (_entities d')) <=? list_pointer d'
              then (Continues, reset_queue st')
              else (Continues, st')
        end
  end.

(** The filler run for at most [fuel] iterations. *)
Fixpoint async_fill_queue (fuel : nat) (st : State) : loop_status * State :=
  match fuel with
  | O => (Continues, st)
  | S fuel' =>
      match async_fill_queue_step st with
      | (Continues, st') => async_fill_queue fuel' st'
      | other => other
      end
  end.

(** Where a worker stands inside its loop body: about to take an entity,
    or holding an accepted sample it has yet to put. *)
Inductive worker_pc : Type :=
  | Fetching
  | Putting (sample : pyval).

(** One step of a worker inside [while True]:

<<
    try:
        entity = self.entity_queue.get()
        sample = entity.get_sample()
        sample = self.process_sample(sample)
        if sample:
            self.sample_queue.put(sample)
    except Exception as e:
        if self.verbosity == 3: logging.error(...)
>> *)
Definition async_add_to_sample_queue_step (pc : worker_pc) (st : State)
  : loop_status * worker_pc * State :=
  let swallow (e : exn) (st1 : State) : loop_status * worker_pc * State :=
    if is_Exception e then
      (Continues, Fetching,
       if verbosity (self st1) =? 3
       then with_world st1 (emit (LogSampleFailure e) (world st1))
       else st1)
    else (Crashes e, Fetching, st1) in
  match queues st with
  | None => swallow (AttributeError "entity_queue") st
  | Some p =>
      match pc with
      | Putting sample =>
          if queue_full (sample_queue p) then (Waits, pc, st)
          else (Continues, Fetching,
                mkState (self st)
                  (Some (mkPipeline (entity_queue p) (queue_put (sample_queue p) sample)))
                  (world st))
      | Fetching =>
          match items (entity_queue p) with
          | [] => (Waits, Fetching, st)
          | entity :: rest =>
              let st1 := mkState (self st)
                           (Some (mkPipeline (mkQueue (maxsize (entity_queue p)) rest)
                                    (sample_queue p)))
                           (world st) in
              match snd (fetch_sample (self st) entity) with
              | Return sample =>
                  if py_truthy sample then (Continues, Putting sample, st1)
                  else (Continues, Fetching, st1)
              | Raise e => swallow e st1
              end
          end
      end
  end.

End DataSource.

(** ** Objects and references: [DataSource.split]

    [split] returns its argument together with a [copy.copy] of it, so
    which objects are shared matters.  Here the instances and the lists
    they refer to live in a heap; an instance is its attribute dictionary. *)

Definition ref : Type := positive.

(** The value bound to an attribute: an immutable value, or a reference
    to a heap object. *)
Inductive attr_value : Type :=
  | AttrNone
  | AttrBool (b : bool)
  | AttrInt (n : Z)
  | AttrQ (q : Q)
  | AttrRef (r : ref).

Inductive heap_object : Type :=
  | ObjEntityList (es : list Entity)
  | ObjControllerList (cs : list controller)
  | ObjPrefilterList (ps : list prefilter)
  | ObjRetrieval (r : Retrieval)
  | ObjSampleQueue (q : Queue pyval)
  | ObjEntityQueue (q : Queue Entity)
  | ObjInstance (attrs : gmap string attr_value).

Abbreviation heap := (gmap ref heap_object).

Definition result_bind {A B} (r : result A) (k : A -> result B) : result B :=
  match r with
  | Return a => k a
  | Raise e => Raise e
  end.

(** [obj.name] *)
Definition get_attr (h : heap) (obj : ref) (name : string) : result attr_value :=
  match h !! obj with
  | Some (ObjInstance attrs) =>
      match attrs !! name with
      | Some v => Return v
      | None => Raise (AttributeError name)
      end
  | _ => Raise (AttributeError name)
  end.

(** [obj.name = v] *)
Definition set_attr (h : heap) (obj : ref) (name : string) (v : attr_value) : heap :=
  match h !! obj with
  | Some (ObjInstance attrs) => <[obj := ObjInstance (<[name := v]> attrs)]> h
  | _ => h
  end.

(** The list of entities a value refers to. *)
Definition entity_list (h : heap) (v : attr_value) : result (ref * list Entity) :=
  match v with
  | AttrRef r =>
      match h !! r with
      | Some (ObjEntityList es) => Return (r, es)
      | _ => Raise TypeError
      end
  | _ => Raise TypeError
  end.

Definition alloc (o : heap_object) (h : heap) : ref * heap :=
  let r := fresh (dom h) in (r, <[r := o]> h).

(** [copy.copy(obj)] of an instance: a new instance whose attributes are
    bound to the very same values. *)
Definition copy_copy (h : heap) (obj : ref) : result (ref * heap) :=
  match h !! obj with
  | Some (ObjInstance attrs) => Return (alloc (ObjInstance attrs) h)
  | _ => Raise TypeError
  end.

(** [int(x)] of a float: truncation towards zero. *)
Definition py_int (x : Q) : Z := Z.quot (Qnum x) (Zpos (Qden x)).

(** [round(x)]: to the nearest integer, halves away from zero. *)
Definition py_round (x : Q) : Z :=
  if Qle_bool 0 x then Qfloor (x + (1 # 2)) else Qceiling (x - (1 # 2)).

Section Split.

Variable shuffle_with : nat -> list Entity -> list Entity.

(** [len(ds._entities)] and the list itself *)
Definition entities_of (h : heap) (ds : ref) : result (ref * list Entity) :=
  result_bind (get_attr h ds "_entities") (entity_list h).

(**
<<
    break_off = int(len(ds1._entities)*split_percent)
    shuffle(ds1._entities)
    ds2 = copy.copy(ds1)
    ds2._entities = ds1._entities[break_off:]
    ds1._entities = ds1._entities[:break_off]
    return ds1, ds2
>> *)
Definition split (ds1 : ref) (split_percent : Q) (h : heap) (w : World)
  : result (ref * ref) * heap * World :=
  let w0 := emit LogSplitWarning w in
  match entities_of h ds1 with
  | Raise e => (Raise e, h, w0)
  | Return (r, es) =>
      let break_off := py_int (float_mul (inject_Z (Z.of_nat (length es))) split_percent) in
      let '(shuffled, w1) := shuffle shuffle_with es w0 in
      let h1 := <[r := ObjEntityList shuffled]> h in
      match copy_copy h1 ds1 with
      | Raise e => (Raise e, h1, w1)
      | Return (ds2, h2) =>
          match entities_of h2 ds1 with
          | Raise e => (Raise e, h2, w1)
          | Return (_, es1) =>
              let '(r2, h3) := alloc (ObjEntityList (py_slice_from es1 break_off)) h2 in
              let h4 := set_attr h3 ds2 "_entities" (AttrRef r2) in
              match entities_of h4 ds1 with
              | Raise e => (Raise e, h4, w1)
              | Return (_, es2) =>
                  let '(r1, h5) := alloc (ObjEntityList (py_slice_to es2 break_off)) h4 in
                  let h6 := set_attr h5 ds1 "_entities" (AttrRef r1) in
                  (Return (ds1, ds2), h6, w1)
              end
          end
      end
  end.

End Split.

(** The attribute dictionary of an instance whose attributes have the
    values of [d], the mutable ones living at the given references. *)
Definition instance_dict (d : DataSource)
    (r_retrieval r_controllers r_prefilters r_entities : ref)
  : gmap string attr_value :=
  list_to_map
    [ ("max_mem_percent", AttrQ (max_mem_percent d));
      ("verbosity", AttrInt (verbosity d));
      ("_retrieval", AttrRef r_retrieval);
      ("controllers", AttrRef r_controllers);
      ("prefilters", AttrRef r_prefilters);
      ("_entities", AttrRef r_entities);
      ("batch_size", AttrInt (batch_size d));
      ("list_pointer", AttrInt (list_pointer d));
      ("timeout", match timeout d with Some t => AttrInt t | None => AttrNone end);
      ("workers", AttrInt (workers d));
      ("convert_batch_to_np", AttrBool (convert_batch_to_np d)) ].

(** A heap holding the instance of [d] at reference [5], its retrieval,
    controller list, prefilter list and entity list at [1] to [4]. *)
Definition heap_of (d : DataSource) (retrieval : Retrieval) : heap :=
  list_to_map
    [ (1%positive, ObjRetrieval retrieval);
      (2%positive, ObjControllerList (controllers d));
      (3%positive, ObjPrefilterList (prefilters d));
      (4%positive, ObjEntityList (_entities d));
      (5%positive, ObjInstance (instance_dict d 1%positive 2%positive 3%positive 4%positive)) ].

(** The entities of the store at [ds], when it has a list of them. *)
Definition store_entities (h : heap) (ds : ref) : option (list Entity) :=
  match entities_of h ds with
  | Return (_, es) => Some es
  | Raise _ => None
  end.


(** The attributes that no iteration of the batch loop assigns. *)
Definition same_config (d d' : DataSource) : Prop :=
max_mem_percent d' = max_mem_percent d /\ verbosity d' = verbosity d
/\ controllers d' = controllers d /\ prefilters d' = prefilters d
/\ batch_size d' = batch_size d /\ timeout d' = timeout d
/\ workers d' = workers d /\ convert_batch_to_np d' = convert_batch_to_np d.

(** ** Reading a saved id file back *)

(** The lines of a newline-delimited text, as [text.split('\n')] gives
    them. *)
Fixpoint split_lines (text : string) : list string :=
  match text with
  | EmptyString => [EmptyString]
  | String c rest =>
      if Ascii.eqb c newline_char then EmptyString :: split_lines rest
      else
        match split_lines rest with
        | [] => [String c EmptyString]
        | line :: lines => String c line :: lines
        end
  end.

Fixpoint newline_free (s : string) : bool :=
  match s with
  | EmptyString => true
  | String c rest => negb (Ascii.eqb c newline_char) && newline_free rest
  end.

(** The identifiers of a store, in store order. *)
Definition ids_of (es : list Entity) : list ident := map unique_id es.

(** ** A store of ten entities, and environments to run it in *)

Definition id_value (i : ident) : pyval :=
  match i with
  | IdInt n => VInt n
  | IdStr s => VStr s
  end.

(** An entity class whose sample is the pair of its own identifier and a
    constant label, and which caches its raw data on first use. *)
Definition demo_get_sample (e : Entity) : option pyval * result pyval :=
  (Some (VStr "raw"), Return (VTuple [id_value (unique_id e); VStr "label"])).

(** A shuffle that reverses the list. *)
Definition demo_shuffle (seed : nat) (l : list Entity) : list Entity := rev l.

(** The default of the parameter [max_mem_percent], the float [.95]. *)
Definition default_max_mem_percent : Q := py_float (95 # 100).

(** Half of the memory in use, and nearly all of it. *)
Definition calm_memory (n : nat) : Q := 50.
Definition high_memory (n : nat) : Q := 99.

Definition ten_ids : list ident := map IdInt [0; 1; 2; 3; 4; 5; 6; 7; 8; 9].

Definition ten_retrieval : Retrieval := mkRetrieval false [] ten_ids.

Definition world0 : World := mkWorld 0 0 [] ∅ [].

(** [DataSource(retrieval, Entity, batch_size=4)] on the ten identifiers,
    everything else left at its default. *)
Definition ten_store (shuffle_with : nat -> list Entity -> list Entity) : result State :=
  __init__ shuffle_with (Some ten_retrieval) (IsList []) false 4 None (IsList []) 0
    default_max_mem_percent 1 None true world0.

(** The same with two workers and queues of one slot. *)
Definition two_worker_store : result State :=
  __init__ demo_shuffle (Some ten_retrieval) (IsList []) false 4 None (IsList []) 0
    default_max_mem_percent 2 (Some 1) true world0.

Definition ten_entities : list Entity := map (fun id_ => mkEntity id_ None) ten_ids.

(** The state construction leaves the ten-entity store in, for the order
    [es] the shuffle chose. *)
Definition ten_state_with (es : list Entity) : State :=
  mkState (mkDataSource default_max_mem_percent 0 [] [] es 4 0 None 1 true) None
    (mkWorld 1 0 [] ∅ []).

(** The data values the samples of the ten entities carry. *)
Definition ten_values : list pyval := map VInt [0; 1; 2; 3; 4; 5; 6; 7; 8; 9].

Definition state_of (r : result State) : State :=
  match r with
  | Return st => st
  | Raise _ => mkState (mkDataSource 0 0 [] [] [] 0 0 None 0 false) None world0
  end.

(** A controller that rejects every sample, and one that answers with the
    value given. *)
Definition reject_all : controller := fun _ => Return py_False.
Definition answer (v : pyval) : controller := fun _ => Return v.


(** The queues as another process left them, seen from this process. *)
Definition share (other mine : State) : State :=
  mkState (self mine) (queues other) (world mine).

(** ** The claims that fail, as the specification states them *)




(** The filler never leaves its loop. *)
Definition filler_never_returns
    (shuffle_with : nat -> list Entity -> list Entity) : Prop :=
  forall st, fst (async_fill_queue_step shuffle_with st) <> Returns.

(** A prefilter keeping the entities whose integer identifier is below
    [n], and the ten entities behind two of them. *)
Definition id_below (n : Z) : prefilter :=
  fun e => match unique_id e with
           | IdInt k => k <? n
           | IdStr _ => false
           end.

Definition prefiltered_state : State :=
  mkState
    (mkDataSource default_max_mem_percent 0 [] [id_below 7; id_below 3] ten_entities 4 0 None 1 true)
    None world0.

(** One stage of prefiltering: the entities of [es] that satisfy [pf]. *)
Definition keep (es : list Entity) (pf : prefilter) : list Entity := List.filter pf es.

(** ** A run of the two-worker pipeline

    The filler puts one entity, a worker turns it into a sample and puts
    the sample, which fills the one-slot sample queue; the filler then
    comes back to its loop test. *)
Definition filler_after_first_put : State :=
  snd (async_fill_queue_step demo_shuffle (state_of two_worker_store)).

Definition worker_after_fetch : loop_status * worker_pc * State :=
  async_add_to_sample_queue_step demo_get_sample Fetching
    (share filler_after_first_put (state_of two_worker_store)).

Definition worker_after_put : loop_status * worker_pc * State :=
  async_add_to_sample_queue_step demo_get_sample (snd (fst worker_after_fetch))
    (snd worker_after_fetch).

Definition filler_at_second_test : State :=
  share (snd worker_after_put) filler_after_first_put.


(** A reader that takes the lines as they are. *)
Definition parse_str_id (line : string) : ident := IdStr line.

(** ** A store of seven entities in a heap *)

Definition seven_store : DataSource :=
  mkDataSource default_max_mem_percent 0 [] []
    (map (fun n => mkEntity (IdInt n) None) [0; 1; 2; 3; 4; 5; 6]) 4 2 None 1 true.

Definition seven_heap : heap := heap_of seven_store ten_retrieval.


Definition hundred_store : DataSource :=
  mkDataSource default_max_mem_percent 0 [] []
    (map (fun n => mkEntity (IdInt (Z.of_nat n)) None) (seq 0 100)) 4 0 None 1 true.

Definition hundred_heap : heap := heap_of hundred_store ten_retrieval.

(** An entity class that keeps no raw data: its sample is computed anew
    at every call and the attribute [data] is never set. *)
Definition uncached_get_sample (e : Entity) : option pyval * result pyval :=
  (None, Return (VTuple [id_value (unique_id e); VStr "label"])).

(** A sample, and a chain of three controllers of which the second
    rejects. *)
Definition a_sample : pyval := VTuple [VInt 1; VStr "label"].

Definition accept_all : controller := fun _ => Return py_True.

(** ** What a batch is made of *)

(** The samples an entity contributes to a single-worker batch: its sample
    as the controller chain leaves it, when the fetch raises nothing and the
    result passes the truth test; nothing otherwise. *)
Definition accepted (get_sample : Entity -> option pyval * result pyval)
    (d : DataSource) (e : Entity) : list pyval :=
  match snd (fetch_sample get_sample d e) with
  | Return v => if py_truthy v then [v] else []
  | Raise _ => []
  end.
(** The ten-entity store in its listed order with the cursor at [p]. *)
Definition ten_state_at (p : Z) : State :=
  with_self (ten_state_with ten_entities)
    (set_list_pointer (self (ten_state_with ten_entities)) p).

(** The two-worker store with three samples waiting in an unbounded
    sample queue. *)
Definition three_samples_waiting : State :=
  mkState (self (state_of two_worker_store))
    (Some (mkPipeline (mkQueue 0 [])
             (mkQueue 0 [VTuple [VInt 5; VStr "e"]; VTuple [VInt 3; VStr "c"];
                         VTuple [VInt 4; VStr "d"]])))
    world0.
(** ** A worker over several iterations *)

(** The worker loop run for at most [fuel] steps, from where it stands. *)
Fixpoint async_add_to_sample_queue
    (get_sample : Entity -> option pyval * result pyval)
    (fuel : nat) (pc : worker_pc) (st : State) : loop_status * worker_pc * State :=
  match fuel with
  | O => (Continues, pc, st)
  | S fuel' =>
      match async_add_to_sample_queue_step get_sample pc st with
      | (Continues, pc', st') => async_add_to_sample_queue get_sample fuel' pc' st'
      | other => other
      end
  end.

(** A worker's view of the pipeline with two entities waiting. *)
Definition two_entities_queued : State :=
  mkState (self (state_of two_worker_store))
    (Some (mkPipeline (mkQueue 0 (firstn 2 ten_entities)) (mkQueue 0 [])))
    world0.

(** The two-worker store with unbounded, empty queues. *)
Definition unbounded_pipeline : State :=
  mkState (self (state_of two_worker_store))
    (Some (mkPipeline (mkQueue 0 []) (mkQueue 0 []))) world0.
(** ** What the constructor loads *)

(** The entities [__init__] starts from: the synthetic entity 0 without a
    retrieval, the cached entities when the cache is used, one new entity per
    listed identifier otherwise. *)
Definition loaded_entities (retrieval : option Retrieval) (ignore_cache : bool)
  : list Entity :=
  match retrieval with
  | None => [mkEntity (IdInt 0) None]
  | Some r =>
      if negb ignore_cache && is_cached r
      then load_from_cache r
      else map (fun id_ => mkEntity id_ None) (list_ids r)
  end.

(** An entity passes the prefilters when every one of them accepts it. *)
Definition passes (pfs : list prefilter) (e : Entity) : bool :=
  forallb (fun pf : prefilter => pf e) pfs.
(** ** [DataSource.__iter__] and [DataSource.__add__] *)

(** Modelled from the spec: the class [DataSourceUnion] is not part of
    these sources.  Of a union only the list [datasources] is used here, whose
    members can be data sources and, once [__add__] has run, batches. *)
Inductive union_member : Type :=
  | MemberSource (d : DataSource)
  | MemberBatch (b : Batch).

(** The right operand of [+]. *)
Inductive operand : Type :=
  | OperandSource (d : DataSource)
  | OperandUnion (datasources : list union_member)
  | OperandOther.

Section Add.

Variable get_sample : Entity -> option pyval * result pyval.
Variable virtual_memory_percent : nat -> Q.

(** [dss.extend(self)]: the list takes the iterator of its argument, which
    [__iter__] says is the data source itself, and appends what [self.next()]
    returns, call after call, until a call raises; the items appended by then
    stay in the list.  [next] never signals the end of the iteration. *)
Fixpoint extend_with_self (fuel : nat) (dss : list union_member) (st : State)
  : outcome (list union_member) * list union_member * State :=
  match fuel with
  | O => (OutOfFuel, dss, st)
  | S fuel' =>
      match next get_sample virtual_memory_percent None st with
      | (Done b, st') => extend_with_self fuel' (dss ++ [MemberBatch b]) st'
      | (Fails e, st') => (Fails e, dss, st')
      | (Blocks, st') => (Blocks, dss, st')
      | (OutOfFuel, st') => (OutOfFuel, dss, st')
      end
  end.

(**
<<
    if isinstance(other_dsa, DataSource):
        return DataSourceUnion([self, other_dsa])
    elif isinstance(other_dsa, DataSourceUnion):
        dss = other_dsa.datasources
        dss.extend(self)
        return DataSourceUnion(dss)
    else:
        raise Exception("Can only combine DataSource or DataSourceUnion objects!")
>>
    The result is the list the union is built from, with the list of the
    right operand as the call leaves it. *)
Definition __add__ (other : operand) (st : State)
  : outcome (list union_member) * list union_member * State :=
  match other with
  | OperandSource d => (Done [MemberSource (self st); MemberSource d], [], st)
  | OperandUnion dss =>
      extend_with_self
        (S (Z.to_nat (Z.of_nat (length (_entities (self st))) - list_pointer (self st))))
        dss st
  | OperandOther =>
      (Fails (RuntimeFailure "Can only combine DataSource or DataSourceUnion objects!"),
       [], st)
  end.

End Add.
(** * Properties *)

(** ** Sequences *)

Lemma heads_length {A} (rows : list (list A)) hs :
heads rows = Some hs -> length hs = length rows.
Proof.
revert hs. induction rows as [|r rows IH]; intros hs H; simpl in H.
- injection H as <-. reflexivity.
- destruct r as [|x r]; [discriminate|].
destruct (heads rows) as [hs'|] eqn:E; [|discriminate].
injection H as <-. simpl. f_equal. now apply IH.
Qed.

Lemma zip_rows_length {A} n (rows : list (list A)) col :
In col (zip_rows n rows) -> length col = length rows.
Proof.
revert rows. induction n as [|n IH]; intros rows H; simpl in H; [contradiction|].
destruct (heads rows) as [hs|] eqn:E; [|contradiction].
destruct H as [<-|H].
- now apply heads_length.
- apply IH in H. now rewrite length_map in H.
Qed.

Lemma py_zip_length {A} (rows : list (list A)) col :
In col (py_zip rows) -> length col = length rows.
Proof.
destruct rows as [|r rows]; simpl; [contradiction|].
apply (zip_rows_length (length r) (r :: rows)).
Qed.

Lemma py_iter_all_length vs rows :
py_iter_all vs = Return rows -> length rows = length vs.
Proof.
revert rows. induction vs as [|v vs IH]; intros rows H; simpl in H.
- injection H as <-. reflexivity.
- destruct (py_iter v); [|discriminate].
destruct (py_iter_all vs) as [rows'|]; [|discriminate].
injection H as <-. simpl. f_equal. now apply IH.
Qed.

Lemma unpack_batch_length convert batch b :
unpack_batch convert batch = Return b ->
length (batch_data b) = length batch /\ length (batch_labels b) = length batch
/\ as_array b = convert.
Proof.
unfold unpack_batch. intros H.
destruct (py_iter_all batch) as [rows|] eqn:Hrows; [|discriminate].
apply py_iter_all_length in Hrows.
destruct (py_zip rows) as [|c1 [|c2 [|c3 cs]]] eqn:Hz; try discriminate.
injection H as <-. simpl.
assert (H1 : In c1 (py_zip rows)) by (rewrite Hz; simpl; auto).
assert (H2 : In c2 (py_zip rows)) by (rewrite Hz; simpl; auto).
apply py_zip_length in H1, H2. rewrite <- Hrows. auto.
Qed.

Lemma py_getitem_Some {A} (l : list A) i j x :
py_getitem l i = Some (j, x) ->
l !! j = Some x /\ (j < length l)%nat
/\ - Z.of_nat (length l) <= i < Z.of_nat (length l)
/\ Z.of_nat j = (if i <? 0 then i + Z.of_nat (length l) else i).
Proof.
unfold py_getitem. intros H.
set (k := if i <? 0 then i + Z.of_nat (length l) else i) in *.
destruct ((0 <=? k) && (k <? Z.of_nat (length l))) eqn:Hb; [|discriminate].
apply andb_true_iff in Hb as [H0 H1].
apply Z.leb_le in H0. apply Z.ltb_lt in H1.
destruct (l !! Z.to_nat k) as [y|] eqn:Hl; simpl in H; [|discriminate].
injection H as <- <-.
split; [exact Hl|]. split; [apply lookup_lt_Some in Hl; exact Hl|].
split; [|lia].
subst k. destruct (i <? 0) eqn:Hi; [apply Z.ltb_lt in Hi | apply Z.ltb_ge in Hi]; lia.
Qed.

(** ** The controller chain *)

Lemma py_eq_False_falsy v : py_eq v py_False = true -> py_truthy v = false.
Proof.
destruct v as [| b | n | s | items]; simpl; try discriminate.
- destruct b; [discriminate | reflexivity].
- intros H. apply Z.eqb_eq in H. subst. reflexivity.
Qed.

Lemma py_eq_True_not_False v : py_eq v py_True = true -> py_eq v py_False = false.
Proof.
destruct v as [| b | n | s | items]; simpl; try discriminate.
- destruct b; [reflexivity | discriminate].
- intros H. apply Z.eqb_eq in H. subst. reflexivity.
Qed.

(** A chain that left the sample alive goes on with the controllers that
    follow, on the value it reached. *)
Lemma process_sample_trace_app pre rest sample calls current :
  process_sample_trace pre sample = (calls, Return current) ->
  pre = [] \/ py_eq current py_False = false ->
  process_sample_trace (pre ++ rest) sample
  = (calls ++ fst (process_sample_trace rest current),
     snd (process_sample_trace rest current)).
Proof.
revert sample calls. induction pre as [|c pre IH]; intros sample calls H Halive.
- simpl in H. injection H as <- <-. simpl.
  destruct (process_sample_trace rest sample); reflexivity.
- destruct Halive as [Hnil|Halive]; [discriminate|].
  simpl in H |- *.
  destruct (c sample) as [tmp|e]; [|discriminate].
  destruct (py_eq (if py_eq tmp py_True then sample else tmp) py_False) eqn:Hrej.
  + injection H as <- <-. discriminate.
  + destruct (process_sample_trace pre _) as [calls1 r1] eqn:Hpre.
    injection H as <- ->.
    erewrite IH; [|exact Hpre|right; exact Halive].
    reflexivity.
Qed.

(** C4. The chain runs its controllers in order, each on the value the
    ones before it left.  When the controller [c] is reached with the
    sample alive at value [current] and answers [tmp]: an answer equal to
    [True] keeps [current] and the chain goes on with it; any other answer
    that is not equal to [False] replaces the sample and the chain goes on
    with [tmp]; an answer equal to [False] ends the chain at once, with
    [c] the last controller called and [False] the result, whatever
    controllers follow. *)
Theorem controller_chain_in_order
    (pre : list controller) (c : controller) (rest : list controller)
    (sample current tmp : pyval) (calls : list pyval) :
  process_sample_trace pre sample = (calls, Return current) ->
  pre = [] \/ py_eq current py_False = false ->
  c current = Return tmp ->
  (py_eq tmp py_True = true -> py_eq current py_False = false ->
   process_sample_trace (pre ++ c :: rest) sample
   = (calls ++ current :: fst (process_sample_trace rest current),
      snd (process_sample_trace rest current)))
  /\ (py_eq tmp py_True = false -> py_eq tmp py_False = false ->
      process_sample_trace (pre ++ c :: rest) sample
      = (calls ++ current :: fst (process_sample_trace rest tmp),
         snd (process_sample_trace rest tmp)))
  /\ (py_eq tmp py_False = true ->
      process_sample_trace (pre ++ c :: rest) sample = (calls ++ [current], Return py_False)
      /\ process_sample (pre ++ c :: rest) sample = Return py_False).
Proof.
intros Hpre Halive Hc.
pose proof (process_sample_trace_app pre (c :: rest) sample calls current Hpre Halive) as Happ.
unfold process_sample. rewrite Happ. simpl. rewrite Hc.
split; [|split].
- intros Ht Hcur. rewrite Ht, Hcur.
  destruct (process_sample_trace rest current); reflexivity.
- intros Ht Hf. rewrite Ht, Hf.
  destruct (process_sample_trace rest tmp); reflexivity.
- intros Hf.
  assert (Ht : py_eq tmp py_True = false).
  { destruct (py_eq tmp py_True) eqn:E; [|reflexivity].
    apply py_eq_True_not_False in E. congruence. }
  rewrite Ht, Hf. split; reflexivity.
Qed.

(** A sample equal to [False] after any controller ends the chain with
    [False], whether the controller accepted it unchanged or put it there. *)
Lemma process_sample_rejects_False pre c rest sample calls current tmp :
  process_sample_trace pre sample = (calls, Return current) ->
  pre = [] \/ py_eq current py_False = false ->
  c current = Return tmp ->
  py_eq (controller_update tmp current) py_False = true ->
  process_sample (pre ++ c :: rest) sample = Return py_False.
Proof.
intros Hpre Halive Hc Hrej.
unfold process_sample.
rewrite (process_sample_trace_app pre (c :: rest) sample calls current Hpre Halive).
simpl. rewrite Hc. unfold controller_update in Hrej. rewrite Hrej. reflexivity.
Qed.

(** Whatever the chain, a sample equal to [False] that every controller
    accepts comes out falsy: as [False] when a controller ran, as itself
    when the chain is empty. *)
Lemma process_sample_accepted_False cs sample :
  py_eq sample py_False = true ->
  Forall (fun c : controller => c sample = Return py_True) cs ->
  exists v, process_sample cs sample = Return v /\ py_truthy v = false
            /\ (cs <> [] -> v = py_False).
Proof.
intros Hs Hall. destruct Hall as [|c cs Hc _].
- exists sample. split; [reflexivity|]. split; [now apply py_eq_False_falsy | congruence].
- exists py_False. unfold process_sample. simpl. rewrite Hc. simpl. rewrite Hs.
  repeat split.
Qed.

(** ** The batch loop *)

Section BatchLoop.

Variable get_sample : Entity -> option pyval * result pyval.
Variable virtual_memory_percent : nat -> Q.

Abbreviation step := (batch_step get_sample virtual_memory_percent).
Abbreviation loop := (batch_loop get_sample virtual_memory_percent).
Abbreviation mem_check := (memory_check virtual_memory_percent).
Abbreviation fetch := (fetch_sample get_sample).

Lemma same_config_refl d : same_config d d.
Proof. repeat split. Qed.

Lemma same_config_trans d1 d2 d3 :
same_config d1 d2 -> same_config d2 d3 -> same_config d1 d3.
Proof. unfold same_config. intuition congruence. Qed.

Lemma memory_check_frame i st :
same_config (self st) (self (snd (mem_check i st)))
/\ length (_entities (self (snd (mem_check i st)))) = length (_entities (self st))
/\ list_pointer (self (snd (mem_check i st))) = list_pointer (self st)
/\ queues (snd (mem_check i st)) = queues st.
Proof.
unfold memory_check, del_data.
destruct (negb _); [destruct (_entities (self st) !! i) as [e|]; [destruct (data e)|]|];
  simpl; rewrite ?length_insert; repeat split.
Qed.

(** What the first half of an iteration does when it completes. *)
Lemma batch_fill_Done st i entity batch batch' st1 :
batch_fill get_sample st i entity batch = (Done batch', st1) ->
same_config (self st) (self st1)
/\ length (_entities (self st1)) = length (_entities (self st))
/\ mem_clock (world st1) = mem_clock (world st)
/\ _entities (self st1)
   = (if workers (self st) =? 1
      then <[i := fst (fetch (self st) entity)]> (_entities (self st))
      else _entities (self st))
/\ (workers (self st) = 1 ->
    list_pointer (self st1) = list_pointer (self st) + 1
    /\ batch' = match snd (fetch (self st) entity) with
                | Return sample => if py_truthy sample then batch ++ [sample] else batch
                | Raise _ => batch
                end)
/\ (workers (self st) <> 1 ->
    list_pointer (self st1) = list_pointer (self st)
    /\ exists s, batch' = batch ++ [s]).
Proof.
unfold batch_fill. intros H.
destruct (workers (self st) =? 1) eqn:Hw.
- apply Z.eqb_eq in Hw.
  destruct (fetch_sample get_sample (self st) entity) as [entity' [sample|e]] eqn:Hf.
  + injection H as <- <-. simpl. rewrite length_insert.
    repeat split; try reflexivity; intros; congruence.
  + destruct (is_Exception e); [|discriminate].
    injection H as <- <-. simpl. rewrite length_insert.
    destruct (verbosity (self st) =? 3); repeat split; try reflexivity; intros; congruence.
- apply Z.eqb_neq in Hw.
  destruct (queues st) as [p|]; [|discriminate].
  destruct (items (sample_queue p)) as [|sample rest]; [discriminate|].
  injection H as <- <-. simpl.
  repeat split; try reflexivity; try (intros; contradiction). eauto.
Qed.

(** A completed iteration went through its first half, found the cursor
    short of the end of the store and passed the memory check. *)
Lemma batch_step_inv st batch batch' st' :
step st batch = (Done batch', st') ->
exists i entity st1,
  py_getitem (_entities (self st)) (list_pointer (self st)) = Some (i, entity)
  /\ batch_fill get_sample st i entity batch = (Done batch', st1)
  /\ list_pointer (self st1) < Z.of_nat (length (_entities (self st1)))
  /\ mem_check i st1 = (None, st').
Proof.
unfold batch_step. intros H.
destruct (py_getitem _ _) as [[i entity]|] eqn:Hget; [|discriminate].
destruct (batch_fill get_sample st i entity batch) as [[batch1| | |] st1] eqn:Hfill;
  try discriminate.
destruct (_ <=? _) eqn:Hwrap; [discriminate|]. apply Z.leb_gt in Hwrap.
destruct (memory_check virtual_memory_percent i st1) as [[e|] st2] eqn:Hm; [discriminate|].
injection H as <- <-. exists i, entity, st1. auto.
Qed.

(** What one completed iteration does to the batch, the cursor and the
  store. *)
Lemma batch_step_Done st batch batch' st' :
step st batch = (Done batch', st') ->
same_config (self st) (self st')
/\ length (_entities (self st')) = length (_entities (self st))
/\ list_pointer (self st') < Z.of_nat (length (_entities (self st)))
/\ (workers (self st) = 1 ->
    list_pointer (self st') = list_pointer (self st) + 1
    /\ (batch' = batch \/ exists s, batch' = batch ++ [s] /\ py_truthy s = true))
/\ (workers (self st) <> 1 ->
    list_pointer (self st') = list_pointer (self st)
    /\ exists s, batch' = batch ++ [s]).
Proof.
intros H.
apply batch_step_inv in H as (i & entity & st1 & _ & Hfill & Hwrap & Hm).
apply batch_fill_Done in Hfill as (Hc1 & Hl1 & _ & _ & H1 & Hn).
pose proof (memory_check_frame i st1) as (Hc & Hl & Hp & _).
rewrite Hm in Hc, Hl, Hp. simpl in Hc, Hl, Hp.
split; [eapply same_config_trans; eassumption|].
split; [congruence|].
split; [rewrite Hp, <- Hl1; exact Hwrap|].
split.
- intros Hw. destruct (H1 Hw) as [Hptr ->]. split; [congruence|].
  destruct (snd (fetch_sample get_sample (self st) entity)) as [sample|e];
    [|left; reflexivity].
  destruct (py_truthy sample) eqn:Ht; [right; eauto | left; reflexivity].
- intros Hw. destruct (Hn Hw) as [Hptr Hb]. split; [congruence | exact Hb].
Qed.

(** An iteration ends in a value or an exception; it waits only on the
    sample queue, which the single-worker branch never reads. *)
Lemma batch_step_cases st batch :
  match fst (step st batch) with
  | Done _ | Fails _ => True
  | Blocks => workers (self st) <> 1
  | OutOfFuel => False
  end.
Proof.
unfold batch_step.
destruct (py_getitem _ _) as [[i entity]|]; [|exact I].
assert (Hfill : match fst (batch_fill get_sample st i entity batch) with
                | Done _ | Fails _ => True
                | Blocks => workers (self st) <> 1
                | OutOfFuel => False
                end).
{ unfold batch_fill. destruct (workers (self st) =? 1) eqn:Hw.
  - destruct (fetch_sample get_sample (self st) entity) as [entity' [sample|e]];
      [exact I|]. destruct (is_Exception e); exact I.
  - apply Z.eqb_neq in Hw.
    destruct (queues st) as [p|]; [|exact I].
    destruct (items (sample_queue p)); [exact Hw | exact I]. }
destruct (batch_fill get_sample st i entity batch) as [[batch1| | |] st1];
  simpl in Hfill |- *; try exact Hfill.
destruct (_ <=? _); [exact I|].
destruct (memory_check virtual_memory_percent i st1) as [[e|] st2]; exact I.
Qed.

Lemma batch_loop_exit fuel size st batch :
  size <= Z.of_nat (length batch) -> loop fuel size st batch = (Done batch, st).
Proof.
intros H. apply Z.ltb_ge in H.
destruct fuel; cbn [batch_loop]; rewrite H; reflexivity.
Qed.

(** The batch only grows, by samples that passed the truth test when they
    were produced inline, and the loop leaves with exactly [size] samples
    when it started with no more than that. *)
Lemma batch_loop_Done fuel size st batch b st' :
  loop fuel size st batch = (Done b, st') ->
  same_config (self st) (self st')
  /\ length (_entities (self st')) = length (_entities (self st))
  /\ (Z.of_nat (length batch) <= size -> Z.of_nat (length b) = size)
  /\ (exists added, b = batch ++ added
      /\ (workers (self st) = 1 -> Forall (fun s => py_truthy s = true) added)).
Proof.
revert st batch. induction fuel as [|fuel IH]; intros st batch H; simpl in H.
- destruct (_ <? size) eqn:Hlt; [discriminate|].
  apply Z.ltb_ge in Hlt. injection H as <- <-.
  split; [apply same_config_refl|]. split; [reflexivity|]. split; [lia|].
  exists []. rewrite app_nil_r. auto.
- destruct (_ <? size) eqn:Hlt.
  + apply Z.ltb_lt in Hlt.
    destruct (step st batch) as [[batch1| | |] st1] eqn:Hs; try discriminate.
    apply batch_step_Done in Hs as (Hc & Hl & _ & H1 & Hn).
    apply IH in H as (Hc' & Hl' & Hsize & added & -> & Hadd).
    split; [eapply same_config_trans; eassumption|].
    split; [congruence|].
    assert (Hw : workers (self st1) = workers (self st)) by apply Hc.
    destruct (Z.eq_dec (workers (self st)) 1) as [E|E].
    * destruct (H1 E) as [_ [-> | (s & -> & Hs)]].
      -- split; [intros _; apply Hsize; lia|].
         exists added. split; [reflexivity|]. intros _. apply Hadd. congruence.
      -- split; [intros _; apply Hsize; rewrite length_app; simpl; lia|].
         exists (s :: added). rewrite <- app_assoc. split; [reflexivity|].
         intros _. constructor; [exact Hs|]. apply Hadd. congruence.
    * destruct (Hn E) as [_ (s & ->)].
      split; [intros _; apply Hsize; rewrite length_app; simpl; lia|].
      exists (s :: added). rewrite <- app_assoc. split; [reflexivity|].
      intros; contradiction.
  + apply Z.ltb_ge in Hlt. injection H as <- <-.
    split; [apply same_config_refl|]. split; [reflexivity|]. split; [lia|].
    exists []. rewrite app_nil_r. auto.
Qed.

(** The loop ends: every completed iteration moves the cursor towards the
    end of the store or fills a slot of the batch. *)
Lemma batch_loop_fuel fuel size st batch :
  (Z.to_nat (Z.of_nat (length (_entities (self st))) - list_pointer (self st))
   + Z.to_nat (size - Z.of_nat (length batch)) < fuel)%nat ->
  fst (loop fuel size st batch) <> OutOfFuel.
Proof.
revert st batch. induction fuel as [|fuel IH]; intros st batch Hfuel; [lia|].
simpl. destruct (_ <? size) eqn:Hlt; [|discriminate].
apply Z.ltb_lt in Hlt.
pose proof (batch_step_cases st batch) as Hcases.
destruct (step st batch) as [[batch1| | |] st1] eqn:Hs; simpl in *;
  try discriminate; try contradiction.
apply IH.
apply batch_step_Done in Hs as (Hc & Hl & Hp & H1 & Hn).
rewrite Hl.
destruct (Z.eq_dec (workers (self st)) 1) as [E|E].
- destruct (H1 E) as [Hptr [-> | (s & -> & _)]]; rewrite ?length_app; simpl; lia.
- destruct (Hn E) as [Hptr (s & ->)]. rewrite Hptr, length_app. simpl. lia.
Qed.

Lemma batch_loop_no_wait fuel size st batch :
  workers (self st) = 1 -> fst (loop fuel size st batch) <> Blocks.
Proof.
revert st batch. induction fuel as [|fuel IH]; intros st batch Hw; simpl.
- destruct (_ <? size); discriminate.
- destruct (_ <? size); [|discriminate].
  pose proof (batch_step_cases st batch) as Hcases.
  destruct (step st batch) as [[batch1| | |] st1] eqn:Hs; simpl in *;
    try discriminate; try contradiction.
  apply IH. apply batch_step_Done in Hs as (Hc & _). destruct Hc as (_&_&_&_&_&_&Hc&_).
  congruence.
Qed.

(** In single-worker mode every sample in the batch cost one step of the
    cursor, and the cursor never comes back: it stays below the end of the
    store as long as iterations complete. *)
Lemma batch_loop_cursor fuel size st batch b st' :
  workers (self st) = 1 ->
  loop fuel size st batch = (Done b, st') ->
  Z.of_nat (length b) - Z.of_nat (length batch)
  <= list_pointer (self st') - list_pointer (self st)
  /\ ((st' = st /\ b = batch)
      \/ list_pointer (self st') < Z.of_nat (length (_entities (self st)))).
Proof.
revert st batch. induction fuel as [|fuel IH]; intros st batch Hw H; simpl in H.
- destruct (_ <? size); [discriminate|]. injection H as <- <-. split; [lia | auto].
- destruct (_ <? size) eqn:Hlt; [|injection H as <- <-; split; [lia | auto]].
  destruct (step st batch) as [[batch1| | |] st1] eqn:Hs; try discriminate.
  apply batch_step_Done in Hs as (Hc & Hl & Hp & H1 & _).
  destruct (H1 Hw) as [Hptr Hb].
  assert (Hw1 : workers (self st1) = 1) by (destruct Hc as (_&_&_&_&_&_&Hc&_); congruence).
  pose proof (batch_loop_Done _ _ _ _ _ _ H) as (_ & Hlen & _).
  apply IH in H as [Hcount Hend]; [|exact Hw1].
  rewrite Hl in Hend.
  split.
  + destruct Hb as [-> | (s & -> & _)]; [lia|]. rewrite length_app in Hcount. simpl in Hcount. lia.
  + right. destruct Hend as [[-> _] | Hend]; [exact Hp | exact Hend].
Qed.

(** The cursor never wraps in single-worker mode: a call that would need
    the last entity of the store or more raises instead of returning. *)
Lemma next_fails_at_end_of_store (size0 : option Z) (st : State) :
  workers (self st) = 1 ->
  Z.of_nat (length (_entities (self st))) - list_pointer (self st)
  <= default (batch_size (self st)) size0 ->
  exists e, fst (next get_sample virtual_memory_percent size0 st) = Fails e.
Proof.
intros Hw Hend. unfold next.
set (size := match size0 with Some b => b | None => batch_size (self st) end).
assert (Hsize : default (batch_size (self st)) size0 = size) by (destruct size0; reflexivity).
rewrite Hsize in Hend.
pose proof (batch_loop_fuel (next_fuel size st) size st []) as Hfuel.
pose proof (batch_loop_no_wait (next_fuel size st) size st [] Hw) as Hwait.
destruct (loop (next_fuel size st) size st []) as [[batch| | |] st1] eqn:Hloop; simpl in *.
- destruct (unpack_batch _ batch) as [b|e] eqn:Hu; simpl; [|eauto].
  exfalso.
  destruct (Z_le_gt_dec size 0) as [Hneg|Hpos].
  + rewrite batch_loop_exit in Hloop by (simpl; lia).
    injection Hloop as <- <-. discriminate.
  + pose proof (batch_loop_Done _ _ _ _ _ _ Hloop) as (_ & _ & Hlen & _).
    apply batch_loop_cursor in Hloop as [Hcount Hptr]; [|exact Hw].
    specialize (Hlen ltac:(simpl; lia)). simpl in Hcount.
    destruct Hptr as [[_ ->] | Hptr]; simpl in *; lia.
- eauto.
- congruence.
- exfalso. apply Hfuel; [|reflexivity]. unfold next_fuel. simpl. lia.
Qed.

(** C1. With one worker, a call of [next] comes to an end, and it either
    returns two parallel sequences of exactly [batch_size] items each (the
    argument when one is passed, the attribute otherwise) or raises an
    exception; it never returns fewer, and it neither waits nor runs on. *)
Theorem next_full_batch_or_failure (size0 : option Z) (st : State) :
  workers (self st) = 1 ->
  match fst (next get_sample virtual_memory_percent size0 st) with
  | Done b =>
      Z.of_nat (length (batch_data b)) = default (batch_size (self st)) size0
      /\ Z.of_nat (length (batch_labels b)) = default (batch_size (self st)) size0
  | Fails _ => True
  | Blocks | OutOfFuel => False
  end.
Proof.
intros Hw. unfold next.
set (size := match size0 with Some b => b | None => batch_size (self st) end).
assert (Hsize : default (batch_size (self st)) size0 = size) by (destruct size0; reflexivity).
rewrite Hsize.
pose proof (batch_loop_fuel (next_fuel size st) size st []) as Hfuel.
pose proof (batch_loop_no_wait (next_fuel size st) size st [] Hw) as Hwait.
destruct (loop (next_fuel size st) size st []) as [[batch| | |] st1] eqn:Hloop; simpl in *.
- destruct (unpack_batch _ batch) as [b|e] eqn:Hu; simpl; [|exact I].
  destruct (Z_le_gt_dec 0 size) as [Hpos|Hneg].
  + apply unpack_batch_length in Hu as (Hd & Hl & _).
    apply batch_loop_Done in Hloop as (_ & _ & Hlen & _).
    rewrite Hd, Hl. split; apply Hlen; simpl; lia.
  + rewrite batch_loop_exit in Hloop by (simpl; lia).
    injection Hloop as <- <-. discriminate.
- exact I.
- congruence.
- apply Hfuel; [|reflexivity]. unfold next_fuel. simpl. lia.
Qed.

(** ** The memory policy and the truth test inside an iteration *)

(** The memory check takes one measurement.  Above the threshold it
    releases the raw data of the entity at [i], or raises when that entity
    has none; otherwise it leaves the store as it is. *)
Lemma memory_check_cases i st :
  let exceeds := negb (Qle_bool (float_div (virtual_memory_percent (mem_clock (world st))) 100)
                         (max_mem_percent (self st))) in
  world (snd (mem_check i st)) = tick_mem (world st)
  /\ match fst (mem_check i st) with
     | None =>
         _entities (self (snd (mem_check i st)))
         = (if exceeds
            then match _entities (self st) !! i with
                 | Some e => <[i := set_data e None]> (_entities (self st))
                 | None => _entities (self st)
                 end
            else _entities (self st))
         /\ (exceeds = true ->
             forall e, _entities (self st) !! i = Some e -> is_Some (data e))
     | Some x =>
         x = AttributeError "data" /\ exceeds = true
         /\ (exists e, _entities (self st) !! i = Some e /\ data e = None)
         /\ _entities (self (snd (mem_check i st))) = _entities (self st)
     end.
Proof.
unfold memory_check, del_data.
destruct (negb _); simpl.
- destruct (_entities (self st) !! i) as [e|] eqn:He; simpl.
  + destruct (data e) as [raw|] eqn:Hd; simpl.
    * split; [reflexivity|]. split; [reflexivity|].
      intros _ e' He'. injection He' as <-. rewrite Hd. eauto.
    * split; [reflexivity|]. repeat split. eauto.
  + split; [reflexivity|]. split; [reflexivity|]. intros _ e' He'. discriminate.
- split; [reflexivity|]. split; [reflexivity | discriminate].
Qed.

(** The state an iteration of the batch loop is in when it reaches its
    memory check: the entity read at the cursor as the fetch left it (in
    single-worker mode), the batch already extended or not. *)
Lemma batch_step_before_check st batch batch' st' i entity :
  py_getitem (_entities (self st)) (list_pointer (self st)) = Some (i, entity) ->
  step st batch = (Done batch', st') ->
  exists st1,
    mem_check i st1 = (None, st')
    /\ mem_clock (world st1) = mem_clock (world st)
    /\ max_mem_percent (self st1) = max_mem_percent (self st)
    /\ _entities (self st1)
       = (if workers (self st) =? 1
          then <[i := fst (fetch (self st) entity)]> (_entities (self st))
          else _entities (self st))
    /\ (workers (self st) = 1 ->
        batch' = match snd (fetch (self st) entity) with
                 | Return sample => if py_truthy sample then batch ++ [sample] else batch
                 | Raise _ => batch
                 end).
Proof.
intros Hget H.
apply batch_step_inv in H as (i' & entity' & st1 & Hget' & Hfill & _ & Hm).
rewrite Hget in Hget'. injection Hget' as <- <-.
apply batch_fill_Done in Hfill as (Hc & _ & Hclock & Hes & H1 & _).
exists st1. split; [exact Hm|]. split; [exact Hclock|].
split; [apply Hc|]. split; [exact Hes|].
intros Hw. apply (H1 Hw).
Qed.


(** C9. A sample equal to [False] enters no batch.  Once a controller has
    run, a current sample equal to [False] (the boolean, or the integer 0)
    makes [process_sample] return [False], also when the controller accepted
    it; a sample equal to [False] that every controller accepts comes out
    falsy whatever the chain; the single-worker iteration leaves the batch
    as it was when the processed sample is falsy, and so does a worker with
    the sample queue; and every sample a single-worker batch loop adds is
    truthy, hence different from [False]. *)
Theorem false_sample_never_batched :
  (forall pre c rest sample calls current tmp,
      process_sample_trace pre sample = (calls, Return current) ->
      pre = [] \/ py_eq current py_False = false ->
      c current = Return tmp ->
      py_eq (controller_update tmp current) py_False = true ->
      process_sample (pre ++ c :: rest) sample = Return py_False)
  /\ py_eq (VInt 0) py_False = true
  /\ (forall cs sample,
        py_eq sample py_False = true ->
        Forall (fun c : controller => c sample = Return py_True) cs ->
        exists v, process_sample cs sample = Return v /\ py_truthy v = false)
  /\ (forall st batch batch' st' i entity sample,
        workers (self st) = 1 ->
        py_getitem (_entities (self st)) (list_pointer (self st)) = Some (i, entity) ->
        step st batch = (Done batch', st') ->
        snd (fetch (self st) entity) = Return sample ->
        py_truthy sample = false ->
        batch' = batch)
  /\ (forall st p entity rest sample,
        queues st = Some p ->
        items (entity_queue p) = entity :: rest ->
        snd (fetch (self st) entity) = Return sample ->
        py_truthy sample = false ->
        exists st',
          async_add_to_sample_queue_step get_sample Fetching st = (Continues, Fetching, st')
          /\ sample_queue <$> queues st' = Some (sample_queue p))
  /\ (forall fuel size st b st',
        workers (self st) = 1 ->
        loop fuel size st [] = (Done b, st') ->
        Forall (fun s => py_truthy s = true /\ py_eq s py_False = false) b).
Proof.
split; [exact process_sample_rejects_False|].
split; [reflexivity|].
split.
{ intros cs sample Hs Hall.
  destruct (process_sample_accepted_False cs sample Hs Hall) as (v & Hv & Hf & _).
  eauto. }
split.
{ intros st batch batch' st' i entity sample Hw Hget Hstep Hfetch Hfalsy.
  destruct (batch_step_before_check _ _ _ _ _ _ Hget Hstep) as (_ & _ & _ & _ & _ & Hb).
  rewrite (Hb Hw), Hfetch, Hfalsy. reflexivity. }
split.
{ intros st p entity rest sample Hq Hitems Hfetch Hfalsy.
  unfold async_add_to_sample_queue_step. rewrite Hq, Hitems, Hfetch, Hfalsy.
  eexists. split; [reflexivity|]. reflexivity. }
intros fuel size st b st' Hw Hloop.
apply batch_loop_Done in Hloop as (_ & _ & _ & added & -> & Hadd).
simpl. specialize (Hadd Hw).
eapply Forall_impl; [exact Hadd|].
intros s Hs. split; [exact Hs|].
destruct (py_eq s py_False) eqn:E; [|reflexivity].
apply py_eq_False_falsy in E. congruence.
Qed.

End BatchLoop.

(** ** The ten-entity store *)

Lemma ten_store_init shuffle_with :
  (forall seed l, Permutation (shuffle_with seed l) l) ->
  ten_store shuffle_with = Return (ten_state_with (shuffle_with 0%nat ten_entities))
  /\ exists a0 a1 a2 a3 a4 a5 a6 a7 a8 a9,
       shuffle_with 0%nat ten_entities = [a0; a1; a2; a3; a4; a5; a6; a7; a8; a9].
Proof.
intros Hperm.
pose proof (Permutation_length (Hperm 0%nat ten_entities)) as Hlen.
change (length ten_entities) with 10%nat in Hlen.
split.
- unfold ten_store, __init__, shuffle, __prefilter. cbn -[ten_ids Z.of_nat default_max_mem_percent].
  change (map (fun id_ => mkEntity id_ None) ten_ids) with ten_entities.
  rewrite Hlen. reflexivity.
- destruct (shuffle_with 0%nat ten_entities) as [|a0 [|a1 [|a2 [|a3 [|a4 [|a5 [|a6 [|a7 [|a8 [|a9 [|a10 l]]]]]]]]]]];
    try discriminate.
  repeat eexists.
Qed.

Lemma ten_values_NoDup : NoDup ten_values.
Proof.
unfold ten_values. apply NoDup_fmap_2; [intros x y H; congruence|].
repeat (apply NoDup_cons; split; [rewrite ?elem_of_cons, elem_of_nil; lia|]).
apply NoDup_nil_2.
Qed.

(** C2. The ten-entity store with batch size 4 and one worker, whatever
    order the shuffle gives it: the first two calls return four samples
    each, eight different entities of the store; the third call raises
    [NameError] when the cursor reaches the end of the store, after the
    tenth sample, because the batch loop calls a global [reset_queue] that
    does not exist; nothing is reshuffled, the cursor stays at 10, and every
    later call raises [IndexError]. *)
Theorem ten_store_third_call_fails
    (shuffle_with : nat -> list Entity -> list Entity)
    (Hperm : forall seed l, Permutation (shuffle_with seed l) l) :
  exists st0 b1 st1 b2 st2 st3,
    ten_store shuffle_with = Return st0
    /\ next demo_get_sample calm_memory None st0 = (Done b1, st1)
    /\ next demo_get_sample calm_memory None st1 = (Done b2, st2)
    /\ length (batch_data b1) = 4%nat /\ length (batch_data b2) = 4%nat
    /\ NoDup (batch_data b1 ++ batch_data b2)
    /\ (forall v, In v (batch_data b1 ++ batch_data b2) -> In v ten_values)
    /\ next demo_get_sample calm_memory None st2
       = (Fails (NameError "reset_queue"), st3)
    /\ list_pointer (self st3) = 10
    /\ ids_of (_entities (self st3)) = ids_of (_entities (self st0))
    /\ log (world st3) = [] /\ rng (world st3) = rng (world st0)
    /\ next demo_get_sample calm_memory None st3 = (Fails IndexError, st3).
Proof.
destruct (ten_store_init shuffle_with Hperm)
  as (Hinit & a0 & a1 & a2 & a3 & a4 & a5 & a6 & a7 & a8 & a9 & Hes).
pose proof (Hperm 0%nat ten_entities) as HP. rewrite Hes in HP, Hinit.
assert (Hvals : Permutation
          (map (fun e => id_value (unique_id e)) [a0; a1; a2; a3; a4; a5; a6; a7; a8; a9])
          ten_values).
{ rewrite HP. reflexivity. }
do 6 eexists.
split; [exact Hinit|].
split; [vm_compute; reflexivity|].
split; [vm_compute; reflexivity|].
split; [reflexivity|]. split; [reflexivity|].
split.
{ pose proof ten_values_NoDup as Hnd. rewrite <- Hvals in Hnd.
  change (map (fun e => id_value (unique_id e)) [a0; a1; a2; a3; a4; a5; a6; a7; a8; a9])
    with ((batch_data
             {| batch_data := map (fun e => id_value (unique_id e)) [a0; a1; a2; a3];
                batch_labels := []; as_array := true |}
           ++ map (fun e => id_value (unique_id e)) [a4; a5; a6; a7])
          ++ map (fun e => id_value (unique_id e)) [a8; a9]) in Hnd.
  apply NoDup_app in Hnd as (Hnd & _). exact Hnd. }
split.
{ intros v Hv. eapply Permutation_in; [exact Hvals|].
  simpl in Hv |- *. intuition. }
split; [vm_compute; reflexivity|].
split; [reflexivity|]. split; [reflexivity|]. split; [reflexivity|].
split; [reflexivity|].
vm_compute. reflexivity.
Qed.

(** ** The prefilter stage *)

Lemma prefilter_from_entities i pfs es w :
  fst (prefilter_from i pfs es w) = fold_left keep pfs es.
Proof.
revert i es w. induction pfs as [|pf pfs IH]; intros i es w; simpl; [reflexivity|].
apply IH.
Qed.

Lemma prefilter_from_log_grows i pfs es w ev :
  In ev (log w) -> In ev (log (snd (prefilter_from i pfs es w))).
Proof.
revert i es w. induction pfs as [|pf pfs IH]; intros i es w H; simpl; [exact H|].
apply IH. simpl. rewrite !in_app_iff. auto.
Qed.

Lemma prefilter_from_log i pfs es w k pf :
  pfs !! k = Some pf ->
  let before := fold_left keep (firstn k pfs) es in
  In (LogBeforeFilter (i + k) (length before)) (log (snd (prefilter_from i pfs es w)))
  /\ In (LogAfterFilter (i + k) (length (List.filter pf before)))
       (log (snd (prefilter_from i pfs es w))).
Proof.
revert i es w k. induction pfs as [|pf0 pfs IH]; intros i es w k Hk; [discriminate|].
destruct k as [|k]; simpl in Hk |- *.
- injection Hk as ->. rewrite Nat.add_0_r.
  split; apply prefilter_from_log_grows; simpl; rewrite !in_app_iff; simpl; auto.
- replace (i + S k)%nat with (S i + k)%nat by lia. now apply IH.
Qed.

Lemma fold_keep_In pfs es e :
  In e (fold_left keep pfs es)
  <-> In e es /\ Forall (fun pf : prefilter => pf e = true) pfs.
Proof.
revert es. induction pfs as [|pf pfs IH]; intros es; simpl.
- split; [intros H; split; [exact H | constructor] | intros [H _]; exact H].
- rewrite IH. unfold keep at 1. rewrite filter_In, Forall_cons. tauto.
Qed.

(** C3. The prefilter stage applies the predicates in declared order, each
    to the list the one before it left, and leaves the list of exactly the
    entities that satisfy all of them.  The result of every stage is a list:
    its length is taken and logged before and after the stage, and afterwards
    every position of the store can be read. *)
Theorem prefilter_in_order_materialised (st : State) :
  let d := self st in
  let st' := __prefilter st in
  _entities (self st') = fold_left keep (prefilters d) (_entities d)
  /\ (forall e, In e (_entities (self st'))
                <-> In e (_entities d)
                    /\ Forall (fun pf : prefilter => pf e = true) (prefilters d))
  /\ (forall k pf, prefilters d !! k = Some pf ->
        let before := fold_left keep (firstn k (prefilters d)) (_entities d) in
        In (LogBeforeFilter k (length before)) (log (world st'))
        /\ In (LogAfterFilter k (length (keep before pf))) (log (world st')))
  /\ (forall i, 0 <= i < Z.of_nat (length (_entities (self st'))) ->
        exists e, py_getitem (_entities (self st')) i = Some (Z.to_nat i, e))
  /\ same_config d (self st')
  /\ list_pointer (self st') = list_pointer d.
Proof.
intros d st'. subst st'. unfold __prefilter. fold d.
set (w := match prefilters d with [] => world st | _ :: _ => emit LogPrefiltering (world st) end).
pose proof (prefilter_from_entities 0 (prefilters d) (_entities d) w) as Hes.
pose proof (prefilter_from_log 0 (prefilters d) (_entities d) w) as Hlog.
destruct (prefilter_from 0 (prefilters d) (_entities d) w) as [es w'] eqn:Hpf.
simpl in Hes, Hlog |- *. subst es.
split; [reflexivity|].
split; [apply fold_keep_In|].
split; [intros k pf Hk; exact (Hlog k pf Hk)|].
split.
{ intros i Hi. unfold py_getitem.
  replace (i <? 0) with false by (symmetry; apply Z.ltb_ge; lia).
  replace ((0 <=? i) && (i <? _)) with true
    by (symmetry; apply andb_true_iff; split; [apply Z.leb_le | apply Z.ltb_lt]; lia).
  destruct (lookup_lt_is_Some_2 (fold_left keep (prefilters d) (_entities d)) (Z.to_nat i))
    as [e He]; [lia|].
  exists e. rewrite He. reflexivity. }
split; [repeat split | reflexivity].
Qed.

(** ** [split] *)

Lemma alloc_fresh o (h : heap) r h' :
  alloc o h = (r, h') -> h !! r = None /\ h' = <[r := o]> h.
Proof.
unfold alloc. intros H. injection H as <- <-.
split; [|reflexivity].
apply not_elem_of_dom. apply is_fresh.
Qed.

Lemma set_attr_instance (h : heap) obj name v attrs :
  h !! obj = Some (ObjInstance attrs) ->
  set_attr h obj name v = <[obj := ObjInstance (<[name := v]> attrs)]> h.
Proof. intros H. unfold set_attr. rewrite H. reflexivity. Qed.

#[local] Opaque alloc.

(** What [split] does to the heap: the list of the store is shuffled in
    place and then left behind; two new lists hold its two slices; the input
    instance is rebound to the first, and a new instance with the attribute
    dictionary of the input is rebound to the second. *)
Lemma split_heap shuffle_with ds1 p (h : heap) w attrs r es :
  h !! ds1 = Some (ObjInstance attrs) ->
  attrs !! "_entities" = Some (AttrRef r) ->
  h !! r = Some (ObjEntityList es) ->
  let shuffled := shuffle_with (rng w) es in
  let break_off := py_int (float_mul (inject_Z (Z.of_nat (length es))) p) in
  exists ds2 r1 r2 h',
    split shuffle_with ds1 p h w
    = (Return (ds1, ds2), h', tick_rng (emit LogSplitWarning w))
    /\ h !! ds2 = None /\ h !! r1 = None /\ h !! r2 = None
    /\ ds2 <> r1 /\ ds2 <> r2 /\ r1 <> r2
    /\ h' !! ds1 = Some (ObjInstance (<["_entities" := AttrRef r1]> attrs))
    /\ h' !! ds2 = Some (ObjInstance (<["_entities" := AttrRef r2]> attrs))
    /\ h' !! r1 = Some (ObjEntityList (py_slice_to shuffled break_off))
    /\ h' !! r2 = Some (ObjEntityList (py_slice_from shuffled break_off))
    /\ h' !! r = Some (ObjEntityList shuffled)
    /\ (forall x, x <> ds1 -> x <> ds2 -> x <> r -> x <> r1 -> x <> r2 ->
          h' !! x = h !! x).
Proof.
intros Hds Hattr Hr shuffled break_off.
assert (Hne : r <> ds1) by (intros ->; congruence).
unfold split, entities_of, get_attr. rewrite Hds, Hattr. simpl. rewrite Hr.
unfold shuffle. simpl. fold shuffled. fold break_off.
set (h1 := <[r := ObjEntityList shuffled]> h).
assert (H1ds : h1 !! ds1 = Some (ObjInstance attrs))
  by (unfold h1; rewrite lookup_insert_ne by exact Hne; exact Hds).
assert (H1r : h1 !! r = Some (ObjEntityList shuffled))
  by (unfold h1; apply lookup_insert_eq).
unfold copy_copy. rewrite H1ds.
destruct (alloc (ObjInstance attrs) h1) as [ds2 h2] eqn:Ha2.
apply alloc_fresh in Ha2 as [Hf2 ->].
assert (Hds2 : ds2 <> ds1) by (intros ->; congruence).
assert (Hds2r : ds2 <> r) by (intros ->; congruence).
rewrite (lookup_insert_ne h1 ds2 ds1) by exact Hds2. rewrite H1ds, Hattr. simpl.
rewrite (lookup_insert_ne h1 ds2 r) by exact Hds2r. rewrite H1r.
set (h2 := <[ds2 := ObjInstance attrs]> h1).
destruct (alloc (ObjEntityList (py_slice_from shuffled break_off)) h2) as [r2 h3] eqn:Ha3.
apply alloc_fresh in Ha3 as [Hf3 ->].
assert (Hr2ds2 : r2 <> ds2) by (intros ->; unfold h2 in Hf3; rewrite lookup_insert_eq in Hf3; discriminate).
assert (Hr2ds1 : r2 <> ds1)
  by (intros ->; unfold h2 in Hf3; rewrite lookup_insert_ne in Hf3 by exact Hds2; congruence).
assert (Hr2r : r2 <> r)
  by (intros ->; unfold h2 in Hf3; rewrite lookup_insert_ne in Hf3 by exact Hds2r; congruence).
set (h3 := <[r2 := ObjEntityList (py_slice_from shuffled break_off)]> h2).
assert (H3ds2 : h3 !! ds2 = Some (ObjInstance attrs)).
{ unfold h3, h2. rewrite lookup_insert_ne by congruence. apply lookup_insert_eq. }
rewrite (set_attr_instance h3 ds2 _ _ attrs H3ds2).
set (h4 := <[ds2 := ObjInstance (<["_entities" := AttrRef r2]> attrs)]> h3).
assert (H4ds1 : h4 !! ds1 = Some (ObjInstance attrs)).
{ unfold h4, h3, h2. rewrite !lookup_insert_ne by congruence. exact H1ds. }
assert (H4r : h4 !! r = Some (ObjEntityList shuffled)).
{ unfold h4, h3, h2. rewrite !lookup_insert_ne by congruence. exact H1r. }
rewrite H4ds1, Hattr. simpl. rewrite H4r.
destruct (alloc (ObjEntityList (py_slice_to shuffled break_off)) h4) as [r1 h5] eqn:Ha5.
apply alloc_fresh in Ha5 as [Hf5 ->].
assert (Hr1ds2 : r1 <> ds2) by (intros ->; unfold h4 in Hf5; rewrite lookup_insert_eq in Hf5; discriminate).
assert (Hr1r2 : r1 <> r2).
{ intros ->. unfold h4, h3 in Hf5.
  rewrite lookup_insert_ne, lookup_insert_eq in Hf5 by congruence. discriminate. }
assert (Hr1ds1 : r1 <> ds1) by (intros ->; congruence).
assert (Hr1r : r1 <> r) by (intros ->; congruence).
rewrite (set_attr_instance _ ds1 _ _ attrs)
  by (rewrite lookup_insert_ne by congruence; exact H4ds1).
exists ds2, r1, r2. eexists. split; [reflexivity|].
assert (Hh1 : forall x, x <> r -> h1 !! x = h !! x)
  by (intros x Hx; unfold h1; apply lookup_insert_ne; congruence).
split; [rewrite <- (Hh1 ds2) by exact Hds2r; exact Hf2|].
split.
{ rewrite <- (Hh1 r1) by exact Hr1r. unfold h4, h3, h2 in Hf5.
  rewrite !lookup_insert_ne in Hf5 by congruence. exact Hf5. }
split.
{ rewrite <- (Hh1 r2) by exact Hr2r. unfold h2 in Hf3.
  rewrite lookup_insert_ne in Hf3 by congruence. exact Hf3. }
split; [congruence|]. split; [congruence|]. split; [congruence|].
split; [apply lookup_insert_eq|].
split; [rewrite !lookup_insert_ne by congruence; unfold h4; apply lookup_insert_eq|].
split; [rewrite lookup_insert_ne by congruence; apply lookup_insert_eq|].
split.
{ rewrite !lookup_insert_ne by congruence. unfold h4, h3.
  rewrite lookup_insert_ne by congruence. apply lookup_insert_eq. }
split.
{ rewrite !lookup_insert_ne by congruence. exact H4r. }
intros x Hx1 Hx2 Hx3 Hx4 Hx5.
rewrite !lookup_insert_ne by congruence. unfold h4, h3, h2.
rewrite !lookup_insert_ne by congruence. apply Hh1. exact Hx3.
Qed.

#[local] Transparent alloc.

(** *** Slices and rounding *)

Lemma py_slice_partition {A} (l : list A) k : py_slice_to l k ++ py_slice_from l k = l.
Proof. apply firstn_skipn. Qed.

Lemma py_slice_to_firstn {A} (l : list A) k :
  0 <= k -> py_slice_to l k = firstn (Z.to_nat k) l.
Proof.
intros Hk. unfold py_slice_to, slice_bound.
replace (k <? 0) with false by (symmetry; apply Z.ltb_ge; lia).
destruct (Z_le_gt_dec k (Z.of_nat (length l))) as [H|H].
- rewrite Z.min_l by lia. reflexivity.
- rewrite Z.min_r by lia. rewrite Nat2Z.id.
  rewrite !firstn_all2 by lia. reflexivity.
Qed.

Lemma py_slice_from_skipn {A} (l : list A) k :
  0 <= k -> py_slice_from l k = skipn (Z.to_nat k) l.
Proof.
intros Hk. unfold py_slice_from, slice_bound.
replace (k <? 0) with false by (symmetry; apply Z.ltb_ge; lia).
destruct (Z_le_gt_dec k (Z.of_nat (length l))) as [H|H].
- rewrite Z.min_l by lia. reflexivity.
- rewrite Z.min_r by lia. rewrite Nat2Z.id.
  rewrite !skipn_all2 by lia. reflexivity.
Qed.

Lemma py_int_floor x : (0 <= x)%Q -> py_int x = Qfloor x /\ 0 <= py_int x.
Proof.
destruct x as [n d]. unfold Qle, py_int, Qfloor. simpl. intros H.
assert (Hn : 0 <= n) by lia.
split; [apply Z.quot_div_nonneg; lia | apply Z.quot_pos; lia].
Qed.

Lemma Qfloor_lt_Z x n : (x < inject_Z n)%Q -> Qfloor x < n.
Proof.
intros H. rewrite Zlt_Qlt. eapply Qle_lt_trans; [apply Qfloor_le | exact H].
Qed.

Lemma floor_near_round x : (0 <= x)%Q -> Z.abs (Qfloor x - py_round x) <= 1.
Proof.
intros Hx. unfold py_round.
apply Qle_bool_iff in Hx as Hb. rewrite Hb.
assert (H1 : Qfloor x <= Qfloor (x + (1 # 2))).
{ apply Qfloor_resp_le. rewrite <- (Qplus_0_r x) at 1.
  apply Qplus_le_r. discriminate. }
assert (H2 : Qfloor (x + (1 # 2)) < Qfloor x + 2).
{ apply Qfloor_lt_Z. rewrite inject_Z_plus.
  pose proof (Qlt_floor x) as Hlt. rewrite inject_Z_plus in Hlt.
  change (inject_Z 1) with 1%Q in Hlt. change (inject_Z 2) with 2%Q.
  revert Hlt. generalize (inject_Z (Qfloor x)). intros y Hlt. lra. }
lia.
Qed.

(** *** The float product *)

Lemma round_half_even_near (x : Q) :
  (x - (1 # 2) <= inject_Z (round_half_even x) <= x + (1 # 2))%Q.
Proof.
unfold round_half_even.
pose proof (Qfloor_le x) as Hlo.
pose proof (Qlt_floor x) as Hhi.
rewrite inject_Z_plus in Hhi. change (inject_Z 1) with 1%Q in Hhi.
destruct (x - inject_Z (Qfloor x) ?= 1 # 2)%Q eqn:Hc.
- apply Qeq_alt in Hc.
  destruct (Z.even (Qfloor x)); [lra|].
  rewrite inject_Z_plus. change (inject_Z 1) with 1%Q. lra.
- apply Qlt_alt in Hc. lra.
- apply Qgt_alt in Hc. rewrite inject_Z_plus. change (inject_Z 1) with 1%Q. lra.
Qed.

(** A number below [2^53] whose mantissa is at least [2^52] has an
    exponent that is not positive: the spacing of the floats around it is
    at most 1. *)
Lemma binade_small (e : Z) (s : Q) :
  (inject_Z (2 ^ 52) <= s)%Q -> (s * 2 ^ e < inject_Z (2 ^ 53))%Q -> (2 ^ e <= 1)%Q.
Proof.
intros Hs Hlt.
destruct (Z_le_gt_dec e 0) as [Hle | Hgt].
- change 1%Q with (2 ^ 0)%Q. apply Qpower_le_compat_l; [exact Hle | discriminate].
- exfalso.
  assert (H2 : (2 <= 2 ^ e)%Q).
  { change 2%Q with (2 ^ 1)%Q at 1. apply Qpower_le_compat_l; [lia | discriminate]. }
  assert (Hprod : (inject_Z (2 ^ 52) * 2 <= s * 2 ^ e)%Q).
  { apply Qmult_le_compat_nonneg; split; try assumption; discriminate. }
  change (inject_Z (2 ^ 52)) with (4503599627370496 # 1)%Q in Hprod.
  change (inject_Z (2 ^ 53)) with (9007199254740992 # 1)%Q in Hlt.
  generalize dependent (s * 2 ^ e)%Q. intros sP Hlt Hprod. lra.
Qed.

(** Rounding to a float keeps a number that is not negative that way, and
    moves a number below [2^53] by at most one half. *)
Lemma round_double_near (x : Q) :
  (0 <= x)%Q ->
  (0 <= round_double x)%Q
  /\ ((x < inject_Z (2 ^ 53))%Q ->
      (x - (1 # 2) <= round_double x <= x + (1 # 2))%Q).
Proof.
intros H0. unfold round_double.
assert (Habs : (Qabs x == x)%Q) by (apply Qabs_pos; exact H0).
set (a := Qabs x) in *.
set (e := binade a).
destruct (Qle_bool (inject_Z (2 ^ 52)) (a / 2 ^ e)
          && negb (Qle_bool (inject_Z (2 ^ 53)) (a / 2 ^ e))) eqn:Hc;
  [|split; [exact H0 | intros _; lra]].
apply andb_prop in Hc. destruct Hc as [H52 _].
apply Qle_bool_iff in H52.
assert (Hsign : Qle_bool 0 x = true) by (apply Qle_bool_iff; exact H0).
rewrite Hsign, Qred_correct.
set (s := (a / 2 ^ e)%Q) in *.
assert (Hpos : (0 < 2 ^ e)%Q) by (apply Qpower_0_lt; reflexivity).
assert (Hs : (s * 2 ^ e == x)%Q).
{ unfold s. rewrite <- Habs. field. lra. }
pose proof (round_half_even_near s) as [Hlo Hhi].
pose proof (binade_small e s H52) as Hsmall. rewrite Hs in Hsmall.
clearbody s.
set (m := inject_Z (round_half_even s)) in *. clearbody m.
set (P := (2 ^ e)%Q) in *. clearbody P.
change (inject_Z (2 ^ 52)) with (4503599627370496 # 1)%Q in H52.
split; [nra|].
intros Hlt. specialize (Hsmall Hlt). split; nra.
Qed.


Lemma store_entities_instance (h : heap) ds attrs r es :
  h !! ds = Some (ObjInstance attrs) ->
  attrs !! "_entities" = Some (AttrRef r) ->
  h !! r = Some (ObjEntityList es) ->
  store_entities h ds = Some es.
Proof.
intros Hds Hattr Hr. unfold store_entities, entities_of, get_attr.
rewrite Hds, Hattr. simpl. rewrite Hr. reflexivity.
Qed.





(** ** The entity queue filler *)

Lemma demo_shuffle_perm seed l : Permutation (demo_shuffle seed l) l.
Proof. unfold demo_shuffle. symmetry. apply Permutation_rev. Qed.

(** C5. The filler runs only as long as its loop test finds the sample
    queue not full.  An iteration entered then reads the entity at the
    cursor and, once the entity queue has room, puts it there and advances
    the cursor; when the cursor reaches the end of the store the store is
    reshuffled and the cursor set back to 0.  The first time the loop test
    finds the sample queue full the loop is left and the filler returns;
    short of an exception, that is the only way it leaves the loop. *)
Theorem filler_runs_until_sample_queue_full
    (shuffle_with : nat -> list Entity -> list Entity)
    (Hperm : forall seed l, Permutation (shuffle_with seed l) l)
    (st : State) (p : Pipeline) :
  queues st = Some p ->
  (queue_full (sample_queue p) = true ->
   async_fill_queue_step shuffle_with st = (Returns, st))
  /\ (fst (async_fill_queue_step shuffle_with st) = Returns ->
      queue_full (sample_queue p) = true)
  /\ (forall i entity,
        queue_full (sample_queue p) = false ->
        py_getitem (_entities (self st)) (list_pointer (self st)) = Some (i, entity) ->
        (queue_full (entity_queue p) = true ->
         async_fill_queue_step shuffle_with st = (Waits, st))
        /\ (queue_full (entity_queue p) = false ->
            exists st',
              async_fill_queue_step shuffle_with st = (Continues, st')
              /\ queues st'
                 = Some (mkPipeline (queue_put (entity_queue p) entity) (sample_queue p))
              /\ same_config (self st) (self st')
              /\ (list_pointer (self st) + 1 < Z.of_nat (length (_entities (self st))) ->
                  list_pointer (self st') = list_pointer (self st) + 1
                  /\ _entities (self st') = _entities (self st)
                  /\ world st' = world st)
              /\ (Z.of_nat (length (_entities (self st))) <= list_pointer (self st) + 1 ->
                  list_pointer (self st') = 0
                  /\ _entities (self st')
                     = shuffle_with (rng (world st)) (_entities (self st))
                  /\ Permutation (_entities (self st')) (_entities (self st))
                  /\ log (world st') = log (world st) ++ [LogShuffling]))).
Proof.
intros Hq. unfold async_fill_queue_step. rewrite Hq.
split; [intros ->; reflexivity|].
split.
{ destruct (queue_full (sample_queue p)); [reflexivity|].
  destruct (py_getitem _ _) as [[i entity]|]; [|discriminate].
  destruct (queue_full (entity_queue p)); [discriminate|].
  simpl. destruct (_ <=? _); discriminate. }
intros i entity -> ->.
split; [intros ->; reflexivity|].
intros ->. simpl.
destruct (_ <=? _) eqn:Hwrap.
- apply Z.leb_le in Hwrap. eexists. split; [reflexivity|]. simpl.
  split; [reflexivity|]. split; [repeat split|].
  split; [intros; lia|]. intros _.
  split; [reflexivity|]. split; [reflexivity|]. split; [apply Hperm | reflexivity].
- apply Z.leb_gt in Hwrap. eexists. split; [reflexivity|]. simpl.
  split; [reflexivity|]. split; [repeat split|].
  split; [intros _; repeat split | intros; lia].
Qed.

(** C5, as the specification states it, fails: in the two-worker pipeline
    with one-slot queues the first sample a worker puts fills the sample
    queue, and the filler, back at its loop test, returns. *)
Lemma filler_returns_when_sample_queue_fills : ~ filler_never_returns demo_shuffle.
Proof.
intros H. apply (H filler_at_second_test). vm_compute. reflexivity.
Qed.

(** ** [save_ids] and [filter_ids] *)

Lemma split_lines_free s : newline_free s = true -> split_lines s = [s].
Proof.
induction s as [|c s IH]; simpl; [reflexivity|].
intros H. apply andb_true_iff in H as [Hc Hs].
apply negb_true_iff in Hc. rewrite Hc, (IH Hs). reflexivity.
Qed.

Lemma split_lines_app x t :
  newline_free x = true ->
  split_lines (x ++ newline ++ t)%string = x :: split_lines t.
Proof.
induction x as [|c x IH]; simpl.
- intros _. reflexivity.
- intros H. apply andb_true_iff in H as [Hc Hx].
  apply negb_true_iff in Hc. rewrite Hc, (IH Hx). reflexivity.
Qed.

(** Joining with newlines and splitting at newlines are inverse on one or
    more newline-free parts. *)
Lemma split_lines_join parts :
  parts <> [] ->
  Forall (fun s => newline_free s = true) parts ->
  split_lines (py_join newline parts) = parts.
Proof.
induction parts as [|x parts IH]; intros Hne Hall; [congruence|].
apply Forall_cons in Hall as [Hx Hall].
destruct parts as [|y parts].
- simpl. now apply split_lines_free.
- change (py_join newline (x :: y :: parts))
    with (x ++ newline ++ py_join newline (y :: parts))%string.
  rewrite split_lines_app by exact Hx.
  rewrite IH by (congruence || exact Hall). reflexivity.
Qed.



(** * The claims at concrete inputs *)

Lemma next_full_batch_or_failure_witness :
  workers (self (ten_state_with ten_entities)) = 1
  /\ match fst (next demo_get_sample calm_memory None (ten_state_with ten_entities)) with
     | Done b =>
         Z.of_nat (length (batch_data b))
         = default (batch_size (self (ten_state_with ten_entities))) None
         /\ Z.of_nat (length (batch_labels b))
            = default (batch_size (self (ten_state_with ten_entities))) None
     | Fails _ => True
     | Blocks | OutOfFuel => False
     end.
Proof.
split; [reflexivity|].
apply (next_full_batch_or_failure demo_get_sample calm_memory None
         (ten_state_with ten_entities)).
reflexivity.
Defined.

(** The first batch of the ten-entity store in its listed order. *)
Example next_first_batch :
  fst (next demo_get_sample calm_memory None (ten_state_with ten_entities))
  = Done (mkBatch [VInt 0; VInt 1; VInt 2; VInt 3]
            [VStr "label"; VStr "label"; VStr "label"; VStr "label"] true).
Proof. vm_compute. reflexivity. Qed.

(** A batch size of zero: the loop does not run and the unpacking of the
    empty batch raises. *)
Example next_empty_batch_fails :
  fst (next demo_get_sample calm_memory (Some 0) (ten_state_with ten_entities))
  = Fails ValueError.
Proof. vm_compute. reflexivity. Qed.

Lemma ten_store_third_call_fails_witness :
  (forall seed l, Permutation (demo_shuffle seed l) l)
  /\ exists st2 st3,
       list_pointer (self st2) = 8
       /\ next demo_get_sample calm_memory None st2
          = (Fails (NameError "reset_queue"), st3)
       /\ log (world st3) = [].
Proof.
split; [exact demo_shuffle_perm|].
destruct (ten_store_third_call_fails demo_shuffle demo_shuffle_perm)
  as (st0 & b1 & st1 & b2 & st2 & st3 & H0 & H1 & H2 & _ & _ & _ & _ & H3 & _ & _ & Hlog & _).
exists st2, st3.
split; [|split; [exact H3 | exact Hlog]].
vm_compute in H0. injection H0 as <-.
vm_compute in H1. injection H1 as <- <-.
vm_compute in H2. injection H2 as <- <-.
reflexivity.
Defined.

Lemma controller_chain_in_order_witness :
  process_sample_trace [accept_all] a_sample = ([a_sample], Return a_sample)
  /\ ([accept_all] = [] \/ py_eq a_sample py_False = false)
  /\ reject_all a_sample = Return py_False
  /\ process_sample_trace ([accept_all] ++ reject_all :: [answer (VInt 7)]) a_sample
     = ([a_sample] ++ [a_sample], Return py_False)
  /\ process_sample ([accept_all] ++ reject_all :: [answer (VInt 7)]) a_sample
     = Return py_False.
Proof.
split; [reflexivity|]. split; [right; reflexivity|]. split; [reflexivity|].
apply (controller_chain_in_order [accept_all] reject_all [answer (VInt 7)]
         a_sample a_sample py_False [a_sample]);
  [reflexivity | right; reflexivity | reflexivity | reflexivity].
Defined.

(** A replacement reaches the controllers that follow, and [1], being
    equal to [True], keeps the sample. *)
Example controller_chain_replaces :
  process_sample_trace [answer (VInt 7); accept_all; answer (VInt 1)] a_sample
  = ([a_sample; VInt 7; VInt 7], Return (VInt 7)).
Proof. reflexivity. Qed.

Lemma prefilter_in_order_materialised_witness :
  ids_of (_entities (self (__prefilter prefiltered_state)))
  = [IdInt 0; IdInt 1; IdInt 2]
  /\ In (LogAfterFilter 0 7) (log (world (__prefilter prefiltered_state)))
  /\ In (LogAfterFilter 1 3) (log (world (__prefilter prefiltered_state))).
Proof.
destruct (prefilter_in_order_materialised prefiltered_state) as (Hes & _ & Hlog & _).
split; [rewrite Hes; reflexivity|].
split.
- apply (Hlog 0%nat (id_below 7) eq_refl).
- apply (Hlog 1%nat (id_below 3) eq_refl).
Defined.

Lemma filler_runs_until_sample_queue_full_witness :
  (forall seed l, Permutation (demo_shuffle seed l) l)
  /\ queues filler_at_second_test
     = Some (mkPipeline (mkQueue 1 []) (mkQueue 1 [VTuple [VInt 9; VStr "label"]]))
  /\ async_fill_queue_step demo_shuffle filler_at_second_test
     = (Returns, filler_at_second_test).
Proof.
split; [exact demo_shuffle_perm|]. split; [reflexivity|].
apply (filler_runs_until_sample_queue_full demo_shuffle demo_shuffle_perm
         filler_at_second_test
         (mkPipeline (mkQueue 1 []) (mkQueue 1 [VTuple [VInt 9; VStr "label"]]))
         eq_refl).
reflexivity.
Defined.

(** The filler at the last entity of the store: it puts the entity,
    reshuffles and starts again at 0. *)
Example filler_wraps_around :
  let st := mkState (set_list_pointer (self (state_of two_worker_store)) 9)
              (queues (state_of two_worker_store)) world0 in
  let st' := snd (async_fill_queue_step demo_shuffle st) in
  fst (async_fill_queue_step demo_shuffle st) = Continues
  /\ list_pointer (self st') = 0
  /\ ids_of (_entities (self st')) = ten_ids
  /\ log (world st') = [LogShuffling].
Proof. vm_compute. repeat split. Qed.



(** The same iteration with an entity class that keeps no raw data: under
    memory pressure the release finds no attribute to delete, and the call
    of [next] raises. *)
Example release_without_raw_data :
  fst (next uncached_get_sample high_memory None (ten_state_with ten_entities))
  = Fails (AttributeError "data").
Proof. vm_compute. reflexivity. Qed.

(** Floats at the threshold: with 56.6% of the memory in use and a
    threshold of [.566] the quotient [56.6 / 100.0] is the float above
    [.566], and the raw data is released; with 95% in use and the default
    threshold the quotient is the float [.95] itself, and it is kept. *)
Example memory_threshold_in_floats :
  Qle_bool (float_div (py_float (566 # 10)) 100) (py_float (566 # 1000)) = false
  /\ Qle_bool (float_div 95 100) default_max_mem_percent = true.
Proof. split; vm_compute; reflexivity. Qed.

Lemma false_sample_never_batched_witness :
  process_sample_trace [] (VInt 0) = ([], Return (VInt 0))
  /\ accept_all (VInt 0) = Return py_True
  /\ py_eq (controller_update py_True (VInt 0)) py_False = true
  /\ process_sample ([] ++ accept_all :: [answer a_sample]) (VInt 0) = Return py_False.
Proof.
split; [reflexivity|]. split; [reflexivity|]. split; [reflexivity|].
destruct (false_sample_never_batched demo_get_sample calm_memory) as [H _].
apply (H [] accept_all [answer a_sample] (VInt 0) [] (VInt 0) py_True);
  [reflexivity | left; reflexivity | reflexivity | reflexivity].
Defined.

(** Without controllers the integer 0 comes back as it is, and the batch
    loop drops it at the truth test. *)
Example zero_sample_dropped :
  process_sample [] (VInt 0) = Return (VInt 0)
  /\ fst (batch_step (fun e => (None, Return (VInt 0))) calm_memory
            (ten_state_with ten_entities) [])
     = Done [].
Proof. split; reflexivity. Qed.


(** The split of the seven-entity store in halves, with the reversing
    shuffle: three entities stay with the input, four go to the copy. *)
Example split_seven_in_halves :
  let '(r, h', _) := split demo_shuffle 5%positive (1 # 2) seven_heap world0 in
  r = Return (5%positive, 6%positive)
  /\ ids_of <$> store_entities h' 5%positive = Some [IdInt 6; IdInt 5; IdInt 4]
  /\ ids_of <$> store_entities h' 6%positive
     = Some [IdInt 3; IdInt 2; IdInt 1; IdInt 0].
Proof. vm_compute. repeat split. Qed.

(** The float product against the product of the decimal fractions: a
    hundred entities split at [.57] leave 56 in the first store, one fewer
    than the 57 a hundred times fifty-seven hundredths makes. *)
Example split_hundred_at_57 :
  length <$> store_entities
               (snd (fst (split demo_shuffle 5%positive (py_float (57 # 100))
                            hundred_heap world0))) 5%positive
  = Some 56%nat
  /\ Qfloor (100 * (57 # 100)) = 57.
Proof. split; vm_compute; reflexivity. Qed.



(** Read back as they are, the lines of the file are strings: a store
    whose identifiers are integers keeps none of its entities. *)
Example unparsed_lines_match_no_integer_id :
  _entities (self (filter_ids
                     (map parse_str_id (split_lines (ids_text ten_entities)))
                     (ten_state_with ten_entities)))
  = [].
Proof. vm_compute. reflexivity. Qed.

(** * Further properties of the code *)

(** ** The controller chain *)

(** X1. An exception raised by a controller leaves [process_sample] at
    once: it is the result of the chain, the raising controller is the last
    one called, and the controllers after it are not run. *)
Theorem controller_exception_ends_chain
    (pre : list controller) (c : controller) (rest : list controller)
    (sample current : pyval) (calls : list pyval) (e : exn) :
  process_sample_trace pre sample = (calls, Return current) ->
  pre = [] \/ py_eq current py_False = false ->
  c current = Raise e ->
  process_sample_trace (pre ++ c :: rest) sample = (calls ++ [current], Raise e)
  /\ process_sample (pre ++ c :: rest) sample = Raise e.
Proof.
intros Hpre Halive Hc. unfold process_sample.
rewrite (process_sample_trace_app pre (c :: rest) sample calls current Hpre Halive).
simpl. rewrite Hc. split; reflexivity.
Qed.

Lemma controller_exception_ends_chain_witness :
  process_sample_trace [accept_all] a_sample = ([a_sample], Return a_sample)
  /\ ([accept_all] = [] \/ py_eq a_sample py_False = false)
  /\ (fun _ : pyval => @Raise pyval ValueError) a_sample = Raise ValueError
  /\ process_sample ([accept_all] ++ (fun _ => Raise ValueError) :: [reject_all]) a_sample
     = Raise ValueError.
Proof.
split; [reflexivity|]. split; [right; reflexivity|]. split; [reflexivity|].
apply (controller_exception_ends_chain [accept_all] (fun _ => Raise ValueError)
         [reject_all] a_sample a_sample [a_sample] ValueError);
  [reflexivity | right; reflexivity | reflexivity].
Defined.

Lemma process_sample_trace_cases cs sample :
  let '(calls, r) := process_sample_trace cs sample in
  (length calls <= length cs)%nat
  /\ match r with
     | Return v =>
         (cs = [] /\ v = sample /\ calls = [])
         \/ (cs <> [] /\ v = py_False)
         \/ (cs <> [] /\ py_eq v py_False = false /\ length calls = length cs)
     | Raise _ => cs <> []
     end.
Proof.
revert sample. induction cs as [|c cs IH]; intros sample; simpl.
- split; [lia|]. left. auto.
- destruct (c sample) as [tmp|e]; [|simpl; split; [lia | discriminate]].
  destruct (py_eq (if py_eq tmp py_True then sample else tmp) py_False) eqn:Hrej.
  + simpl. split; [lia|]. right. left. split; [discriminate | reflexivity].
  + specialize (IH (if py_eq tmp py_True then sample else tmp)).
    destruct (process_sample_trace cs _) as [calls r]. destruct IH as [Hlen Hr].
    simpl. split; [lia|].
    destruct r as [v|e]; [|discriminate].
    destruct Hr as [(-> & -> & ->) | [(Hne & ->) | (Hne & Hv & Hl)]].
    * right. right. split; [discriminate|]. split; [exact Hrej | reflexivity].
    * right. left. split; [discriminate | reflexivity].
    * right. right. split; [discriminate|]. split; [exact Hv | simpl; congruence].
Qed.

(** X2. Once a controller has run, [process_sample] never hands back a
    value that is merely equal to [False]: its result is [False] itself or a
    value different from [False] (an integer 0 left or put there by a
    controller comes out as [False]).  A chain that ends alive has called
    every controller, and no chain calls more controllers than it has. *)
Theorem process_sample_result_normalised
    (cs : list controller) (sample v : pyval) :
  cs <> [] ->
  process_sample cs sample = Return v ->
  (v = py_False \/ py_eq v py_False = false)
  /\ (length (fst (process_sample_trace cs sample)) <= length cs)%nat
  /\ (py_eq v py_False = false ->
      length (fst (process_sample_trace cs sample)) = length cs).
Proof.
intros Hne Hv. unfold process_sample in Hv.
pose proof (process_sample_trace_cases cs sample) as H.
destruct (process_sample_trace cs sample) as [calls r]. simpl in *. subst r.
destruct H as [Hlen [(E & _) | [(_ & ->) | (_ & Hf & Hl)]]]; [contradiction | |].
- split; [left; reflexivity|]. split; [exact Hlen | discriminate].
- split; [right; exact Hf|]. split; [exact Hlen | intros _; exact Hl].
Qed.

Lemma process_sample_result_normalised_witness :
  [answer (VInt 0)] <> []
  /\ process_sample [answer (VInt 0)] a_sample = Return py_False
  /\ (py_False = py_False \/ py_eq py_False py_False = false).
Proof.
split; [discriminate|]. split; [reflexivity|].
apply (process_sample_result_normalised [answer (VInt 0)] a_sample py_False);
  [discriminate | reflexivity].
Defined.

(** X3. A chain whose controllers all answer with a value equal to [True]
    is the identity on every sample that is not equal to [False]. *)
Theorem accepting_chain_is_identity (cs : list controller) (sample : pyval) :
  py_eq sample py_False = false ->
  Forall (fun c : controller =>
            exists tmp, c sample = Return tmp /\ py_eq tmp py_True = true) cs ->
  process_sample cs sample = Return sample
  /\ fst (process_sample_trace cs sample) = map (fun _ => sample) cs.
Proof.
intros Hs Hall. unfold process_sample.
induction Hall as [|c cs (tmp & Hc & Ht) _ IH]; [split; reflexivity|].
simpl. rewrite Hc, Ht, Hs.
destruct (process_sample_trace cs sample) as [calls r]. simpl in *.
destruct IH as [-> ->]. split; reflexivity.
Qed.

Lemma accepting_chain_is_identity_witness :
  py_eq a_sample py_False = false
  /\ Forall (fun c : controller =>
               exists tmp, c a_sample = Return tmp /\ py_eq tmp py_True = true)
       [accept_all; answer (VInt 1)]
  /\ process_sample [accept_all; answer (VInt 1)] a_sample = Return a_sample.
Proof.
assert (H : Forall (fun c : controller =>
               exists tmp, c a_sample = Return tmp /\ py_eq tmp py_True = true)
       [accept_all; answer (VInt 1)]).
{ repeat constructor; eexists; split; reflexivity. }
split; [reflexivity|]. split; [exact H|].
apply (accepting_chain_is_identity [accept_all; answer (VInt 1)] a_sample eq_refl H).
Defined.

(** X4. Rejection and failure are final: when a chain has rejected the
    sample or raised, appending controllers to it changes neither the
    result nor the calls made. *)
Theorem ended_chain_ignores_suffix
    (pre rest : list controller) (sample : pyval) :
  pre <> [] ->
  (process_sample pre sample = Return py_False
   \/ exists e, process_sample pre sample = Raise e) ->
  process_sample_trace (pre ++ rest) sample = process_sample_trace pre sample.
Proof.
revert sample. induction pre as [|c pre IH]; intros sample Hne Hend; [congruence|].
unfold process_sample in Hend. simpl in Hend |- *.
destruct (c sample) as [tmp|e]; [|reflexivity].
destruct (py_eq (if py_eq tmp py_True then sample else tmp) py_False) eqn:Hrej;
  [reflexivity|].
set (s' := if py_eq tmp py_True then sample else tmp) in *.
destruct pre as [|c' pre].
- simpl in Hend. exfalso. destruct Hend as [H | [e H]]; [|discriminate].
  injection H as H. rewrite H in Hrej. discriminate.
- rewrite IH; [reflexivity | discriminate |].
  unfold process_sample.
  destruct (process_sample_trace (c' :: pre) s') as [calls r]. exact Hend.
Qed.

Lemma ended_chain_ignores_suffix_witness :
  [accept_all; reject_all] <> []
  /\ (process_sample [accept_all; reject_all] a_sample = Return py_False
      \/ exists e, process_sample [accept_all; reject_all] a_sample = Raise e)
  /\ process_sample_trace ([accept_all; reject_all] ++ [answer (VInt 7)]) a_sample
     = process_sample_trace [accept_all; reject_all] a_sample.
Proof.
split; [discriminate|]. split; [left; reflexivity|].
apply (ended_chain_ignores_suffix [accept_all; reject_all] [answer (VInt 7)] a_sample);
  [discriminate | left; reflexivity].
Defined.

(** ** The batch assembler *)

Section NextEdges.

Variable get_sample : Entity -> option pyval * result pyval.
Variable virtual_memory_percent : nat -> Q.

Abbreviation next' := (next get_sample virtual_memory_percent).
Abbreviation step' := (batch_step get_sample virtual_memory_percent).
Abbreviation loop' := (batch_loop get_sample virtual_memory_percent).

Lemma py_getitem_None {A} (l : list A) i :
  py_getitem l i = None <-> (i < - Z.of_nat (length l) \/ Z.of_nat (length l) <= i).
Proof.
unfold py_getitem.
set (k := if i <? 0 then i + Z.of_nat (length l) else i).
assert (Hk : k = if i <? 0 then i + Z.of_nat (length l) else i) by reflexivity.
destruct ((0 <=? k) && (k <? Z.of_nat (length l))) eqn:Hb.
- apply andb_true_iff in Hb as [H0 H1]. apply Z.leb_le in H0. apply Z.ltb_lt in H1.
  destruct (lookup_lt_is_Some_2 l (Z.to_nat k)) as [x Hx]; [lia|].
  rewrite Hx. simpl. split; [discriminate|].
  destruct (i <? 0) eqn:Hi; [apply Z.ltb_lt in Hi | apply Z.ltb_ge in Hi]; lia.
- split; [|reflexivity]. intros _.
  apply andb_false_iff in Hb.
  destruct (i <? 0) eqn:Hi; [apply Z.ltb_lt in Hi | apply Z.ltb_ge in Hi];
    destruct Hb as [Hb|Hb]; [apply Z.leb_gt in Hb | apply Z.ltb_ge in Hb
                            | apply Z.leb_gt in Hb | apply Z.ltb_ge in Hb]; lia.
Qed.

(** X5. A batch size that is not positive makes [next] raise [ValueError]
    in either mode, whatever the store holds: the loop does not run, and
    the empty batch does not unpack into data and labels.  The data source
    is left as it was. *)
Theorem next_without_slots_fails (size0 : option Z) (st : State) :
  default (batch_size (self st)) size0 <= 0 ->
  next' size0 st = (Fails ValueError, st).
Proof.
intros Hsize. unfold next.
set (size := match size0 with Some b => b | None => batch_size (self st) end).
assert (E : default (batch_size (self st)) size0 = size) by (destruct size0; reflexivity).
rewrite E in Hsize.
rewrite batch_loop_exit by (simpl; lia). reflexivity.
Qed.

(** A cursor outside the store: the first read of the loop raises. *)
Lemma next_index_error (size0 : option Z) (st : State) :
  0 < default (batch_size (self st)) size0 ->
  list_pointer (self st) < - Z.of_nat (length (_entities (self st)))
  \/ Z.of_nat (length (_entities (self st))) <= list_pointer (self st) ->
  next' size0 st = (Fails IndexError, st).
Proof.
intros Hsize Hout. unfold next.
set (size := match size0 with Some b => b | None => batch_size (self st) end).
assert (E : default (batch_size (self st)) size0 = size) by (destruct size0; reflexivity).
rewrite E in Hsize.
unfold next_fuel. rewrite Nat.add_1_r. cbn [batch_loop].
replace (Z.of_nat (length (@nil pyval)) <? size) with true
  by (symmetry; apply Z.ltb_lt; simpl; lia).
unfold batch_step. apply py_getitem_None in Hout. rewrite Hout. reflexivity.
Qed.

(** X6. With a cursor outside the store (as on an empty store, or after
    the store was cut below the cursor) a call for a positive number of
    samples raises [IndexError] at once, in either mode, and changes
    nothing. *)
Theorem next_outside_store_fails (size0 : option Z) (st : State) :
  0 < default (batch_size (self st)) size0 ->
  list_pointer (self st) < - Z.of_nat (length (_entities (self st)))
  \/ Z.of_nat (length (_entities (self st))) <= list_pointer (self st) ->
  next' size0 st = (Fails IndexError, st).
Proof. exact (next_index_error size0 st). Qed.

End NextEdges.

Lemma next_without_slots_fails_witness :
  default (batch_size (self (ten_state_with ten_entities))) (Some (-3)) <= 0
  /\ next demo_get_sample calm_memory (Some (-3)) (ten_state_with ten_entities)
     = (Fails ValueError, ten_state_with ten_entities).
Proof.
split; [simpl; lia|].
apply (next_without_slots_fails demo_get_sample calm_memory (Some (-3))
         (ten_state_with ten_entities)).
simpl. lia.
Defined.

Lemma next_outside_store_fails_witness :
  0 < default (batch_size (self (ten_state_with []))) None
  /\ (list_pointer (self (ten_state_with []))
      < - Z.of_nat (length (_entities (self (ten_state_with []))))
      \/ Z.of_nat (length (_entities (self (ten_state_with []))))
         <= list_pointer (self (ten_state_with [])))
  /\ next demo_get_sample calm_memory None (ten_state_with [])
     = (Fails IndexError, ten_state_with []).
Proof.
split; [simpl; lia|]. split; [right; simpl; lia|].
apply (next_outside_store_fails demo_get_sample calm_memory None (ten_state_with []));
  [simpl; lia | right; simpl; lia].
Defined.

Lemma ids_of_insert (es : list Entity) i e e' :
  es !! i = Some e -> unique_id e' = unique_id e ->
  ids_of (<[i := e']> es) = ids_of es.
Proof.
revert i. induction es as [|x es IH]; intros i Hi Hid; [reflexivity|].
destruct i as [|i]; simpl in *.
- injection Hi as ->. unfold ids_of. simpl. now rewrite Hid.
- unfold ids_of in *. simpl. f_equal. now apply IH.
Qed.

Section StoreOrder.

Variable get_sample : Entity -> option pyval * result pyval.
Variable virtual_memory_percent : nat -> Q.

Lemma memory_check_order i st :
  ids_of (_entities (self (snd (memory_check virtual_memory_percent i st))))
  = ids_of (_entities (self st))
  /\ rng (world (snd (memory_check virtual_memory_percent i st))) = rng (world st)
  /\ log (world (snd (memory_check virtual_memory_percent i st))) = log (world st)
  /\ files (world (snd (memory_check virtual_memory_percent i st))) = files (world st).
Proof.
unfold memory_check, del_data.
destruct (negb _); [destruct (_entities (self st) !! i) as [e|] eqn:He;
                    [destruct (data e)|]|]; simpl; repeat split.
now apply (ids_of_insert _ i e).
Qed.

Lemma fetch_sample_id d e : unique_id (fst (fetch_sample get_sample d e)) = unique_id e.
Proof. unfold fetch_sample. destruct (get_sample e). reflexivity. Qed.

Lemma fetch_sample_data d e : data (fst (fetch_sample get_sample d e)) = fst (get_sample e).
Proof. unfold fetch_sample. destruct (get_sample e). reflexivity. Qed.

(** One iteration, whatever its outcome, keeps the order of the store,
    the generator and the files. *)
Lemma batch_step_order st batch :
  let st' := snd (batch_step get_sample virtual_memory_percent st batch) in
  ids_of (_entities (self st')) = ids_of (_entities (self st))
  /\ rng (world st') = rng (world st)
  /\ files (world st') = files (world st).
Proof.
unfold batch_step.
destruct (py_getitem _ _) as [[i entity]|] eqn:Hget; [|simpl; auto].
apply py_getitem_Some in Hget as (Hi & _).
assert (Hfill : let st1 := snd (batch_fill get_sample st i entity batch) in
                ids_of (_entities (self st1)) = ids_of (_entities (self st))
                /\ rng (world st1) = rng (world st)
                /\ files (world st1) = files (world st)).
{ unfold batch_fill.
  pose proof (ids_of_insert _ i entity (fst (fetch_sample get_sample (self st) entity))
                Hi (fetch_sample_id (self st) entity)) as Hins.
  destruct (workers (self st) =? 1).
  - destruct (fetch_sample get_sample (self st) entity) as [entity' [sample|e]];
      simpl in Hins |- *; [auto|].
    destruct (is_Exception e); simpl; [|auto].
    destruct (verbosity (self st) =? 3); auto.
  - destruct (queues st) as [p|]; [|simpl; auto].
    destruct (items (sample_queue p)) as [|sample rest]; simpl; auto. }
destruct (batch_fill get_sample st i entity batch) as [[batch1| | |] st1];
  simpl in Hfill |- *; try exact Hfill.
destruct (_ <=? _); simpl; [exact Hfill|].
destruct (memory_check_order i st1) as (H1 & H2 & _ & H4).
destruct Hfill as (F1 & F2 & F3).
destruct (memory_check virtual_memory_percent i st1) as [[e|] st2];
  simpl in *; rewrite H1, H2, H4; auto.
Qed.

Lemma batch_loop_order fuel size st batch :
  let st' := snd (batch_loop get_sample virtual_memory_percent fuel size st batch) in
  ids_of (_entities (self st')) = ids_of (_entities (self st))
  /\ rng (world st') = rng (world st)
  /\ files (world st') = files (world st).
Proof.
revert st batch. induction fuel as [|fuel IH]; intros st batch; simpl.
- destruct (_ <? size); simpl; auto.
- destruct (_ <? size); [|simpl; auto].
  pose proof (batch_step_order st batch) as Hs.
  destruct (batch_step get_sample virtual_memory_percent st batch) as [[batch1| | |] st1];
    simpl in Hs |- *; try exact Hs.
  destruct Hs as (H1 & H2 & H3). specialize (IH st1 batch1). simpl in IH.
  destruct IH as (I1 & I2 & I3). rewrite I1, I2, I3. auto.
Qed.

(** X7. [next] never reorders the store: whatever the call comes to, in
    either mode, the identifiers of the store are afterwards in the order
    they were in, the random generator has not been used, and no file has
    been written.  (Entities change only in their raw-data field.) *)
Theorem next_keeps_store_order (size0 : option Z) (st : State) :
  let st' := snd (next get_sample virtual_memory_percent size0 st) in
  ids_of (_entities (self st')) = ids_of (_entities (self st))
  /\ rng (world st') = rng (world st)
  /\ files (world st') = files (world st).
Proof.
unfold next.
set (size := match size0 with Some b => b | None => batch_size (self st) end).
pose proof (batch_loop_order (next_fuel size st) size st []) as H.
destruct (batch_loop get_sample virtual_memory_percent (next_fuel size st) size st [])
  as [[batch| | |] st1]; simpl in H |- *; try exact H.
destruct (unpack_batch _ batch); exact H.
Qed.

End StoreOrder.

Section InlineBatch.

Variable get_sample : Entity -> option pyval * result pyval.
Variable virtual_memory_percent : nat -> Q.

Lemma accepted_same_config d d' e :
  same_config d d' -> accepted get_sample d' e = accepted get_sample d e.
Proof.
intros (_ & _ & Hc & _). unfold accepted, fetch_sample. rewrite Hc. reflexivity.
Qed.

(** The entities an iteration does not read stay as they are. *)
Lemma batch_step_others st batch batch' st' i entity :
  py_getitem (_entities (self st)) (list_pointer (self st)) = Some (i, entity) ->
  batch_step get_sample virtual_memory_percent st batch = (Done batch', st') ->
  forall j, j <> i -> _entities (self st') !! j = _entities (self st) !! j.
Proof.
intros Hget Hstep j Hj.
destruct (batch_step_before_check _ _ _ _ _ _ _ _ Hget Hstep)
  as (st1 & Hm & _ & _ & Hes & _).
destruct (memory_check_cases virtual_memory_percent i st1) as [_ Hmem].
rewrite Hm in Hmem. simpl in Hmem. destruct Hmem as [Hmem _].
rewrite Hmem.
assert (H1 : _entities (self st1) !! j = _entities (self st) !! j).
{ rewrite Hes. destruct (workers (self st) =? 1); [|reflexivity].
  apply list_lookup_insert_ne. congruence. }
destruct (negb _); [|exact H1].
destruct (_entities (self st1) !! i); [|exact H1].
rewrite list_lookup_insert_ne by congruence. exact H1.
Qed.

Lemma drop_agree {A} (l l' : list A) n :
  length l' = length l ->
  (forall j, (n <= j)%nat -> l' !! j = l !! j) ->
  skipn n l' = skipn n l.
Proof.
intros Hlen H. apply list_eq. intros j. rewrite !lookup_drop. apply H. lia.
Qed.

Lemma batch_loop_content fuel size st batch b st' :
  workers (self st) = 1 ->
  0 <= list_pointer (self st) ->
  batch_loop get_sample virtual_memory_percent fuel size st batch = (Done b, st') ->
  exists k : nat,
    list_pointer (self st') = list_pointer (self st) + Z.of_nat k
    /\ b = batch ++ flat_map (accepted get_sample (self st))
                      (firstn k (skipn (Z.to_nat (list_pointer (self st)))
                                   (_entities (self st)))).
Proof.
revert st batch. induction fuel as [|fuel IH]; intros st batch Hw Hptr H; simpl in H.
- destruct (_ <? size); [discriminate|]. injection H as <- <-.
  exists 0%nat. simpl. rewrite app_nil_r. split; [lia | reflexivity].
- destruct (_ <? size).
  2:{ injection H as <- <-. exists 0%nat. simpl. rewrite app_nil_r. split; [lia | reflexivity]. }
  destruct (batch_step get_sample virtual_memory_percent st batch)
    as [[batch1| | |] st1] eqn:Hs; try discriminate.
  destruct (py_getitem (_entities (self st)) (list_pointer (self st)))
    as [[i entity]|] eqn:Hget.
  2:{ unfold batch_step in Hs. rewrite Hget in Hs. discriminate. }
  pose proof (batch_step_others _ _ _ _ _ _ Hget Hs) as Hothers.
  destruct (batch_step_before_check _ _ _ _ _ _ _ _ Hget Hs) as (_ & _ & _ & _ & _ & Hb).
  specialize (Hb Hw).
  apply batch_step_Done in Hs as (Hc & Hl & _ & H1 & _).
  destruct (H1 Hw) as [Hp1 _].
  apply py_getitem_Some in Hget as (Hi & Hlt & _ & Hidx).
  replace (list_pointer (self st) <? 0) with false in Hidx
    by (symmetry; apply Z.ltb_ge; lia).
  assert (Ei : i = Z.to_nat (list_pointer (self st))) by lia.
  apply IH in H as (k & Hk & ->); [| destruct Hc as (_&_&_&_&_&_&Hc&_); congruence | lia].
  exists (S k). split; [lia|].
  rewrite <- Ei. rewrite (drop_S _ _ _ Hi). simpl.
  rewrite Hb, app_assoc. f_equal.
  + unfold accepted. destruct (snd (fetch_sample get_sample (self st) entity)) as [v|e];
      [destruct (py_truthy v)|]; rewrite ?app_nil_r; reflexivity.
  + replace (Z.to_nat (list_pointer (self st1))) with (S i) by lia.
    rewrite (drop_agree (_entities (self st)) (_entities (self st1)) (S i) Hl)
      by (intros j Hj; apply Hothers; lia).
    apply flat_map_ext. intros e. now apply accepted_same_config.
Qed.

(** X8. In single-worker mode a batch is made of the accepted samples of
    consecutive entities, in store order, starting at the cursor: a call
    that returns has walked the cursor over [k] entities, stopping short of
    the end of the store, and its data and labels are the unpacking of what
    those entities contributed (nothing for an entity whose sample was
    rejected or failed). *)
Theorem next_batch_in_store_order (size0 : option Z) (st : State) (b : Batch) (st' : State) :
  workers (self st) = 1 ->
  0 <= list_pointer (self st) ->
  next get_sample virtual_memory_percent size0 st = (Done b, st') ->
  exists k : nat,
    list_pointer (self st') = list_pointer (self st) + Z.of_nat k
    /\ list_pointer (self st') < Z.of_nat (length (_entities (self st)))
    /\ unpack_batch (convert_batch_to_np (self st))
         (flat_map (accepted get_sample (self st))
            (firstn k (skipn (Z.to_nat (list_pointer (self st))) (_entities (self st)))))
       = Return b.
Proof.
intros Hw Hptr H. unfold next in H.
set (size := match size0 with Some x => x | None => batch_size (self st) end) in *.
destruct (batch_loop get_sample virtual_memory_percent (next_fuel size st) size st [])
  as [[batch| | |] st1] eqn:Hloop; try discriminate.
destruct (unpack_batch (convert_batch_to_np (self st1)) batch) as [b'|e] eqn:Hu;
  [|discriminate].
injection H as <- <-.
pose proof (batch_loop_Done _ _ _ _ _ _ _ _ Hloop) as (Hc & _ & _ & _).
pose proof (batch_loop_cursor _ _ _ _ _ _ _ _ Hw Hloop) as [_ Hend].
destruct (batch_loop_content _ _ _ _ _ _ Hw Hptr Hloop) as (k & Hk & Hb).
simpl in Hb. subst batch.
exists k. split; [exact Hk|]. split.
- destruct Hend as [[-> E] | Hend]; [|exact Hend].
  rewrite E in Hu. discriminate.
- destruct Hc as (_&_&_&_&_&_&_&Hc). rewrite <- Hc. exact Hu.
Qed.

(** The memory check raises nothing when the measurement is at or below
    the threshold, and when the entity it looks at has raw data. *)
Lemma memory_check_passes i st :
  (float_div (virtual_memory_percent (mem_clock (world st))) 100
   <= max_mem_percent (self st))%Q
  \/ (forall e, _entities (self st) !! i = Some e -> is_Some (data e)) ->
  fst (memory_check virtual_memory_percent i st) = None.
Proof.
intros H.
destruct (memory_check_cases virtual_memory_percent i st) as [_ Hmem].
destruct (fst (memory_check virtual_memory_percent i st)) as [x|]; [|reflexivity].
exfalso. destruct Hmem as (_ & Hex & (e & He & Hd) & _).
destruct H as [Hcalm | Hdata].
- apply Qle_bool_iff in Hcalm. rewrite Hcalm in Hex. discriminate.
- destruct (Hdata e He) as [raw Hraw]. congruence.
Qed.

(** The ways a single-worker iteration fails: an exception of the sample
    that is not an [Exception], the missing [reset_queue] at the end of the
    store, or a release under memory pressure that finds no raw data. *)
Lemma batch_step_inline_fails st batch e st' i entity :
  workers (self st) = 1 ->
  py_getitem (_entities (self st)) (list_pointer (self st)) = Some (i, entity) ->
  batch_step get_sample virtual_memory_percent st batch = (Fails e, st') ->
  (snd (fetch_sample get_sample (self st) entity) = Raise e /\ is_Exception e = false)
  \/ (e = NameError "reset_queue"
      /\ list_pointer (self st') = list_pointer (self st) + 1
      /\ length (_entities (self st')) = length (_entities (self st))
      /\ workers (self st') = 1
      /\ Z.of_nat (length (_entities (self st))) <= list_pointer (self st) + 1)
  \/ (e = AttributeError "data"
      /\ ~ (float_div (virtual_memory_percent (mem_clock (world st))) 100
            <= max_mem_percent (self st))%Q
      /\ fst (get_sample entity) = None).
Proof.
intros Hw Hget H. unfold batch_step in H. rewrite Hget in H.
destruct (batch_fill get_sample st i entity batch) as [[batch1|x| |] st1] eqn:Hfill;
  try discriminate.
- pose proof Hfill as Hfill'.
  apply batch_fill_Done in Hfill' as (Hc & Hl & Hclock & Hes & H1 & _).
  destruct (H1 Hw) as [Hptr _].
  destruct (_ <=? _) eqn:E; [apply Z.leb_le in E | apply Z.leb_gt in E].
  + injection H as <- <-. right. left.
    split; [reflexivity|]. split; [exact Hptr|]. split; [exact Hl|].
    split; [destruct Hc as (_&_&_&_&_&_&Hc&_); congruence | lia].
  + destruct (memory_check virtual_memory_percent i st1) as [[y|] st2] eqn:Hm;
      [|discriminate].
    injection H as <- <-. right. right.
    destruct (memory_check_cases virtual_memory_percent i st1) as [_ Hmem].
    rewrite Hm in Hmem. simpl in Hmem.
    destruct Hmem as (-> & Hex & (e0 & He0 & Hd) & _).
    split; [reflexivity|].
    assert (Hmax : max_mem_percent (self st1) = max_mem_percent (self st)) by apply Hc.
    rewrite Hclock, Hmax in Hex.
    split.
    { intros Hle. apply Qle_bool_iff in Hle. rewrite Hle in Hex. discriminate. }
    apply py_getitem_Some in Hget as (Hi & Hlt & _).
    rewrite Hes in He0. apply Z.eqb_eq in Hw. rewrite Hw in He0.
    rewrite list_lookup_insert_eq in He0 by lia. injection He0 as <-.
    rewrite fetch_sample_data in Hd. exact Hd.
- injection H as <- <-. left.
  unfold batch_fill in Hfill. apply Z.eqb_eq in Hw. rewrite Hw in Hfill.
  destruct (fetch_sample get_sample (self st) entity) as [entity' [sample|y]];
    [discriminate|].
  simpl. destruct (is_Exception y) eqn:Hy; [discriminate|].
  injection Hfill as <- _. auto.
Qed.

Lemma batch_loop_runs_off_the_end fuel size st batch :
  workers (self st) = 1 ->
  0 <= list_pointer (self st) < Z.of_nat (length (_entities (self st))) ->
  (forall j e x, (Z.to_nat (list_pointer (self st)) <= j)%nat ->
                 _entities (self st) !! j = Some e ->
                 snd (fetch_sample get_sample (self st) e) = Raise x ->
                 is_Exception x = true) ->
  (forall k, (float_div (virtual_memory_percent k) 100 <= max_mem_percent (self st))%Q)
  \/ (forall j e, (Z.to_nat (list_pointer (self st)) <= j)%nat ->
                  _entities (self st) !! j = Some e -> is_Some (fst (get_sample e))) ->
  Z.of_nat (length batch)
  + (Z.of_nat (length (_entities (self st))) - list_pointer (self st)) <= size ->
  (Z.to_nat (Z.of_nat (length (_entities (self st))) - list_pointer (self st)) < fuel)%nat ->
  exists st',
    batch_loop get_sample virtual_memory_percent fuel size st batch
    = (Fails (NameError "reset_queue"), st')
    /\ list_pointer (self st') = Z.of_nat (length (_entities (self st')))
    /\ workers (self st') = 1.
Proof.
revert st batch.
induction fuel as [|fuel IH]; intros st batch Hw Hptr Hsafe Hrel Hsize Hfuel; [lia|].
simpl. replace (Z.of_nat (length batch) <? size) with true by (symmetry; apply Z.ltb_lt; lia).
destruct (py_getitem (_entities (self st)) (list_pointer (self st)))
  as [[i entity]|] eqn:Hget.
2:{ apply py_getitem_None in Hget. lia. }
pose proof (batch_step_cases get_sample virtual_memory_percent st batch) as Hcases.
destruct (batch_step get_sample virtual_memory_percent st batch)
  as [[batch1|e| |] st1] eqn:Hs; simpl in Hcases; try contradiction.
- pose proof (batch_step_others _ _ _ _ _ _ Hget Hs) as Hothers.
  pose proof Hs as Hs'.
  apply batch_step_Done in Hs' as (Hc & Hl & Hp & H1 & _).
  destruct (H1 Hw) as [Hp1 Hb].
  apply py_getitem_Some in Hget as (Hi & Hlt & _ & Hidx).
  replace (list_pointer (self st) <? 0) with false in Hidx
    by (symmetry; apply Z.ltb_ge; lia).
  assert (Hw1 : workers (self st1) = 1) by (destruct Hc as (_&_&_&_&_&_&Hc'&_); congruence).
  apply IH; [exact Hw1 | lia | | | | lia].
  + intros j e x Hj He Hx. rewrite Hothers in He by lia.
    apply (Hsafe j e x); [lia | exact He |].
    unfold fetch_sample in Hx |- *. destruct Hc as (_&_&Hc'&_). rewrite <- Hc'. exact Hx.
  + destruct Hrel as [Hcalm | Hdata].
    * left. intros k. destruct Hc as (Hc'&_). rewrite Hc'. apply Hcalm.
    * right. intros j e Hj He. rewrite Hothers in He by lia.
      apply (Hdata j e); [lia | exact He].
  + rewrite Hl, Hp1.
    destruct Hb as [-> | (s & -> & _)]; rewrite ?length_app; simpl; lia.
- destruct (batch_step_inline_fails _ _ _ _ _ _ Hw Hget Hs)
    as [[Hx Hnot] | [(-> & Hp1 & Hl & Hw1 & Hwrap) | (-> & Hex & Hnone)]].
  + apply py_getitem_Some in Hget as (Hi & Hlt & _ & Hidx).
    replace (list_pointer (self st) <? 0) with false in Hidx
      by (symmetry; apply Z.ltb_ge; lia).
    rewrite (Hsafe i entity e) in Hnot; [discriminate | lia | exact Hi | exact Hx].
  + exists st1. split; [reflexivity|]. split; [|exact Hw1].
    rewrite Hl, Hp1. lia.
  + exfalso. destruct Hrel as [Hcalm | Hdata]; [exact (Hex (Hcalm _))|].
    apply py_getitem_Some in Hget as (Hi & Hlt & _ & Hidx).
    replace (list_pointer (self st) <? 0) with false in Hidx
      by (symmetry; apply Z.ltb_ge; lia).
    destruct (Hdata i entity) as [raw Hraw]; [lia | exact Hi | congruence].
Qed.

(** X9. In single-worker mode the store can be walked only once.  When
    fewer entities remain from the cursor than the call needs, including the
    last one, when nothing but ordinary exceptions are raised by the
    samples, and when the memory policy has something to release whenever
    it fires (the memory in use never exceeds the threshold, or every
    sampled entity is left with raw data), [next] raises [NameError] for the
    missing global [reset_queue], with the cursor left at the end of the
    store; from then on every call for a positive number of samples raises
    [IndexError]. *)
Theorem next_walks_the_store_once (size0 : option Z) (st : State) :
  workers (self st) = 1 ->
  0 <= list_pointer (self st) < Z.of_nat (length (_entities (self st))) ->
  (forall e x, In e (_entities (self st)) ->
               snd (fetch_sample get_sample (self st) e) = Raise x ->
               is_Exception x = true) ->
  (forall k, (float_div (virtual_memory_percent k) 100 <= max_mem_percent (self st))%Q)
  \/ (forall e, In e (_entities (self st)) -> is_Some (fst (get_sample e))) ->
  Z.of_nat (length (_entities (self st))) - list_pointer (self st)
  <= default (batch_size (self st)) size0 ->
  exists st',
    next get_sample virtual_memory_percent size0 st
    = (Fails (NameError "reset_queue"), st')
    /\ list_pointer (self st') = Z.of_nat (length (_entities (self st')))
    /\ forall size1, 0 < default (batch_size (self st')) size1 ->
         next get_sample virtual_memory_percent size1 st' = (Fails IndexError, st').
Proof.
intros Hw Hptr Hsafe Hrel Hsize. unfold next at 1.
set (size := match size0 with Some x => x | None => batch_size (self st) end) in *.
assert (E : default (batch_size (self st)) size0 = size) by (destruct size0; reflexivity).
rewrite E in Hsize.
destruct (batch_loop_runs_off_the_end (next_fuel size st) size st [] Hw Hptr)
  as (st' & Hloop & Hend & Hw'); [| | simpl; lia | unfold next_fuel; lia |].
{ intros j e x _ He. apply Hsafe. apply list_elem_of_In, list_elem_of_lookup. eauto. }
{ destruct Hrel as [Hcalm | Hdata]; [left; exact Hcalm | right].
  intros j e _ He. apply Hdata. apply list_elem_of_In, list_elem_of_lookup. eauto. }
rewrite Hloop. exists st'. split; [reflexivity|]. split; [exact Hend|].
intros size1 Hpos. apply next_index_error; [exact Hpos | right; lia].
Qed.

End InlineBatch.

Lemma next_batch_in_store_order_witness :
  workers (self (ten_state_with ten_entities)) = 1
  /\ 0 <= list_pointer (self (ten_state_with ten_entities))
  /\ exists b st',
       next demo_get_sample calm_memory None (ten_state_with ten_entities) = (Done b, st')
       /\ exists k : nat,
            list_pointer (self st')
            = list_pointer (self (ten_state_with ten_entities)) + Z.of_nat k
            /\ list_pointer (self st') < 10.
Proof.
split; [reflexivity|]. split; [simpl; lia|].
pose (r := next demo_get_sample calm_memory None (ten_state_with ten_entities)).
assert (Hn : r = (Done (mkBatch [VInt 0; VInt 1; VInt 2; VInt 3]
                          [VStr "label"; VStr "label"; VStr "label"; VStr "label"] true),
                  snd r)) by (vm_compute; reflexivity).
eexists. exists (snd r). split; [exact Hn|].
destruct (next_batch_in_store_order demo_get_sample calm_memory None
            (ten_state_with ten_entities) _ _ eq_refl ltac:(simpl; lia) Hn)
  as (k & Hk & Hend & _).
exists k. split; [exact Hk | exact Hend].
Defined.

Lemma next_walks_the_store_once_witness :
  workers (self (ten_state_at 8)) = 1
  /\ 0 <= list_pointer (self (ten_state_at 8))
          < Z.of_nat (length (_entities (self (ten_state_at 8))))
  /\ (forall e, In e (_entities (self (ten_state_at 8))) ->
                is_Some (fst (demo_get_sample e)))
  /\ Z.of_nat (length (_entities (self (ten_state_at 8)))) - list_pointer (self (ten_state_at 8))
     <= default (batch_size (self (ten_state_at 8))) None
  /\ exists st',
       next demo_get_sample high_memory None (ten_state_at 8)
       = (Fails (NameError "reset_queue"), st')
       /\ next demo_get_sample high_memory None st' = (Fails IndexError, st').
Proof.
assert (H1 : workers (self (ten_state_at 8)) = 1) by reflexivity.
assert (H2 : 0 <= list_pointer (self (ten_state_at 8))
                < Z.of_nat (length (_entities (self (ten_state_at 8)))))
  by (simpl; lia).
assert (H3 : forall e x, In e (_entities (self (ten_state_at 8))) ->
               snd (fetch_sample demo_get_sample (self (ten_state_at 8)) e) = Raise x ->
               is_Exception x = true) by (intros e x _ H; discriminate H).
assert (H4 : Z.of_nat (length (_entities (self (ten_state_at 8))))
             - list_pointer (self (ten_state_at 8))
             <= default (batch_size (self (ten_state_at 8))) None) by (simpl; lia).
assert (H5 : forall e, In e (_entities (self (ten_state_at 8))) ->
               is_Some (fst (demo_get_sample e))) by (intros e _; eexists; reflexivity).
split; [exact H1|]. split; [exact H2|]. split; [exact H5|]. split; [exact H4|].
destruct (next_walks_the_store_once demo_get_sample high_memory None (ten_state_at 8)
            H1 H2 H3 (or_intror H5) H4)
  as (st' & Hn & Hend & Hafter).
exists st'. split; [exact Hn|]. apply Hafter.
assert (Hb : batch_size (self st') = 4).
{ vm_compute in Hn. injection Hn as <-. reflexivity. }
simpl. rewrite Hb. lia.
Defined.

(** ** Unpacking a batch *)

Lemma py_iter_all_pairs (pairs : list (pyval * pyval)) :
  py_iter_all (map (fun p => VTuple [fst p; snd p]) pairs)
  = Return (map (fun p => [fst p; snd p]) pairs).
Proof.
induction pairs as [|p pairs IH]; simpl; [reflexivity|]. rewrite IH. reflexivity.
Qed.

Lemma heads_firsts (pairs : list (pyval * pyval)) :
  heads (map (fun p => [fst p; snd p]) pairs) = Some (map fst pairs)
  /\ heads (map (@tl pyval) (map (fun p => [fst p; snd p]) pairs)) = Some (map snd pairs)
  /\ map (@tl pyval) (map (@tl pyval) (map (fun p => [fst p; snd p]) pairs))
     = map (fun _ => []) pairs.
Proof.
induction pairs as [|p pairs (IH1 & IH2 & IH3)]; simpl; [auto|].
rewrite IH1, IH2, IH3. auto.
Qed.

(** X10. A batch of (data, label) pairs unpacks into the data of the
    samples and the labels of the samples, each in batch order: the i-th
    item of either sequence comes from the i-th sample. *)
Theorem unpack_batch_of_pairs (convert : bool) (pairs : list (pyval * pyval)) :
  pairs <> [] ->
  unpack_batch convert (map (fun p => VTuple [fst p; snd p]) pairs)
  = Return (mkBatch (map fst pairs) (map snd pairs) convert).
Proof.
intros Hne. unfold unpack_batch. rewrite py_iter_all_pairs.
destruct pairs as [|p pairs]; [congruence|].
destruct (heads_firsts (p :: pairs)) as (H1 & H2 & H3).
unfold py_zip. cbn [map length zip_rows]. cbn [map] in H1, H2, H3.
rewrite H1. cbn [map]. rewrite H2. reflexivity.
Qed.

Lemma unpack_batch_of_pairs_witness :
  [(VInt 1, VStr "a"); (VInt 2, VStr "b")] <> []
  /\ unpack_batch true [VTuple [VInt 1; VStr "a"]; VTuple [VInt 2; VStr "b"]]
     = Return (mkBatch [VInt 1; VInt 2] [VStr "a"; VStr "b"] true).
Proof.
split; [discriminate|].
apply (unpack_batch_of_pairs true [(VInt 1, VStr "a"); (VInt 2, VStr "b")]).
discriminate.
Defined.

(** X11. A batch holding a sample that cannot be iterated over (a number,
    a boolean, [None]) does not unpack: [TypeError] is raised. *)
Theorem unpack_batch_not_iterable (convert : bool) (batch : list pyval) (v : pyval) :
  In v batch ->
  py_iter v = Raise TypeError ->
  unpack_batch convert batch = Raise TypeError.
Proof.
intros Hin Hv. unfold unpack_batch.
assert (H : py_iter_all batch = Raise TypeError).
{ induction batch as [|x batch IH]; [contradiction|]. simpl.
  destruct Hin as [-> | Hin].
  - rewrite Hv. reflexivity.
  - rewrite (IH Hin).
    destruct (py_iter x) as [row|e] eqn:Hx; [reflexivity|].
    destruct x; simpl in Hx; congruence. }
rewrite H. reflexivity.
Qed.

Lemma unpack_batch_not_iterable_witness :
  In (VInt 5) [a_sample; VInt 5]
  /\ py_iter (VInt 5) = Raise TypeError
  /\ unpack_batch true [a_sample; VInt 5] = Raise TypeError.
Proof.
split; [right; left; reflexivity|]. split; [reflexivity|].
apply (unpack_batch_not_iterable true [a_sample; VInt 5] (VInt 5));
  [right; left; reflexivity | reflexivity].
Defined.

(** ** The batch assembler in multi-worker mode *)

Section FromQueue.

Variable get_sample : Entity -> option pyval * result pyval.
Variable virtual_memory_percent : nat -> Q.

Lemma batch_step_from_queue st batch p sample rest :
  workers (self st) <> 1 ->
  queues st = Some p ->
  items (sample_queue p) = sample :: rest ->
  - Z.of_nat (length (_entities (self st))) <= list_pointer (self st)
    < Z.of_nat (length (_entities (self st))) ->
  (float_div (virtual_memory_percent (mem_clock (world st))) 100
   <= max_mem_percent (self st))%Q ->
  exists st',
    batch_step get_sample virtual_memory_percent st batch = (Done (batch ++ [sample]), st')
    /\ queues st' = Some (mkPipeline (entity_queue p) (mkQueue (maxsize (sample_queue p)) rest))
    /\ same_config (self st) (self st')
    /\ length (_entities (self st')) = length (_entities (self st))
    /\ list_pointer (self st') = list_pointer (self st).
Proof.
intros Hw Hq Hitems Hrange Hcalm. unfold batch_step.
destruct (py_getitem (_entities (self st)) (list_pointer (self st)))
  as [[i entity]|] eqn:Hget.
2:{ apply py_getitem_None in Hget. lia. }
unfold batch_fill.
apply Z.eqb_neq in Hw. rewrite Hw, Hq, Hitems. cbn [self].
replace (Z.of_nat (length (_entities (self st))) <=? list_pointer (self st)) with false
  by (symmetry; apply Z.leb_gt; lia).
match goal with |- context [memory_check _ i ?s] =>
  pose proof (memory_check_frame virtual_memory_percent i s) as (Hc & Hl & Hp & Hqs);
  pose proof (memory_check_passes virtual_memory_percent i s (or_introl Hcalm)) as Hpass;
  destruct (memory_check virtual_memory_percent i s) as [[x|] st2]
end; [discriminate|].
simpl in Hc, Hl, Hp, Hqs. exists st2. auto.
Qed.

Lemma batch_loop_from_queue taken : forall fuel size st batch p rest,
  workers (self st) <> 1 ->
  queues st = Some p ->
  items (sample_queue p) = taken ++ rest ->
  - Z.of_nat (length (_entities (self st))) <= list_pointer (self st)
    < Z.of_nat (length (_entities (self st))) ->
  (forall k, (float_div (virtual_memory_percent k) 100 <= max_mem_percent (self st))%Q) ->
  (length taken <= fuel)%nat ->
  (Z.of_nat (length batch) + Z.of_nat (length taken) = size
   -> exists st',
        batch_loop get_sample virtual_memory_percent fuel size st batch
        = (Done (batch ++ taken), st')
        /\ queues st'
           = Some (mkPipeline (entity_queue p) (mkQueue (maxsize (sample_queue p)) rest))
        /\ same_config (self st) (self st')
        /\ list_pointer (self st') = list_pointer (self st))
  /\ (Z.of_nat (length batch) + Z.of_nat (length taken) < size -> rest = [] ->
      (length taken < fuel)%nat ->
      fst (batch_loop get_sample virtual_memory_percent fuel size st batch) = Blocks).
Proof.
induction taken as [|s taken IH];
  intros fuel size st batch p rest Hw Hq Hitems Hrange Hcalm Hfuel.
- split.
  + intros Hsize. exists st. rewrite batch_loop_exit by (simpl in Hsize; lia).
    rewrite app_nil_r. split; [reflexivity|].
    split; [|split; [apply same_config_refl | reflexivity]].
    rewrite Hq. destruct p as [eq [ms its]]. simpl in *. subst its. reflexivity.
  + intros Hsize -> Hf. destruct fuel as [|fuel]; [simpl in Hf; lia|].
    simpl. replace (Z.of_nat (length batch) <? size) with true
      by (symmetry; apply Z.ltb_lt; simpl in Hsize; lia).
    unfold batch_step.
    destruct (py_getitem (_entities (self st)) (list_pointer (self st)))
      as [[i entity]|] eqn:Hget.
    2:{ apply py_getitem_None in Hget. lia. }
    unfold batch_fill.
    apply Z.eqb_neq in Hw. rewrite Hw, Hq. simpl in Hitems. rewrite Hitems. reflexivity.
- destruct fuel as [|fuel]; [simpl in Hfuel; lia|].
  destruct (batch_step_from_queue st batch p s (taken ++ rest) Hw Hq Hitems Hrange (Hcalm _))
    as (st1 & Hs & Hq1 & Hc & Hl & Hp).
  assert (Hw1 : workers (self st1) <> 1)
    by (destruct Hc as (_&_&_&_&_&_&Hc'&_); congruence).
  assert (Hcalm1 : forall k, (float_div (virtual_memory_percent k) 100
                              <= max_mem_percent (self st1))%Q).
  { intros k. destruct Hc as (Hc'&_). rewrite Hc'. apply Hcalm. }
  destruct (IH fuel size st1 (batch ++ [s]) _ rest Hw1 Hq1 eq_refl
              ltac:(rewrite Hl, Hp; exact Hrange) Hcalm1 ltac:(simpl in Hfuel; lia))
    as [IHdone IHwait].
  simpl in IHdone, IHwait.
  split.
  + intros Hsize. simpl in Hsize.
    destruct IHdone as (st' & Hloop & Hq' & Hc' & Hp');
      [rewrite length_app; simpl; lia|].
    exists st'. simpl.
    replace (Z.of_nat (length batch) <? size) with true by (symmetry; apply Z.ltb_lt; lia).
    rewrite Hs, Hloop, <- app_assoc. split; [reflexivity|].
    split; [exact Hq'|]. split; [eapply same_config_trans; eassumption | congruence].
  + intros Hsize Hrest Hf. simpl in Hsize, Hf. simpl.
    replace (Z.of_nat (length batch) <? size) with true by (symmetry; apply Z.ltb_lt; lia).
    rewrite Hs. apply IHwait; [rewrite length_app; simpl; lia | exact Hrest | lia].
Qed.

(** X12. In multi-worker mode [next] hands out the sample queue in order,
    as long as the memory in use stays at or below the threshold, so that
    the memory policy releases nothing.  With at least [batch_size] samples
    waiting and the cursor inside the store, the call unpacks exactly the
    first [batch_size] of them, in queue order, leaves the others in the
    queue and does not move the cursor; with fewer it waits for the
    workers. *)
Theorem next_takes_the_queue_in_order (size0 : option Z) (st : State) (p : Pipeline) :
  workers (self st) <> 1 ->
  queues st = Some p ->
  - Z.of_nat (length (_entities (self st))) <= list_pointer (self st)
    < Z.of_nat (length (_entities (self st))) ->
  (forall k, (float_div (virtual_memory_percent k) 100 <= max_mem_percent (self st))%Q) ->
  0 < default (batch_size (self st)) size0 ->
  let n := Z.to_nat (default (batch_size (self st)) size0) in
  ((n <= length (items (sample_queue p)))%nat ->
   exists st',
     next get_sample virtual_memory_percent size0 st
     = (match unpack_batch (convert_batch_to_np (self st))
                (firstn n (items (sample_queue p))) with
        | Return b => Done b
        | Raise e => Fails e
        end, st')
     /\ queues st'
        = Some (mkPipeline (entity_queue p)
                  (mkQueue (maxsize (sample_queue p)) (skipn n (items (sample_queue p)))))
     /\ list_pointer (self st') = list_pointer (self st))
  /\ ((length (items (sample_queue p)) < n)%nat ->
      fst (next get_sample virtual_memory_percent size0 st) = Blocks).
Proof.
intros Hw Hq Hrange Hcalm Hpos n. unfold next.
set (size := match size0 with Some x => x | None => batch_size (self st) end) in *.
assert (E : default (batch_size (self st)) size0 = size) by (destruct size0; reflexivity).
rewrite E in Hpos. subst n. rewrite E.
split.
- intros Hn.
  destruct (batch_loop_from_queue (firstn (Z.to_nat size) (items (sample_queue p)))
              (next_fuel size st) size st [] p
              (skipn (Z.to_nat size) (items (sample_queue p))) Hw Hq
              (eq_sym (firstn_skipn _ _)) Hrange Hcalm) as [Hdone _].
  { rewrite length_firstn. unfold next_fuel. lia. }
  destruct Hdone as (st' & Hloop & Hq' & Hc & Hp).
  { rewrite length_firstn. simpl. lia. }
  rewrite Hloop. simpl. exists st'.
  destruct Hc as (_&_&_&_&_&_&_&Hc). rewrite Hc.
  destruct (unpack_batch _ _); auto.
- intros Hn.
  destruct (batch_loop_from_queue (items (sample_queue p))
              (next_fuel size st) size st [] p [] Hw Hq
              (eq_sym (app_nil_r _)) Hrange Hcalm) as [_ Hwait].
  { unfold next_fuel. lia. }
  specialize (Hwait ltac:(simpl; lia) eq_refl ltac:(unfold next_fuel; lia)).
  destruct (batch_loop _ _ _ _ _ _) as [[?| | |] ?]; simpl in Hwait; try discriminate.
  reflexivity.
Qed.

(** Without that proviso the call can fail: the cursor does not move in
    this mode, so every iteration looks at the same entity, and a second
    release under memory pressure finds the raw data gone. *)
Example next_releases_the_same_entity_twice :
  fst (next demo_get_sample high_memory (Some 2)
         (mkState (set_entities (self three_samples_waiting)
                     (map (fun e => set_data e (Some (VStr "raw"))) ten_entities))
            (queues three_samples_waiting) world0))
  = Fails (AttributeError "data").
Proof. vm_compute. reflexivity. Qed.

End FromQueue.

Lemma next_takes_the_queue_in_order_witness :
  workers (self three_samples_waiting) <> 1
  /\ (forall k, (float_div (calm_memory k) 100
                 <= max_mem_percent (self three_samples_waiting))%Q)
  /\ 0 < default (batch_size (self three_samples_waiting)) (Some 2)
  /\ fst (next demo_get_sample calm_memory (Some 2) three_samples_waiting)
     = Done (mkBatch [VInt 5; VInt 3] [VStr "e"; VStr "c"] true)
  /\ fst (next demo_get_sample calm_memory None three_samples_waiting) = Blocks.
Proof.
assert (H1 : workers (self three_samples_waiting) <> 1) by discriminate.
assert (H2 : forall k, (float_div (calm_memory k) 100
                        <= max_mem_percent (self three_samples_waiting))%Q)
  by (intros k; vm_compute; discriminate).
split; [exact H1|]. split; [exact H2|]. split; [simpl; lia|].
split.
- destruct (next_takes_the_queue_in_order demo_get_sample calm_memory (Some 2)
              three_samples_waiting _ H1 eq_refl ltac:(simpl; lia) H2 ltac:(simpl; lia))
    as [Hdone _].
  destruct Hdone as (st' & Hn & _); [simpl; lia|].
  rewrite Hn. reflexivity.
- destruct (next_takes_the_queue_in_order demo_get_sample calm_memory None
              three_samples_waiting _ H1 eq_refl ltac:(simpl; lia) H2 ltac:(simpl; lia))
    as [_ Hwait].
  apply Hwait. simpl. lia.
Defined.

(** ** [filter_ids] and [save_ids] *)

Lemma filter_twice {A} (f g : A -> bool) (l : list A) :
  List.filter f (List.filter g l) = List.filter (fun x => g x && f x) l.
Proof.
induction l as [|x l IH]; simpl; [reflexivity|].
destruct (g x); simpl; [destruct (f x)|]; rewrite IH; reflexivity.
Qed.

(** X13. Filtering by two identifier lists, one after the other, keeps the
    entities whose identifier is in both, in store order, whichever list
    comes first; filtering again by the same list changes nothing more.
    The cursor and the configuration are not touched. *)
Theorem filter_ids_compose (a b : list ident) (st : State) :
  _entities (self (filter_ids a (filter_ids b st)))
  = List.filter (fun e => in_set a e && in_set b e) (_entities (self st))
  /\ _entities (self (filter_ids a (filter_ids b st)))
     = _entities (self (filter_ids b (filter_ids a st)))
  /\ _entities (self (filter_ids a (filter_ids a st))) = _entities (self (filter_ids a st))
  /\ list_pointer (self (filter_ids a st)) = list_pointer (self st)
  /\ same_config (self st) (self (filter_ids a st)).
Proof.
unfold filter_ids. simpl. rewrite !filter_twice.
split; [apply filter_ext; intros e; apply andb_comm|].
split; [apply filter_ext; intros e; apply andb_comm|].
split; [apply filter_ext; intros e; destruct (in_set a e); reflexivity|].
split; [reflexivity | repeat split].
Qed.

Section FilterThenNext.

Variable get_sample : Entity -> option pyval * result pyval.
Variable virtual_memory_percent : nat -> Q.

(** X14. [filter_ids] leaves the cursor where it was and checks nothing:
    when the entities it keeps are no more than the cursor had passed (in
    particular when none is kept), the next call for a positive number of
    samples raises [IndexError]. *)
Theorem filter_ids_below_cursor (id_list : list ident) (size0 : option Z) (st : State) :
  0 < default (batch_size (self st)) size0 ->
  Z.of_nat (length (List.filter (in_set id_list) (_entities (self st))))
  <= list_pointer (self st) ->
  next get_sample virtual_memory_percent size0 (filter_ids id_list st)
  = (Fails IndexError, filter_ids id_list st).
Proof.
intros Hsize Hcut. apply next_index_error; [exact Hsize | right; exact Hcut].
Qed.

End FilterThenNext.

Lemma filter_ids_below_cursor_witness :
  0 < default (batch_size (self (ten_state_at 5))) None
  /\ Z.of_nat (length (List.filter (in_set [IdInt 0; IdInt 1; IdInt 7])
                         (_entities (self (ten_state_at 5)))))
     <= list_pointer (self (ten_state_at 5))
  /\ fst (next demo_get_sample calm_memory None
            (filter_ids [IdInt 0; IdInt 1; IdInt 7] (ten_state_at 5)))
     = Fails IndexError.
Proof.
split; [simpl; lia|]. split; [vm_compute; discriminate|].
rewrite (filter_ids_below_cursor demo_get_sample calm_memory
           [IdInt 0; IdInt 1; IdInt 7] None (ten_state_at 5));
  [reflexivity | simpl; lia | vm_compute; discriminate].
Defined.

(** X15. The file [save_ids] writes loses nothing about the identifiers'
    texts: two non-empty stores whose identifiers print without a newline
    write the same text only if they hold the same texts in the same
    order. *)
Theorem save_ids_text_injective (name : string) (st1 st2 : State) :
  _entities (self st1) <> [] -> _entities (self st2) <> [] ->
  (forall e, In e (_entities (self st1) ++ _entities (self st2)) ->
             newline_free (py_str (unique_id e)) = true) ->
  files (world (save_ids name st1)) !! name = files (world (save_ids name st2)) !! name ->
  map py_str (ids_of (_entities (self st1))) = map py_str (ids_of (_entities (self st2))).
Proof.
intros H1 H2 Hfree Hsame.
unfold save_ids, write_file in Hsame. simpl in Hsame.
rewrite !lookup_insert_eq in Hsame. injection Hsame as Hsame.
assert (Hlines : forall es, es <> [] ->
          (forall e, In e es -> newline_free (py_str (unique_id e)) = true) ->
          split_lines (ids_text es) = map py_str (ids_of es)).
{ intros es Hne Hf. unfold ids_text, ids_of. rewrite map_map. apply split_lines_join.
  - destruct es; [congruence | discriminate].
  - apply Forall_forall. intros s Hs.
    apply list_elem_of_In, in_map_iff in Hs as (e & <- & He). now apply Hf. }
rewrite <- (Hlines _ H1), <- (Hlines _ H2), Hsame; [reflexivity | |];
  intros e He; apply Hfree, in_app_iff; auto.
Qed.

Lemma save_ids_text_injective_witness :
  _entities (self (ten_state_with ten_entities)) <> []
  /\ _entities (self (ten_state_at 3)) <> []
  /\ files (world (save_ids "ids.txt" (ten_state_with ten_entities))) !! "ids.txt"
     = files (world (save_ids "ids.txt" (ten_state_at 3))) !! "ids.txt"
  /\ map py_str (ids_of (_entities (self (ten_state_with ten_entities))))
     = map py_str (ids_of (_entities (self (ten_state_at 3)))).
Proof.
assert (H1 : _entities (self (ten_state_with ten_entities)) <> []) by discriminate.
assert (H2 : _entities (self (ten_state_at 3)) <> []) by discriminate.
split; [exact H1|]. split; [exact H2|]. split; [reflexivity|].
apply (save_ids_text_injective "ids.txt" _ _ H1 H2); [|reflexivity].
intros e He. simpl in He.
repeat (destruct He as [<-|He]; [reflexivity|]). contradiction.
Defined.

(** X16. The saved file does not record whether an identifier was an
    integer or a string, and [filter_ids] compares with [==]: given the
    lines of a file as strings, it keeps no entity whose identifier is an
    integer, whatever the lines are. *)
Theorem filter_ids_strings_never_match_integers (lines : list string) (st : State) :
  (forall e, In e (_entities (self st)) -> exists n, unique_id e = IdInt n) ->
  _entities (self (filter_ids (map IdStr lines) st)) = []
  /\ forall n, py_str (IdInt n) = py_str (IdStr (py_str (IdInt n))).
Proof.
intros Hint. split; [|reflexivity].
unfold filter_ids. simpl.
induction (_entities (self st)) as [|e es IH]; [reflexivity|]. simpl.
destruct (Hint e (or_introl eq_refl)) as [n Hn].
unfold in_set at 1. rewrite Hn.
rewrite bool_decide_eq_false_2.
- apply IH. intros e' He'. apply Hint. now right.
- intros Hin. apply list_elem_of_In, in_map_iff in Hin as (s & Hs & _). discriminate.
Qed.

Lemma filter_ids_strings_never_match_integers_witness :
  (forall e, In e (_entities (self (ten_state_with ten_entities))) ->
             exists n, unique_id e = IdInt n)
  /\ _entities (self (filter_ids (map IdStr (split_lines (ids_text ten_entities)))
                        (ten_state_with ten_entities)))
     = [].
Proof.
assert (H : forall e, In e (_entities (self (ten_state_with ten_entities))) ->
             exists n, unique_id e = IdInt n).
{ intros e He. simpl in He.
  repeat (destruct He as [<-|He]; [eexists; reflexivity|]). contradiction. }
split; [exact H|].
apply (filter_ids_strings_never_match_integers _ (ten_state_with ten_entities) H).
Defined.

(** ** [split] at its edges and in sequence *)

(** X17. [split] guards neither end of the fraction.  When the float
    product [len * p] is below 1 the input store is left with no entity and
    the copy holds them all; when it is [len] or more the input keeps them
    all and the copy is an empty store. *)
Theorem split_can_leave_an_empty_store
    (shuffle_with : nat -> list Entity -> list Entity)
    (Hperm : forall seed l, Permutation (shuffle_with seed l) l)
    (ds1 : ref) (p : Q) (h : heap) (w : World)
    (attrs : gmap string attr_value) (r : ref) (es : list Entity) :
  h !! ds1 = Some (ObjInstance attrs) ->
  attrs !! "_entities" = Some (AttrRef r) ->
  h !! r = Some (ObjEntityList es) ->
  (0 <= p)%Q ->
  let x := float_mul (inject_Z (Z.of_nat (length es))) p in
  exists ds2 h' w',
    split shuffle_with ds1 p h w = (Return (ds1, ds2), h', w')
    /\ ((x < 1)%Q ->
        store_entities h' ds1 = Some []
        /\ store_entities h' ds2 = Some (shuffle_with (rng w) es))
    /\ ((inject_Z (Z.of_nat (length es)) <= x)%Q ->
        store_entities h' ds1 = Some (shuffle_with (rng w) es)
        /\ store_entities h' ds2 = Some []).
Proof.
intros Hds Hattr Hr H0 x.
destruct (split_heap shuffle_with ds1 p h w attrs r es Hds Hattr Hr)
  as (ds2 & r1 & r2 & h' & Hsplit & _ & _ & _ & _ & _ & _ & H1 & H2 & Hl1 & Hl2 & _).
set (shuffled := shuffle_with (rng w) es) in *.
fold x in Hl1, Hl2.
assert (Hn : (0 <= inject_Z (Z.of_nat (length es)))%Q)
  by (change 0%Q with (inject_Z 0); rewrite <- Zle_Qle; lia).
assert (Hx : (0 <= x)%Q).
{ apply round_double_near. apply Qmult_le_0_compat; assumption. }
destruct (py_int_floor _ Hx) as [Hfloor Hpos].
rewrite py_slice_to_firstn in Hl1 by exact Hpos.
rewrite py_slice_from_skipn in Hl2 by exact Hpos.
assert (Hlen : length shuffled = length es) by (apply Permutation_length, Hperm).
exists ds2, h', (tick_rng (emit LogSplitWarning w)).
split; [exact Hsplit|]. split.
- intros Hlt.
  assert (Hk : py_int x = 0).
  { rewrite Hfloor. pose proof (Qfloor_lt_Z x 1 Hlt). rewrite Hfloor in Hpos. lia. }
  rewrite Hk in Hl1, Hl2. simpl in Hl1, Hl2.
  split; eapply store_entities_instance; eauto; apply lookup_insert_eq.
- intros Hge.
  assert (Hk : Z.of_nat (length es) <= py_int x).
  { rewrite Hfloor. rewrite <- (Qfloor_Z (Z.of_nat (length es))).
    apply Qfloor_resp_le. exact Hge. }
  rewrite firstn_all2 in Hl1 by lia. rewrite skipn_all2 in Hl2 by lia.
  split; eapply store_entities_instance; eauto; apply lookup_insert_eq.
Qed.

Lemma split_can_leave_an_empty_store_witness :
  (forall seed l, Permutation (demo_shuffle seed l) l)
  /\ seven_heap !! 5%positive
     = Some (ObjInstance (instance_dict seven_store 1%positive 2%positive 3%positive 4%positive))
  /\ seven_heap !! 4%positive = Some (ObjEntityList (_entities seven_store))
  /\ (0 <= py_float (1 # 10))%Q
  /\ (float_mul (inject_Z (Z.of_nat (length (_entities seven_store)))) (py_float (1 # 10))
      < 1)%Q
  /\ exists ds2 h',
       fst (fst (split demo_shuffle 5%positive (py_float (1 # 10)) seven_heap world0))
       = Return (5%positive, ds2)
       /\ store_entities h' 5%positive = Some [].
Proof.
assert (H0 : (0 <= py_float (1 # 10))%Q) by (vm_compute; discriminate).
assert (Hlt : (float_mul (inject_Z (Z.of_nat (length (_entities seven_store))))
                 (py_float (1 # 10)) < 1)%Q) by (vm_compute; reflexivity).
split; [exact demo_shuffle_perm|]. split; [reflexivity|]. split; [reflexivity|].
split; [exact H0|]. split; [exact Hlt|].
destruct (split_can_leave_an_empty_store demo_shuffle demo_shuffle_perm 5%positive
            (py_float (1 # 10)) seven_heap world0 _ 4%positive (_entities seven_store)
            eq_refl eq_refl eq_refl H0)
  as (ds2 & h' & w' & Hs & Hsmall & _).
exists ds2, h'. split; [rewrite Hs; reflexivity|].
apply Hsmall. exact Hlt.
Defined.

(** Seven entities split at one seventh: the exact product is below 1,
    the float product is 1.0, and the input store keeps one entity. *)
Example split_seven_at_one_seventh :
  (inject_Z 7 * float_div 1 7 < 1)%Q
  /\ float_mul (inject_Z 7) (float_div 1 7) = 1%Q
  /\ length <$> store_entities
                  (snd (fst (split demo_shuffle 5%positive (float_div 1 7)
                               seven_heap world0))) 5%positive
     = Some 1%nat.
Proof. split; [|split]; vm_compute; reflexivity. Qed.

(** X18. Splitting composes: splitting a store and then splitting the
    input again gives three stores that together hold the original
    entities, none repeated and none missing; the store split off first is
    not touched by the second split. *)
Theorem split_twice_partitions
    (shuffle_with : nat -> list Entity -> list Entity)
    (Hperm : forall seed l, Permutation (shuffle_with seed l) l)
    (ds1 : ref) (p q : Q) (h : heap) (w : World)
    (attrs : gmap string attr_value) (r : ref) (es : list Entity) :
  h !! ds1 = Some (ObjInstance attrs) ->
  attrs !! "_entities" = Some (AttrRef r) ->
  h !! r = Some (ObjEntityList es) ->
  exists ds2 h1 w1 ds3 h2 w2 first second third,
    split shuffle_with ds1 p h w = (Return (ds1, ds2), h1, w1)
    /\ split shuffle_with ds1 q h1 w1 = (Return (ds1, ds3), h2, w2)
    /\ ds2 <> ds3
    /\ store_entities h2 ds1 = Some first
    /\ store_entities h2 ds3 = Some third
    /\ store_entities h2 ds2 = Some second
    /\ store_entities h1 ds2 = Some second
    /\ Permutation (first ++ third ++ second) es.
Proof.
intros Hds Hattr Hr.
destruct (split_heap shuffle_with ds1 p h w attrs r es Hds Hattr Hr)
  as (ds2 & r1 & r2 & h1 & Hsplit1 & Hf2 & Hfr1 & Hfr2 & Hn1 & Hn2 & Hn3
      & H1 & H2 & Hl1 & Hl2 & _ & _).
set (es1 := py_slice_to (shuffle_with (rng w) es)
              (py_int (float_mul (inject_Z (Z.of_nat (length es))) p))) in *.
set (es2 := py_slice_from (shuffle_with (rng w) es)
              (py_int (float_mul (inject_Z (Z.of_nat (length es))) p))) in *.
set (w1 := tick_rng (emit LogSplitWarning w)) in *.
destruct (split_heap shuffle_with ds1 q h1 w1 _ r1 es1 H1 (lookup_insert_eq _ _ _) Hl1)
  as (ds3 & r3 & r4 & h2 & Hsplit2 & Hf3 & Hfr3 & Hfr4 & _ & _ & _
      & H1' & H3 & Hl3 & Hl4 & _ & Hframe).
assert (Hds2 : h2 !! ds2 = h1 !! ds2).
{ apply Hframe; intros ->; congruence. }
assert (Hr2 : h2 !! r2 = h1 !! r2).
{ apply Hframe; intros ->; congruence. }
exists ds2, h1, w1, ds3, h2, (tick_rng (emit LogSplitWarning w1)).
eexists. eexists. eexists.
split; [exact Hsplit1|]. split; [exact Hsplit2|].
split; [intros ->; congruence|].
split; [eapply store_entities_instance; [exact H1' | apply lookup_insert_eq | exact Hl3]|].
split; [eapply store_entities_instance; [exact H3 | apply lookup_insert_eq | exact Hl4]|].
split.
{ eapply store_entities_instance;
    [rewrite Hds2; exact H2 | apply lookup_insert_eq | rewrite Hr2; exact Hl2]. }
split; [eapply store_entities_instance; [exact H2 | apply lookup_insert_eq | exact Hl2]|].
rewrite app_assoc, py_slice_partition.
rewrite (Hperm (rng w1) es1). unfold es1, es2.
rewrite py_slice_partition. apply Hperm.
Qed.

Lemma split_twice_partitions_witness :
  (forall seed l, Permutation (demo_shuffle seed l) l)
  /\ seven_heap !! 5%positive
     = Some (ObjInstance (instance_dict seven_store 1%positive 2%positive 3%positive 4%positive))
  /\ seven_heap !! 4%positive = Some (ObjEntityList (_entities seven_store))
  /\ exists h2 first second third,
       store_entities h2 5%positive = Some first
       /\ store_entities h2 6%positive = Some second
       /\ Permutation (first ++ third ++ second) (_entities seven_store).
Proof.
split; [exact demo_shuffle_perm|]. split; [reflexivity|]. split; [reflexivity|].
destruct (split_twice_partitions demo_shuffle demo_shuffle_perm 5%positive (1 # 2) (1 # 2)
            seven_heap world0 _ 4%positive (_entities seven_store)
            eq_refl eq_refl eq_refl)
  as (ds2 & h1 & w1 & ds3 & h2 & w2 & first & second & third
      & Hs1 & _ & _ & Hfirst & _ & Hsecond & _ & HP).
exists h2, first, second, third.
split; [exact Hfirst|]. split; [|exact HP].
vm_compute in Hs1. injection Hs1 as <- _ _. exact Hsecond.
Defined.

(** ** The entity queue filler over an epoch *)

Section Filler.

Variable shuffle_with : nat -> list Entity -> list Entity.
Hypothesis shuffle_perm : forall seed l, Permutation (shuffle_with seed l) l.

Lemma filler_step_in_range st p :
  queues st = Some p ->
  queue_full (sample_queue p) = false ->
  queue_full (entity_queue p) = false ->
  0 <= list_pointer (self st) < Z.of_nat (length (_entities (self st))) ->
  exists st' entity,
    _entities (self st) !! Z.to_nat (list_pointer (self st)) = Some entity
    /\ async_fill_queue_step shuffle_with st = (Continues, st')
    /\ queues st' = Some (mkPipeline (queue_put (entity_queue p) entity) (sample_queue p))
    /\ length (_entities (self st')) = length (_entities (self st))
    /\ (list_pointer (self st) + 1 < Z.of_nat (length (_entities (self st))) ->
        list_pointer (self st') = list_pointer (self st) + 1
        /\ _entities (self st') = _entities (self st)
        /\ world st' = world st)
    /\ (list_pointer (self st) + 1 = Z.of_nat (length (_entities (self st))) ->
        list_pointer (self st') = 0
        /\ _entities (self st') = shuffle_with (rng (world st)) (_entities (self st))
        /\ world st' = tick_rng (emit LogShuffling (world st))).
Proof.
intros Hq Hsq Heq Hrange. unfold async_fill_queue_step. rewrite Hq, Hsq.
destruct (py_getitem (_entities (self st)) (list_pointer (self st)))
  as [[i entity]|] eqn:Hget.
2:{ apply py_getitem_None in Hget. lia. }
apply py_getitem_Some in Hget as (Hi & _ & _ & Hidx).
replace (list_pointer (self st) <? 0) with false in Hidx
  by (symmetry; apply Z.ltb_ge; lia).
replace (Z.to_nat (list_pointer (self st))) with i by lia.
rewrite Heq. simpl.
destruct (_ <=? _) eqn:Hwrap; [apply Z.leb_le in Hwrap | apply Z.leb_gt in Hwrap].
- eexists. exists entity. split; [exact Hi|]. split; [reflexivity|]. simpl.
  split; [reflexivity|].
  split; [apply Permutation_length, shuffle_perm|].
  split; [intros; lia|]. intros _. auto.
- eexists. exists entity. split; [exact Hi|]. split; [reflexivity|]. simpl.
  split; [reflexivity|]. split; [reflexivity|].
  split; [intros _; auto | intros; lia].
Qed.

Lemma queue_put_room {A} (q : Queue A) (x : A) (n : nat) :
  maxsize q <= 0 \/ Z.of_nat (length (items q)) + Z.of_nat (S n) <= maxsize q ->
  queue_full q = false
  /\ (maxsize (queue_put q x) <= 0
      \/ Z.of_nat (length (items (queue_put q x))) + Z.of_nat n <= maxsize (queue_put q x)).
Proof.
intros H. unfold queue_full, queue_put. simpl. rewrite length_app. simpl. split.
- apply andb_false_iff. destruct H as [H|H]; [left; apply Z.ltb_ge | right; apply Z.leb_gt]; lia.
- destruct H as [H|H]; [left | right]; lia.
Qed.

Lemma filler_epoch_from (k : nat) : forall st p,
  queues st = Some p ->
  queue_full (sample_queue p) = false ->
  maxsize (entity_queue p) <= 0
  \/ Z.of_nat (length (items (entity_queue p))) + Z.of_nat (S k) <= maxsize (entity_queue p) ->
  0 <= list_pointer (self st) ->
  list_pointer (self st) + Z.of_nat (S k) = Z.of_nat (length (_entities (self st))) ->
  exists st',
    async_fill_queue shuffle_with (S k) st = (Continues, st')
    /\ (items <$> (entity_queue <$> queues st'))
       = Some (items (entity_queue p)
               ++ skipn (Z.to_nat (list_pointer (self st))) (_entities (self st)))
    /\ (sample_queue <$> queues st') = Some (sample_queue p)
    /\ list_pointer (self st') = 0
    /\ _entities (self st') = shuffle_with (rng (world st)) (_entities (self st))
    /\ world st' = tick_rng (emit LogShuffling (world st)).
Proof.
induction k as [|k IH]; intros st p Hq Hsq Hroom Hptr Hlen.
- destruct (queue_put_room (entity_queue p) (mkEntity (IdInt 0) None) 0 Hroom) as [Heq _].
  destruct (filler_step_in_range st p Hq Hsq Heq ltac:(lia))
    as (st' & entity & Hi & Hstep & Hq' & _ & _ & Hwrap).
  destruct Hwrap as (Hp & Hes & Hw); [lia|].
  exists st'. cbn [async_fill_queue]. rewrite Hstep. split; [reflexivity|].
  rewrite Hq'. simpl. split.
  { f_equal. f_equal. rewrite (drop_S _ _ _ Hi).
    rewrite skipn_all2 by lia. reflexivity. }
  auto.
- destruct (queue_put_room (entity_queue p) (mkEntity (IdInt 0) None) (S k) Hroom) as [Heq _].
  destruct (filler_step_in_range st p Hq Hsq Heq ltac:(lia))
    as (st1 & entity & Hi & Hstep & Hq1 & Hl1 & Hnext & _).
  destruct Hnext as (Hp1 & Hes1 & Hw1); [lia|].
  destruct (queue_put_room (entity_queue p) entity (S k) Hroom) as [_ Hroom1].
  destruct (IH st1 _ Hq1 Hsq Hroom1 ltac:(lia) ltac:(rewrite Hes1; lia))
    as (st' & Hrun & Hitems & Hsample & Hp & Hes & Hw).
  exists st'. cbn [async_fill_queue]. rewrite Hstep. split; [exact Hrun|].
  rewrite Hitems. simpl. split.
  { f_equal. rewrite <- app_assoc. f_equal. rewrite Hes1, Hp1.
    rewrite (drop_S _ _ _ Hi). simpl. f_equal. f_equal. lia. }
  rewrite Hes, Hw, Hes1, Hw1. auto.
Qed.

(** X19. One epoch of the filler.  From a cursor inside the store, with
    the sample queue not full and room in the entity queue for the entities
    that remain, the filler puts exactly those entities, each once and in
    store order, behind what the entity queue held; it then reshuffles the
    store, logs it and starts again at cursor 0.  From cursor 0 that is
    every entity of the store exactly once before any repeats. *)
Theorem filler_offers_each_entity_once (st : State) (p : Pipeline) (n : nat) :
  queues st = Some p ->
  queue_full (sample_queue p) = false ->
  0 <= list_pointer (self st) ->
  (0 < n)%nat ->
  list_pointer (self st) + Z.of_nat n = Z.of_nat (length (_entities (self st))) ->
  maxsize (entity_queue p) <= 0
  \/ Z.of_nat (length (items (entity_queue p))) + Z.of_nat n <= maxsize (entity_queue p) ->
  exists st',
    async_fill_queue shuffle_with n st = (Continues, st')
    /\ (items <$> (entity_queue <$> queues st'))
       = Some (items (entity_queue p)
               ++ skipn (Z.to_nat (list_pointer (self st))) (_entities (self st)))
    /\ list_pointer (self st') = 0
    /\ _entities (self st') = shuffle_with (rng (world st)) (_entities (self st))
    /\ Permutation (_entities (self st')) (_entities (self st))
    /\ log (world st') = log (world st) ++ [LogShuffling].
Proof.
intros Hq Hsq Hptr Hn Hlen Hroom.
destruct n as [|k]; [lia|].
destruct (filler_epoch_from k st p Hq Hsq Hroom Hptr Hlen)
  as (st' & Hrun & Hitems & _ & Hp & Hes & Hw).
exists st'. split; [exact Hrun|]. split; [exact Hitems|]. split; [exact Hp|].
split; [exact Hes|]. split; [rewrite Hes; apply shuffle_perm|].
rewrite Hw. reflexivity.
Qed.

(** X20. With unbounded queues (the default, [queue_size=None]) the
    filler never pauses and never returns: on a non-empty store with the
    cursor inside it, every iteration goes on, so that after [n] iterations
    the entity queue holds [n] more entities (an unbounded sample queue is
    never full, whatever it holds). *)
Theorem filler_unbounded_never_pauses (n : nat) : forall (st : State) (p : Pipeline),
  queues st = Some p ->
  maxsize (sample_queue p) <= 0 ->
  maxsize (entity_queue p) <= 0 ->
  0 <= list_pointer (self st) < Z.of_nat (length (_entities (self st))) ->
  exists st' p',
    async_fill_queue shuffle_with n st = (Continues, st')
    /\ queues st' = Some p'
    /\ length (items (entity_queue p')) = (length (items (entity_queue p)) + n)%nat
    /\ sample_queue p' = sample_queue p
    /\ 0 <= list_pointer (self st') < Z.of_nat (length (_entities (self st'))).
Proof.
induction n as [|n IH]; intros st p Hq Hsm Hem Hrange.
- exists st, p. simpl. split; [reflexivity|]. split; [exact Hq|].
  split; [lia|]. split; [reflexivity | exact Hrange].
- assert (Hsq : queue_full (sample_queue p) = false).
  { unfold queue_full. apply andb_false_iff. left. apply Z.ltb_ge. exact Hsm. }
  assert (Heq : queue_full (entity_queue p) = false).
  { unfold queue_full. apply andb_false_iff. left. apply Z.ltb_ge. exact Hem. }
  destruct (filler_step_in_range st p Hq Hsq Heq Hrange)
    as (st1 & entity & _ & Hstep & Hq1 & Hl1 & Hnext & Hwrap).
  assert (Hrange1 : 0 <= list_pointer (self st1) < Z.of_nat (length (_entities (self st1)))).
  { rewrite Hl1.
    destruct (Z_lt_le_dec (list_pointer (self st) + 1)
                (Z.of_nat (length (_entities (self st))))) as [H|H].
    - destruct (Hnext H) as (-> & _). lia.
    - destruct Hwrap as (-> & _); lia. }
  destruct (IH st1 _ Hq1 Hsm Hem Hrange1) as (st' & p' & Hrun & Hq' & Hlen & Hs & Hr).
  exists st', p'. cbn [async_fill_queue]. rewrite Hstep.
  split; [exact Hrun|]. split; [exact Hq'|].
  split; [rewrite Hlen; simpl; rewrite length_app; simpl; lia|].
  split; [exact Hs | exact Hr].
Qed.

End Filler.

Lemma filler_offers_each_entity_once_witness :
  (forall seed l, Permutation (demo_shuffle seed l) l)
  /\ queues unbounded_pipeline = Some (mkPipeline (mkQueue 0 []) (mkQueue 0 []))
  /\ list_pointer (self unbounded_pipeline) + Z.of_nat 10
     = Z.of_nat (length (_entities (self unbounded_pipeline)))
  /\ exists st',
       async_fill_queue demo_shuffle 10 unbounded_pipeline = (Continues, st')
       /\ (items <$> (entity_queue <$> queues st')) = Some (rev ten_entities)
       /\ list_pointer (self st') = 0.
Proof.
split; [exact demo_shuffle_perm|]. split; [reflexivity|]. split; [reflexivity|].
destruct (filler_offers_each_entity_once demo_shuffle demo_shuffle_perm
            unbounded_pipeline _ 10 eq_refl eq_refl ltac:(simpl; lia) ltac:(lia)
            eq_refl ltac:(left; simpl; lia))
  as (st' & Hrun & Hitems & Hp & _).
exists st'. split; [exact Hrun|]. split; [exact Hitems | exact Hp].
Defined.

Lemma filler_unbounded_never_pauses_witness :
  (forall seed l, Permutation (demo_shuffle seed l) l)
  /\ queues unbounded_pipeline = Some (mkPipeline (mkQueue 0 []) (mkQueue 0 []))
  /\ 0 <= list_pointer (self unbounded_pipeline)
          < Z.of_nat (length (_entities (self unbounded_pipeline)))
  /\ exists st' p',
       async_fill_queue demo_shuffle 25 unbounded_pipeline = (Continues, st')
       /\ queues st' = Some p'
       /\ length (items (entity_queue p')) = 25%nat.
Proof.
split; [exact demo_shuffle_perm|]. split; [reflexivity|]. split; [simpl; lia|].
destruct (filler_unbounded_never_pauses demo_shuffle demo_shuffle_perm 25
            unbounded_pipeline _ eq_refl ltac:(simpl; lia) ltac:(simpl; lia)
            ltac:(simpl; lia))
  as (st' & p' & Hrun & Hq & Hlen & _).
exists st', p'. split; [exact Hrun|]. split; [exact Hq | exact Hlen].
Defined.

(** ** A worker draining the entity queue *)

Section Worker.

Variable get_sample : Entity -> option pyval * result pyval.

Lemma worker_run_app fuel1 fuel2 pc st pc1 st1 :
  async_add_to_sample_queue get_sample fuel1 pc st = (Continues, pc1, st1) ->
  async_add_to_sample_queue get_sample (fuel1 + fuel2) pc st
  = async_add_to_sample_queue get_sample fuel2 pc1 st1.
Proof.
revert pc st. induction fuel1 as [|fuel1 IH]; intros pc st H; simpl in H |- *.
- injection H as <- <-. reflexivity.
- destruct (async_add_to_sample_queue_step get_sample pc st) as [[[| | |e] pc'] st'];
    try discriminate.
  now apply IH.
Qed.

Lemma worker_drains (es : list Entity) : forall st eq_max sq,
  queues st = Some (mkPipeline (mkQueue eq_max es) sq) ->
  maxsize sq <= 0 ->
  (forall e x, In e es ->
               snd (fetch_sample get_sample (self st) e) = Raise x ->
               is_Exception x = true) ->
  exists fuel st',
    async_add_to_sample_queue get_sample fuel Fetching st = (Continues, Fetching, st')
    /\ (fuel <= 2 * length es)%nat
    /\ self st' = self st
    /\ queues st'
       = Some (mkPipeline (mkQueue eq_max [])
                 (mkQueue (maxsize sq)
                    (items sq ++ flat_map (accepted get_sample (self st)) es))).
Proof.
induction es as [|e es IH]; intros st eq_max sq Hq Hmax Hsafe.
- exists 0%nat, st. simpl. split; [reflexivity|]. split; [lia|]. split; [reflexivity|].
  rewrite Hq, app_nil_r. destruct sq. reflexivity.
- assert (Hfull : forall its : list pyval, queue_full (mkQueue (maxsize sq) its) = false).
  { intros its. unfold queue_full. simpl. apply andb_false_iff. left.
    apply Z.ltb_ge. exact Hmax. }
  assert (Hstep : exists k pc1 st1,
            async_add_to_sample_queue get_sample k Fetching st = (Continues, Fetching, st1)
            /\ pc1 = Fetching /\ (k <= 2)%nat /\ self st1 = self st
            /\ queues st1
               = Some (mkPipeline (mkQueue eq_max es)
                         (mkQueue (maxsize sq)
                            (items sq ++ accepted get_sample (self st) e)))).
  { unfold accepted.
    destruct (snd (fetch_sample get_sample (self st) e)) as [v|x] eqn:Hf.
    - destruct (py_truthy v) eqn:Hv.
      + exists 2%nat, Fetching. eexists. cbn [async_add_to_sample_queue].
        unfold async_add_to_sample_queue_step at 1. rewrite Hq. cbn [items entity_queue].
        rewrite Hf, Hv.
        unfold async_add_to_sample_queue_step. cbn [queues sample_queue entity_queue].
        destruct sq as [ms its]. cbn [maxsize items] in *.
        rewrite (Hfull its). split; [reflexivity|]. auto.
      + exists 1%nat, Fetching. eexists. cbn [async_add_to_sample_queue].
        unfold async_add_to_sample_queue_step. rewrite Hq. cbn [items entity_queue].
        rewrite Hf, Hv. split; [reflexivity|]. simpl. rewrite app_nil_r.
        destruct sq. auto.
    - exists 1%nat, Fetching. eexists. cbn [async_add_to_sample_queue].
      unfold async_add_to_sample_queue_step. rewrite Hq. cbn [items entity_queue].
      rewrite Hf. rewrite (Hsafe e x (or_introl eq_refl) Hf).
      split; [reflexivity|]. split; [reflexivity|]. split; [lia|].
      destruct (_ =? 3); simpl; rewrite app_nil_r; destruct sq; auto. }
  destruct Hstep as (k & pc1 & st1 & Hrun1 & _ & Hk & Hself1 & Hq1).
  destruct (IH st1 eq_max _ Hq1 Hmax) as (fuel & st' & Hrun & Hfuel & Hself & Hq').
  { intros e' x He' Hx. rewrite Hself1 in Hx. apply (Hsafe e' x); [now right | exact Hx]. }
  exists (k + fuel)%nat, st'.
  rewrite (worker_run_app k fuel _ _ _ _ Hrun1).
  split; [exact Hrun|]. split; [simpl; lia|]. split; [congruence|].
  rewrite Hq'. simpl. rewrite Hself1, <- app_assoc. reflexivity.
Qed.

(** X21. A worker that finds the entities [es] in the entity queue and an
    unbounded sample queue takes them all, in queue order, each exactly
    once and whether or not its sample is accepted, and puts behind what
    the sample queue held exactly the samples that were accepted, in the
    same order.  Its own copy of the data source is unchanged, and with the
    entity queue empty it then waits.  (Samples raising nothing but ordinary
    exceptions, which the worker swallows.) *)
Theorem worker_drains_entity_queue (st : State) (p : Pipeline) :
  queues st = Some p ->
  maxsize (sample_queue p) <= 0 ->
  (forall e x, In e (items (entity_queue p)) ->
               snd (fetch_sample get_sample (self st) e) = Raise x ->
               is_Exception x = true) ->
  exists fuel st',
    async_add_to_sample_queue get_sample fuel Fetching st = (Continues, Fetching, st')
    /\ (fuel <= 2 * length (items (entity_queue p)))%nat
    /\ self st' = self st
    /\ (items <$> (entity_queue <$> queues st')) = Some []
    /\ (items <$> (sample_queue <$> queues st'))
       = Some (items (sample_queue p)
               ++ flat_map (accepted get_sample (self st)) (items (entity_queue p)))
    /\ fst (fst (async_add_to_sample_queue_step get_sample Fetching st')) = Waits.
Proof.
intros Hq Hmax Hsafe. destruct p as [[eq_max es] sq]. simpl in *.
destruct (worker_drains es st eq_max sq Hq Hmax Hsafe)
  as (fuel & st' & Hrun & Hfuel & Hself & Hq').
exists fuel, st'. split; [exact Hrun|]. split; [exact Hfuel|]. split; [exact Hself|].
rewrite Hq'. simpl. split; [reflexivity|]. split; [reflexivity|].
unfold async_add_to_sample_queue_step. rewrite Hq'. reflexivity.
Qed.

End Worker.

Lemma worker_drains_entity_queue_witness :
  queues two_entities_queued
  = Some (mkPipeline (mkQueue 0 (firstn 2 ten_entities)) (mkQueue 0 []))
  /\ maxsize (mkQueue 0 (@nil pyval)) <= 0
  /\ exists fuel st',
       async_add_to_sample_queue demo_get_sample fuel Fetching two_entities_queued
       = (Continues, Fetching, st')
       /\ (items <$> (sample_queue <$> queues st'))
          = Some [VTuple [VInt 0; VStr "label"]; VTuple [VInt 1; VStr "label"]].
Proof.
split; [reflexivity|]. split; [simpl; lia|].
destruct (worker_drains_entity_queue demo_get_sample two_entities_queued _ eq_refl
            ltac:(simpl; lia))
  as (fuel & st' & Hrun & _ & _ & _ & Hsamples & _).
{ intros e x _ H. discriminate H. }
exists fuel, st'. split; [exact Hrun | exact Hsamples].
Defined.

(** ** The pipeline end to end *)

Section Pipeline.

Variable get_sample : Entity -> option pyval * result pyval.
Variable shuffle_with : nat -> list Entity -> list Entity.
Variable virtual_memory_percent : nat -> Q.
Hypothesis shuffle_perm : forall seed l, Permutation (shuffle_with seed l) l.

(** X22. The pipeline preserves the order of the store.  With unbounded,
    empty queues and the cursor at 0: once the filler has walked the store
    and a worker has drained the entity queue, [next] unpacks the first
    [batch_size] accepted samples of the store, in store order, provided
    the memory in use stays at or below the threshold while it does.  (Each
    process works on its own copy of the data source and shares the
    queues.) *)
Theorem pipeline_delivers_in_store_order
    (size0 : option Z) (st : State) (eq_max sq_max : Z) :
  workers (self st) <> 1 ->
  queues st = Some (mkPipeline (mkQueue eq_max []) (mkQueue sq_max [])) ->
  eq_max <= 0 -> sq_max <= 0 ->
  list_pointer (self st) = 0 ->
  _entities (self st) <> [] ->
  (forall e x, In e (_entities (self st)) ->
               snd (fetch_sample get_sample (self st) e) = Raise x ->
               is_Exception x = true) ->
  (forall k, (float_div (virtual_memory_percent k) 100 <= max_mem_percent (self st))%Q) ->
  0 < default (batch_size (self st)) size0 ->
  let n := Z.to_nat (default (batch_size (self st)) size0) in
  let produced := flat_map (accepted get_sample (self st)) (_entities (self st)) in
  (n <= length produced)%nat ->
  exists filler fuel worker,
    async_fill_queue shuffle_with (length (_entities (self st))) st = (Continues, filler)
    /\ async_add_to_sample_queue get_sample fuel Fetching (share filler st)
       = (Continues, Fetching, worker)
    /\ fst (next get_sample virtual_memory_percent size0 (share worker st))
       = match unpack_batch (convert_batch_to_np (self st)) (firstn n produced) with
         | Return b => Done b
         | Raise e => Fails e
         end.
Proof.
intros Hw Hq Heq Hsq Hptr Hne Hsafe Hcalm Hpos n produced Hn.
assert (Hlen : exists k, length (_entities (self st)) = S k).
{ destruct (_entities (self st)); [congruence | eexists; reflexivity]. }
destruct Hlen as [k Hlen].
assert (Hsqf : queue_full (sample_queue (mkPipeline (mkQueue eq_max []) (mkQueue sq_max (@nil pyval)))) = false).
{ unfold queue_full. simpl. apply andb_false_iff. left. apply Z.ltb_ge. exact Hsq. }
destruct (filler_epoch_from shuffle_with shuffle_perm k st _ Hq Hsqf)
  as (filler & Hfill & Hitems & Hsample & _);
  [left; simpl; exact Heq | lia | rewrite Hptr, Hlen; lia |].
rewrite Hptr in Hitems. simpl in Hitems.
destruct (queues filler) as [[[fm fits] fsq]|] eqn:Hqf; [|discriminate].
simpl in Hitems, Hsample. injection Hitems as ->. injection Hsample as ->.
assert (Hqw : queues (share filler st)
              = Some (mkPipeline (mkQueue fm (_entities (self st))) (mkQueue sq_max [])))
  by (unfold share; simpl; exact Hqf).
destruct (worker_drains get_sample (_entities (self st)) (share filler st) fm _ Hqw Hsq)
  as (fuel & worker & Hrun & _ & Hself & Hqd).
{ intros e x He Hx. apply (Hsafe e x); [exact He | exact Hx]. }
simpl in Hqd, Hself.
exists filler, fuel, worker.
split; [rewrite Hlen; exact Hfill|].
split; [exact Hrun|].
set (sta := share worker st).
assert (Hqa : queues sta
              = Some (mkPipeline (mkQueue fm []) (mkQueue sq_max produced)))
  by (unfold sta, share; simpl; rewrite Hqd; reflexivity).
unfold next.
change (self sta) with (self st).
set (size := match size0 with Some x => x | None => batch_size (self st) end) in *.
assert (E : default (batch_size (self st)) size0 = size) by (destruct size0; reflexivity).
rewrite E in Hpos. subst n. rewrite E in Hn |- *.
destruct (batch_loop_from_queue get_sample virtual_memory_percent
            (firstn (Z.to_nat size) produced) (next_fuel size sta) size sta []
            _ (skipn (Z.to_nat size) produced) Hw Hqa
            (eq_sym (firstn_skipn _ _))) as [Hdone _].
{ unfold sta, share. simpl. rewrite Hptr, Hlen. lia. }
{ exact Hcalm. }
{ rewrite length_firstn. unfold next_fuel. lia. }
destruct Hdone as (st' & Hloop & _ & Hc & _).
{ rewrite length_firstn. simpl. lia. }
rewrite Hloop. simpl.
destruct Hc as (_&_&_&_&_&_&_&Hc). rewrite Hc. change (self sta) with (self st).
destruct (unpack_batch _ _); reflexivity.
Qed.

End Pipeline.

Lemma pipeline_delivers_in_store_order_witness :
  (forall seed l, Permutation (demo_shuffle seed l) l)
  /\ workers (self unbounded_pipeline) <> 1
  /\ queues unbounded_pipeline = Some (mkPipeline (mkQueue 0 []) (mkQueue 0 []))
  /\ list_pointer (self unbounded_pipeline) = 0
  /\ (forall k, (float_div (calm_memory k) 100
                 <= max_mem_percent (self unbounded_pipeline))%Q)
  /\ exists filler fuel worker,
       async_fill_queue demo_shuffle 10 unbounded_pipeline = (Continues, filler)
       /\ async_add_to_sample_queue demo_get_sample fuel Fetching
            (share filler unbounded_pipeline)
          = (Continues, Fetching, worker)
       /\ fst (next demo_get_sample calm_memory None (share worker unbounded_pipeline))
          = Done (mkBatch [VInt 9; VInt 8; VInt 7; VInt 6]
                    [VStr "label"; VStr "label"; VStr "label"; VStr "label"] true).
Proof.
assert (Hw : workers (self unbounded_pipeline) <> 1) by discriminate.
assert (Hcalm : forall k, (float_div (calm_memory k) 100
                           <= max_mem_percent (self unbounded_pipeline))%Q)
  by (intros k; vm_compute; discriminate).
split; [exact demo_shuffle_perm|]. split; [exact Hw|].
split; [reflexivity|]. split; [reflexivity|]. split; [exact Hcalm|].
destruct (pipeline_delivers_in_store_order demo_get_sample demo_shuffle calm_memory
            demo_shuffle_perm None unbounded_pipeline 0 0 Hw eq_refl
            ltac:(lia) ltac:(lia) eq_refl ltac:(discriminate))
  as (filler & fuel & worker & Hfill & Hrun & Hnext).
- intros e x _ H. discriminate H.
- exact Hcalm.
- simpl. lia.
- simpl. lia.
- exists filler, fuel, worker. split; [exact Hfill|]. split; [exact Hrun|].
  rewrite Hnext. reflexivity.
Defined.

(** ** The prefilter stage as one filter *)

Lemma fold_keep_passes pfs es :
  fold_left keep pfs es = List.filter (passes pfs) es.
Proof.
revert es. induction pfs as [|pf pfs IH]; intros es; simpl.
- unfold passes. simpl. induction es as [|e es IHes]; simpl; [reflexivity|].
  now rewrite <- IHes.
- rewrite IH. unfold keep. rewrite filter_twice. apply filter_ext.
  intros e. unfold passes. reflexivity.
Qed.

Lemma filter_Permutation_list {A} (f : A -> bool) (l l' : list A) :
  Permutation l l' -> Permutation (List.filter f l) (List.filter f l').
Proof.
induction 1 as [| x l l' _ IH | x y l | l l' l'' _ IH1 _ IH2]; simpl.
- constructor.
- destruct (f x); [constructor|]; exact IH.
- destruct (f x), (f y); try reflexivity. constructor.
- etransitivity; eassumption.
Qed.

Lemma filter_sublist {A} (f : A -> bool) (l : list A) : sublist (List.filter f l) l.
Proof.
induction l as [|x l IH]; simpl; [constructor|].
destruct (f x); [apply sublist_skip | apply sublist_cons]; exact IH.
Qed.

Lemma prefilter_entities st :
  _entities (self (__prefilter st))
  = List.filter (passes (prefilters (self st))) (_entities (self st)).
Proof.
unfold __prefilter.
pose proof (prefilter_from_entities 0 (prefilters (self st)) (_entities (self st))
              (match prefilters (self st) with
               | [] => world st
               | _ :: _ => emit LogPrefiltering (world st)
               end)) as H.
destruct (prefilter_from _ _ _ _) as [es w']. simpl in *. subst es.
apply fold_keep_passes.
Qed.

(** X24. Prefiltering is idempotent and only removes: running the stage
    a second time changes no entity, and the entities it leaves are a
    subsequence of those it found (same relative order, never more). *)
Theorem prefilter_idempotent_sublist (st : State) :
  _entities (self (__prefilter (__prefilter st))) = _entities (self (__prefilter st))
  /\ sublist (_entities (self (__prefilter st))) (_entities (self st))
  /\ (length (_entities (self (__prefilter st))) <= length (_entities (self st)))%nat.
Proof.
assert (Hpf : prefilters (self (__prefilter st)) = prefilters (self st)).
{ unfold __prefilter. destruct (prefilter_from _ _ _ _). reflexivity. }
rewrite (prefilter_entities (__prefilter st)), Hpf, prefilter_entities.
split.
- rewrite filter_twice. apply filter_ext. intros e. destruct (passes _ e); reflexivity.
- split; [apply filter_sublist | apply sublist_length, filter_sublist].
Qed.

(** ** The constructor *)

Section Init.

Variable shuffle_with : nat -> list Entity -> list Entity.
Hypothesis shuffle_perm : forall seed l, Permutation (shuffle_with seed l) l.

Lemma prefilter_from_processes i pfs es w :
  processes (snd (prefilter_from i pfs es w)) = processes w.
Proof.
revert i es w. induction pfs as [|pf pfs IH]; intros i es w; simpl; [reflexivity|].
rewrite IH. reflexivity.
Qed.

Lemma prefilter_processes st :
  processes (world (__prefilter st)) = processes (world st).
Proof.
unfold __prefilter.
set (w0 := match prefilters (self st) with
           | [] => world st
           | _ :: _ => emit LogPrefiltering (world st)
           end).
pose proof (prefilter_from_processes 0 (prefilters (self st)) (_entities (self st)) w0) as H.
destruct (prefilter_from 0 (prefilters (self st)) (_entities (self st)) w0) as [es' w'].
simpl in *. rewrite H. unfold w0. destruct (prefilters (self st)); reflexivity.
Qed.

Lemma start_processes ps w :
  processes (fold_left (fun w3 p => start_process p w3) ps w) = processes w ++ ps.
Proof.
revert w. induction ps as [|p ps IH]; intros w; simpl; [now rewrite app_nil_r|].
rewrite IH. simpl. now rewrite <- app_assoc.
Qed.

Lemma init_cases retrieval cs ignore_cache bs tmo pfs verb mmp wk qs conv w st :
  let es := List.filter (passes pfs)
              (shuffle_with (rng (match retrieval with
                                  | None => emit LogNoRetrieval w
                                  | Some _ => w
                                  end))
                 (loaded_entities retrieval ignore_cache)) in
  __init__ shuffle_with retrieval (IsList cs) ignore_cache bs tmo (IsList pfs) verb mmp wk
    qs conv w = Return st ->
  0 < wk /\ (wk = 1 -> qs = None) /\ es <> []
  /\ self st = mkDataSource mmp verb cs pfs es bs 0 tmo wk conv
  /\ queues st = (if 1 <? wk
                  then Some (mkPipeline (new_queue qs) (new_queue qs))
                  else None)
  /\ processes (world st)
     = processes w ++ (if 1 <? wk
                       then FillerProcess :: repeat WorkerProcess (Z.to_nat wk)
                       else []).
Proof.
intros es. unfold __init__.
destruct (0 <? wk) eqn:Hwk; simpl; [|discriminate].
apply Z.ltb_lt in Hwk.
destruct ((wk =? 1) && match qs with Some _ => true | None => false end) eqn:Hq;
  [discriminate|].
assert (Hqs : wk = 1 -> qs = None).
{ intros ->. simpl in Hq. destruct qs; [discriminate | reflexivity]. }
assert (Hload : (match retrieval with
                 | None => ([mkEntity (IdInt 0) None], emit LogNoRetrieval w)
                 | Some r =>
                     if negb ignore_cache && is_cached r
                     then (load_from_cache r, w)
                     else (map (fun id_ => mkEntity id_ None) (list_ids r), w)
                 end)
                = (loaded_entities retrieval ignore_cache,
                   match retrieval with
                   | None => emit LogNoRetrieval w
                   | Some _ => w
                   end)).
{ unfold loaded_entities. destruct retrieval as [r|]; [|reflexivity].
  destruct (negb ignore_cache && is_cached r); reflexivity. }
rewrite Hload. unfold shuffle. cbn [fst snd].
match goal with |- context [__prefilter ?s] =>
  pose proof (prefilter_entities s) as Hpf;
  assert (Hcfg : self (__prefilter s)
                 = set_entities (self s) (_entities (self (__prefilter s))));
  [unfold __prefilter; destruct (prefilter_from _ _ _ _); reflexivity|];
  pose proof (prefilter_processes s) as Hproc;
  destruct (__prefilter s) as [d q w'] eqn:Hst
end.
simpl in Hpf, Hcfg, Hproc. fold es in Hpf.
assert (Hq' : q = None).
{ unfold __prefilter in Hst. destruct (prefilter_from _ _ _ _). injection Hst as _ <- _.
  reflexivity. }
assert (Hw0 : processes w' = processes w).
{ rewrite Hproc. destruct retrieval; reflexivity. }
subst q. rewrite Hcfg, Hpf. simpl.
destruct (1 <? wk) eqn:Hmulti; simpl.
- destruct es as [|e es']; simpl; [discriminate|].
  intros H. injection H as <-. simpl. rewrite start_processes. simpl.
  rewrite Hw0, <- app_assoc. simpl.
  repeat split; try discriminate; assumption.
- destruct es as [|e es']; simpl; [discriminate|].
  intros H. injection H as <-. simpl. rewrite Hw0, app_nil_r.
  repeat split; try discriminate; assumption.
Qed.

(** X26. A data source that was constructed was given lists of
    controllers and of prefilters and a positive worker count; its cursor is
    at 0 and its store is not empty; the store holds exactly the loaded
    entities that every prefilter accepts, each as often as it was loaded;
    the other attributes are the arguments.  With one worker it has no
    queues and has started no process.  With more it has the two queues,
    bounded by [queue_size] when one is given, and has started the filler
    and then one worker process per worker: from then on what the queues
    hold is up to those processes. *)
Theorem init_establishes retrieval cs ignore_cache bs tmo pfs verb mmp wk qs conv w st :
  __init__ shuffle_with retrieval cs ignore_cache bs tmo pfs verb mmp wk qs conv w
  = Return st ->
  exists cs' pfs',
    cs = IsList cs' /\ pfs = IsList pfs'
    /\ 0 < wk
    /\ list_pointer (self st) = 0
    /\ _entities (self st) <> []
    /\ Permutation (_entities (self st))
         (List.filter (passes pfs') (loaded_entities retrieval ignore_cache))
    /\ (controllers (self st) = cs' /\ prefilters (self st) = pfs'
        /\ batch_size (self st) = bs /\ workers (self st) = wk
        /\ max_mem_percent (self st) = mmp /\ convert_batch_to_np (self st) = conv)
    /\ (wk = 1 ->
        qs = None /\ queues st = None /\ processes (world st) = processes w)
    /\ (1 < wk ->
        (exists p, queues st = Some p
                   /\ maxsize (entity_queue p) = default 0 qs
                   /\ maxsize (sample_queue p) = default 0 qs)
        /\ processes (world st)
           = processes w ++ FillerProcess :: repeat WorkerProcess (Z.to_nat wk)).
Proof.
intros Hinit.
destruct cs as [cs'|]; [|discriminate Hinit].
destruct pfs as [pfs'|]; [|discriminate Hinit].
exists cs', pfs'. split; [reflexivity|]. split; [reflexivity|].
pose proof (init_cases retrieval cs' ignore_cache bs tmo pfs' verb mmp wk qs conv w st Hinit)
  as (H1 & H2 & H3 & Hself & Hq & Hproc).
rewrite Hself. simpl.
split; [exact H1|]. split; [reflexivity|]. split; [exact H3|].
split; [apply filter_Permutation_list, shuffle_perm|].
split; [repeat split|].
split.
- intros ->. rewrite Hq, Hproc. simpl. rewrite app_nil_r. auto.
- intros Hm. rewrite Hq, Hproc. apply Z.ltb_lt in Hm. rewrite Hm.
  split; [|reflexivity]. eexists. split; [reflexivity|]. split; reflexivity.
Qed.

End Init.

(** No identifier is below 0: the data source is empty and is refused. *)
Example init_refuses_empty_store :
  __init__ demo_shuffle (Some ten_retrieval) (IsList []) false 4 None
    (IsList [id_below 0]) 0 default_max_mem_percent 1 None true world0
  = Raise (AssertionError "Cannot initialize an empty data source").
Proof. reflexivity. Qed.

(** A tuple of controllers is refused before anything else is looked at. *)
Example init_refuses_a_tuple :
  __init__ demo_shuffle None NotList false 4 None (IsList []) 0
    default_max_mem_percent 0 (Some 1) true world0
  = Raise (AssertionError "Please make augmentors a list in all data sources").
Proof. reflexivity. Qed.

Lemma init_establishes_witness :
  (forall seed l, Permutation (demo_shuffle seed l) l)
  /\ (exists st, two_worker_store = Return st)
  /\ list_pointer (self (state_of two_worker_store)) = 0
  /\ Permutation (_entities (self (state_of two_worker_store)))
       (List.filter (passes []) (loaded_entities (Some ten_retrieval) false))
  /\ processes (world (state_of two_worker_store))
     = [FillerProcess; WorkerProcess; WorkerProcess]
  /\ maxsize <$> (sample_queue <$> queues (state_of two_worker_store)) = Some 1.
Proof.
assert (Hinit : two_worker_store = Return (state_of two_worker_store)) by reflexivity.
split; [exact demo_shuffle_perm|]. split; [eexists; exact Hinit|].
destruct (init_establishes demo_shuffle demo_shuffle_perm (Some ten_retrieval) (IsList [])
            false 4 None (IsList []) 0 default_max_mem_percent 2 (Some 1) true world0
            (state_of two_worker_store) Hinit)
  as (cs' & pfs' & _ & Hpfs & _ & Hp & _ & Hperm & _ & _ & Hmulti).
injection Hpfs as <-.
destruct Hmulti as [(p & Hq & _ & Hmax) Hproc]; [lia|].
split; [exact Hp|]. split; [exact Hperm|]. split; [exact Hproc|].
rewrite Hq. simpl. rewrite Hmax. reflexivity.
Defined.

(** ** Adding a data source to a union *)

Section AddUnion.

Variable get_sample : Entity -> option pyval * result pyval.
Variable virtual_memory_percent : nat -> Q.

(** A single-worker call that returns has moved the cursor forward and
    left it inside the store. *)
Lemma next_Done_progress (size0 : option Z) st b st' :
  workers (self st) = 1 ->
  next get_sample virtual_memory_percent size0 st = (Done b, st') ->
  list_pointer (self st) < list_pointer (self st')
  /\ list_pointer (self st') < Z.of_nat (length (_entities (self st')))
  /\ length (_entities (self st')) = length (_entities (self st))
  /\ workers (self st') = 1.
Proof.
intros Hw H. unfold next in H.
set (size := match size0 with Some x => x | None => batch_size (self st) end) in *.
destruct (batch_loop get_sample virtual_memory_percent (next_fuel size st) size st [])
  as [[batch| | |] st1] eqn:Hloop; try discriminate.
destruct (unpack_batch _ batch) as [b'|e] eqn:Hu; [|discriminate].
injection H as <- <-.
pose proof (batch_loop_Done _ _ _ _ _ _ _ _ Hloop) as (Hc & Hl & Hlen & _).
pose proof (batch_loop_cursor _ _ _ _ _ _ _ _ Hw Hloop) as [Hcount Hend].
destruct (Z_le_gt_dec size 0) as [Hneg|Hpos].
{ rewrite batch_loop_exit in Hloop by (simpl; lia).
  injection Hloop as <- <-. discriminate. }
specialize (Hlen ltac:(simpl; lia)). simpl in Hcount.
destruct Hend as [[_ ->] | Hend]; [simpl in Hlen; lia|].
rewrite Hl. destruct Hc as (_&_&_&_&_&_&Hc&_).
split; [lia|]. split; [exact Hend|]. split; [reflexivity | congruence].
Qed.

Lemma extend_with_self_fails fuel : forall dss st,
  workers (self st) = 1 ->
  (Z.to_nat (Z.of_nat (length (_entities (self st))) - list_pointer (self st)) < fuel)%nat ->
  exists e batches st',
    extend_with_self get_sample virtual_memory_percent fuel dss st
    = (Fails e, dss ++ map MemberBatch batches, st').
Proof.
induction fuel as [|fuel IH]; intros dss st Hw Hfuel; [lia|].
cbn [extend_with_self].
destruct (next get_sample virtual_memory_percent None st) as [[b|e| |] st1] eqn:Hn.
- destruct (next_Done_progress None st b st1 Hw Hn) as (Hp & Hend & Hl & Hw1).
  destruct (IH (dss ++ [MemberBatch b]) st1 Hw1) as (e & batches & st' & Hrun); [lia|].
  exists e, (b :: batches), st'. rewrite Hrun, <- app_assoc. reflexivity.
- exists e, [], st1. rewrite app_nil_r. reflexivity.
- exfalso. unfold next in Hn.
  pose proof (batch_loop_no_wait get_sample virtual_memory_percent
                (next_fuel (batch_size (self st)) st) (batch_size (self st)) st [] Hw) as Hnw.
  destruct (batch_loop _ _ _ _ _ _) as [[batch| | |] st2]; simpl in Hnw;
    [destruct (unpack_batch _ _); discriminate | discriminate | congruence | discriminate].
- exfalso. unfold next in Hn.
  pose proof (batch_loop_fuel get_sample virtual_memory_percent
                (next_fuel (batch_size (self st)) st) (batch_size (self st)) st []) as Hnf.
  destruct (batch_loop _ _ _ _ _ _) as [[batch| | |] st2]; simpl in Hnf;
    [destruct (unpack_batch _ _); discriminate | discriminate | discriminate |].
  apply Hnf; [|reflexivity]. unfold next_fuel. simpl. lia.
Qed.

(** X27. Adding a single-worker data source to a union never gives a
    union.  The union's list is extended by iterating over the data source,
    that is by calling [next] until it raises, and in single-worker mode it
    always does: the exception reaches the caller of [+], and the union's own
    list is left holding its members followed by the batches drawn so far,
    not by the data source.  Adding anything that is neither a data source
    nor a union raises as well; adding a data source gives the union of the
    two, left operand first. *)
Theorem add_to_union_raises (dss : list union_member) (d : DataSource) (st : State) :
  workers (self st) = 1 ->
  (exists e batches st',
     __add__ get_sample virtual_memory_percent (OperandUnion dss) st
     = (Fails e, dss ++ map MemberBatch batches, st'))
  /\ (exists e, fst (fst (__add__ get_sample virtual_memory_percent OperandOther st))
                = Fails e)
  /\ fst (fst (__add__ get_sample virtual_memory_percent (OperandSource d) st))
     = Done [MemberSource (self st); MemberSource d].
Proof.
intros Hw. split; [|split; [eexists; reflexivity | reflexivity]].
unfold __add__. apply extend_with_self_fails; [exact Hw | lia].
Qed.

End AddUnion.

Lemma add_to_union_raises_witness :
  workers (self (ten_state_with ten_entities)) = 1
  /\ exists b1 b2 st',
       __add__ demo_get_sample calm_memory (OperandUnion []) (ten_state_with ten_entities)
       = (Fails (NameError "reset_queue"), [MemberBatch b1; MemberBatch b2], st').
Proof.
split; [reflexivity|].
destruct (add_to_union_raises demo_get_sample calm_memory [] (self (ten_state_with ten_entities))
            (ten_state_with ten_entities) eq_refl) as [(e & batches & st' & H) _].
vm_compute in H.
destruct batches as [|b1 [|b2 [|b3 batches]]]; try discriminate H.
injection H as <- <- <- <-.
eexists. eexists. eexists. vm_compute. reflexivity.
Defined.
